(** * vocafuse-node: a shallow embedding of the SDK core

    The development follows the layout of the TypeScript sources:

    - [Js]: the JavaScript primitives the SDK relies on (exceptions,
      truthiness, [startsWith], [slice], [includes], [parseInt], and the
      resource regular expressions of the error handler);
    - [Crypto]: Node's [createHmac('sha256', key)], [Buffer.from(s, 'hex')] and
      [timingSafeEqual], written out from FIPS 180-4 and RFC 2104;
    - [Webhook]: [src/webhook/request-validator.ts];
    - [Axios]: the transport's request, response and error records, and the
      API envelope of [src/types/common.ts];
    - [Errors]: [src/errors/vocafuse-error.ts];
    - [ErrorHandler]: [src/errors/error-handler.ts];
    - [Http]: the retry interceptor of [src/client.ts] and [_get] of
      [src/http/base-resource.ts], over a scripted transport;
    - [Voicenotes]: [list] and the [iterate] generator of
      [src/resources/voicenotes.ts];
    - [AsSpecified], [Samples]: the specification's wording of two functions
      and the data of the repository's unit tests;
    - the modules after these hold the properties.

    JavaScript strings are modelled by [string], read as the UTF-8 bytes that
    [createHmac] sees; the numbers the SDK uses as counters, status codes,
    delays, page indices and limits are modelled by [Z]. *)

From Stdlib Require Import ZArith List Bool Lia.
From Stdlib Require Import Strings.String Strings.Ascii Strings.Byte.
From Stdlib Require Import Numbers.DecimalString Numbers.DecimalPos.
Import ListNotations.

Set Implicit Arguments.

(* ------------------------------------------------------------------------- *)
(** ** JavaScript values and string primitives *)

Module Js.
Local Open Scope string_scope.

(** Outcome of evaluating code that may [throw]. *)
Inductive exn : Type :=
| RangeError (msg : string)
| TypeError (msg : string).

Inductive completion (A : Type) : Type :=
| Normal (a : A)
| Throw (e : exn).
Arguments Normal {A} a.
Arguments Throw {A} e.

(** [try { body } catch { handler }] *)
Definition try_catch {A} (body : completion A) (handler : exn -> completion A)
  : completion A :=
  match body with
  | Normal a => Normal a
  | Throw e => handler e
  end.

(** Truthiness of a string and of an optional string ([undefined] and the
    empty string are falsy). *)
Definition truthy_string (s : string) : bool :=
  match s with
  | EmptyString => false
  | String _ _ => true
  end.

Definition truthy (o : option string) : bool :=
  match o with
  | Some s => truthy_string s
  | None => false
  end.

(** [`${x}`] for an optional string. *)
Definition interp (o : option string) : string :=
  match o with
  | Some s => s
  | None => "undefined"
  end.

(** [s.startsWith(p)] *)
Fixpoint startsWith (s p : string) {struct p} : bool :=
  match p with
  | EmptyString => true
  | String a p' =>
      match s with
      | EmptyString => false
      | String b s' => Ascii.eqb a b && startsWith s' p'
      end
  end.

(** [s.slice(n)] for [n >= 0] *)
Fixpoint slice (s : string) (n : nat) {struct n} : string :=
  match n with
  | O => s
  | S n' =>
      match s with
      | EmptyString => EmptyString
      | String _ s' => slice s' n'
      end
  end.

(** [s.includes(needle)] *)
Fixpoint includes (s needle : string) : bool :=
  startsWith s needle ||
  match s with
  | EmptyString => false
  | String _ s' => includes s' needle
  end.

(** The resource regular expressions of the error handler all have the
    shape [lit([^/]+)tail], where [tail] is [(?:\/|$)] or a literal.
    [regex_exec] is [s.match(re)?.[1]]: the capture group of the leftmost
    match, the group taken greedily and given back one character at a time
    while the tail does not match. *)
Inductive regex_tail : Type :=
| SlashOrEnd
| Literal (l : string).

Record regex : Type := Regex {
  re_lit : string;
  re_tail : regex_tail
}.

Definition tail_matches (t : regex_tail) (s : string) : bool :=
  match t with
  | SlashOrEnd =>
      match s with
      | EmptyString => true
      | String c _ => Ascii.eqb c "/"
      end
  | Literal l => startsWith s l
  end.

Fixpoint capture (t : regex_tail) (s : string) : option string :=
  match s with
  | EmptyString => None
  | String c s' =>
      if Ascii.eqb c "/" then None
      else match capture t s' with
           | Some g => Some (String c g)
           | None => if tail_matches t s' then Some (String c EmptyString) else None
           end
  end.

Definition match_at (r : regex) (s : string) : option string :=
  if startsWith s (re_lit r) then capture (re_tail r) (slice s (String.length (re_lit r)))
  else None.

Fixpoint regex_exec (r : regex) (s : string) : option string :=
  match match_at r s with
  | Some g => Some g
  | None =>
      match s with
      | EmptyString => None
      | String _ s' => regex_exec r s'
      end
  end.

(** Numbers that may be [NaN] ([parseInt]). *)
Inductive number : Type :=
| NaN
| Num (z : Z).

Definition truthy_number (n : option number) : bool :=
  match n with
  | Some (Num z) => negb (Z.eqb z 0)
  | _ => false
  end.

Definition string_of_number (n : option number) : string :=
  match n with
  | Some (Num z) => NilZero.string_of_int (Z.to_int z)
  | Some NaN => "NaN"
  | None => "undefined"
  end.

Definition is_space (c : ascii) : bool :=
  let n := nat_of_ascii c in
  Nat.eqb n 32 || (Nat.leb 9 n && Nat.leb n 13).

Definition digit_value (c : ascii) : option Z :=
  let n := Z.of_nat (nat_of_ascii c) in
  if Z.leb 48 n && Z.leb n 57 then Some (n - 48)%Z else None.

Fixpoint parse_digits (s : string) (acc : option Z) : option Z :=
  match s with
  | EmptyString => acc
  | String c s' =>
      match digit_value c with
      | Some d =>
          parse_digits s' (Some (10 * match acc with Some a => a | None => 0 end + d)%Z)
      | None => acc
      end
  end.

Fixpoint skip_spaces (s : string) : string :=
  match s with
  | String c s' => if is_space c then skip_spaces s' else s
  | EmptyString => s
  end.

(** [parseInt(s, 10)].  The digits are read as an exact integer; the code's
    result is the double nearest to it, the same number for integers of
    magnitude up to [2^53]. *)
Definition parseInt (s : string) : number :=
  let s := skip_spaces s in
  let '(neg, body) :=
    match s with
    | String "-" s' => (true, s')
    | String "+" s' => (false, s')
    | _ => (false, s)
    end in
  match parse_digits body None with
  | Some z => Num (if neg then - z else z)%Z
  | None => NaN
  end.

(** No [/] occurs in the string. *)
Fixpoint slash_free (s : string) : bool :=
  match s with
  | EmptyString => true
  | String c s' => negb (Ascii.eqb c "/") && slash_free s'
  end.

(** [c.repeat(n)] for a one-character string *)
Fixpoint string_repeat (c : ascii) (n : nat) : string :=
  match n with
  | O => EmptyString
  | S n' => String c (string_repeat c n')
  end.

(** [s.toUpperCase()] on ASCII letters *)
Definition upper_char (c : ascii) : ascii :=
  let n := nat_of_ascii c in
  if Nat.leb 97 n && Nat.leb n 122 then ascii_of_nat (n - 32) else c.

Fixpoint toUpperCase (s : string) : string :=
  match s with
  | EmptyString => EmptyString
  | String c s' => String (upper_char c) (toUpperCase s')
  end.

(** [Number.MAX_SAFE_INTEGER], [2^53 - 1].  Numbers are modelled as exact
    integers; up to this magnitude the doubles of the code are exact as
    well, beyond it they round. *)
Definition MAX_SAFE_INTEGER : Z := 9007199254740991.

End Js.

(* ------------------------------------------------------------------------- *)
(** ** SHA-256 and HMAC (the platform primitives behind [createHmac]) *)

Module Crypto.
Local Open Scope Z_scope.

Definition w32 (x : Z) : Z := x mod 4294967296.

Definition rotr (n x : Z) : Z :=
  w32 (Z.lor (Z.shiftr x n) (Z.shiftl x (32 - n))).

Definition Ch (x y z : Z) : Z :=
  Z.lxor (Z.land x y) (Z.land (w32 (Z.lnot x)) z).

Definition Maj (x y z : Z) : Z :=
  Z.lxor (Z.lxor (Z.land x y) (Z.land x z)) (Z.land y z).

Definition Sigma0 (x : Z) : Z := Z.lxor (Z.lxor (rotr 2 x) (rotr 13 x)) (rotr 22 x).
Definition Sigma1 (x : Z) : Z := Z.lxor (Z.lxor (rotr 6 x) (rotr 11 x)) (rotr 25 x).
Definition sigma0 (x : Z) : Z := Z.lxor (Z.lxor (rotr 7 x) (rotr 18 x)) (Z.shiftr x 3).
Definition sigma1 (x : Z) : Z := Z.lxor (Z.lxor (rotr 17 x) (rotr 19 x)) (Z.shiftr x 10).

(** The round constants are the first thirty-two bits of the fractional
    parts of the cube roots of the first sixty-four primes, the initial
    hash value those of the square roots of the first eight. *)
Definition primes : list Z :=
  [ 2; 3; 5; 7; 11; 13; 17; 19; 23; 29; 31; 37; 41; 43; 47; 53;
    59; 61; 67; 71; 73; 79; 83; 89; 97; 101; 103; 107; 109; 113; 127; 131;
    137; 139; 149; 151; 157; 163; 167; 173; 179; 181; 191; 193; 197; 199; 211; 223;
    227; 229; 233; 239; 241; 251; 257; 263; 269; 271; 277; 281; 283; 293; 307; 311 ].

(** Integer cube root, found bit by bit from [2 ^ bits] downwards. *)
Fixpoint icbrt (bits : nat) (n r : Z) : Z :=
  let r' := r + 2 ^ Z.of_nat bits in
  let r := if r' * r' * r' <=? n then r' else r in
  match bits with
  | O => r
  | S b => icbrt b n r
  end.

Definition frac32_cbrt (p : Z) : Z := w32 (icbrt 40 (p * 2 ^ 96) 0).
Definition frac32_sqrt (p : Z) : Z := w32 (Z.sqrt (p * 2 ^ 64)).

Definition K256 : list Z := Eval vm_compute in map frac32_cbrt primes.

(** The eight working variables / chaining values. *)
Record hstate : Type := HState {
  ha : Z; hb : Z; hc : Z; hd : Z; he : Z; hf : Z; hg : Z; hh : Z
}.

Definition H0 : hstate :=
  Eval vm_compute in
    HState (frac32_sqrt 2) (frac32_sqrt 3) (frac32_sqrt 5) (frac32_sqrt 7)
           (frac32_sqrt 11) (frac32_sqrt 13) (frac32_sqrt 17) (frac32_sqrt 19).

(** Message schedule: [w] is the sliding window of the last sixteen words,
    oldest first. *)
Fixpoint expand (n : nat) (w : list Z) : list Z :=
  match n with
  | O => []
  | S n' =>
      let x := w32 (sigma1 (nth 14 w 0) + nth 9 w 0 + sigma0 (nth 1 w 0) + nth 0 w 0) in
      x :: expand n' (tl w ++ [x])
  end.

Definition schedule (block : list Z) : list Z := block ++ expand 48 block.

Definition round (s : hstate) (kw : Z * Z) : hstate :=
  let t1 := hh s + Sigma1 (he s) + Ch (he s) (hf s) (hg s) + fst kw + snd kw in
  let t2 := Sigma0 (ha s) + Maj (ha s) (hb s) (hc s) in
  HState (w32 (t1 + t2)) (ha s) (hb s) (hc s) (w32 (hd s + t1)) (he s) (hf s) (hg s).

Definition compress (s : hstate) (block : list Z) : hstate :=
  let r := fold_left round (combine K256 (schedule block)) s in
  HState (w32 (ha s + ha r)) (w32 (hb s + hb r)) (w32 (hc s + hc r)) (w32 (hd s + hd r))
         (w32 (he s + he r)) (w32 (hf s + hf r)) (w32 (hg s + hg r)) (w32 (hh s + hh r)).

Fixpoint words_of_bytes (bs : list Z) : list Z :=
  match bs with
  | a :: b :: c :: d :: rest =>
      Z.lor (Z.lor (Z.shiftl a 24) (Z.shiftl b 16)) (Z.lor (Z.shiftl c 8) d)
        :: words_of_bytes rest
  | _ => []
  end.

Definition bytes_of_word (w : Z) : list Z :=
  [ Z.shiftr w 24 mod 256; Z.shiftr w 16 mod 256; Z.shiftr w 8 mod 256; w mod 256 ].

Definition pad (msg : list Z) : list Z :=
  let len := Z.of_nat (List.length msg) in
  let bits := 8 * len in
  msg ++ [128] ++ repeat 0 (Z.to_nat ((55 - len) mod 64))
      ++ bytes_of_word (Z.shiftr bits 32) ++ bytes_of_word (bits mod 4294967296).

Fixpoint process (n : nat) (ws : list Z) (s : hstate) : hstate :=
  match n with
  | O => s
  | S n' => process n' (skipn 16 ws) (compress s (firstn 16 ws))
  end.

Definition digest_words (s : hstate) : list Z :=
  [ ha s; hb s; hc s; hd s; he s; hf s; hg s; hh s ].

Definition byte_of_Z (z : Z) : byte :=
  match Byte.of_N (Z.to_N (z mod 256)) with
  | Some b => b
  | None => x00
  end.

Definition Z_of_byte (b : byte) : Z := Z.of_N (Byte.to_N b).

Definition sha256 (msg : list byte) : list byte :=
  let ws := words_of_bytes (pad (map Z_of_byte msg)) in
  let s := process (Nat.div (List.length ws) 16) ws H0 in
  map byte_of_Z (flat_map bytes_of_word (digest_words s)).

(** RFC 2104 with block size 64: a key longer than a block is hashed first,
    then the key is filled up with zero bytes to the block size. *)
Definition block_size : nat := 64.

Definition hmac_key (key : list byte) : list byte :=
  let k := if Nat.ltb block_size (List.length key) then sha256 key else key in
  k ++ repeat x00 (block_size - List.length k).

Definition xor_byte (c : Z) (b : byte) : byte :=
  byte_of_Z (Z.lxor (Z_of_byte b) c).

Definition hmac_sha256 (key msg : list byte) : list byte :=
  let k := hmac_key key in
  sha256 (map (xor_byte 0x5c) k ++ sha256 (map (xor_byte 0x36) k ++ msg)).

(** [digest('hex')]: two lowercase hexadecimal characters per byte. *)
Definition hex_digit (n : N) : ascii :=
  match n with
  | 0 => "0" | 1 => "1" | 2 => "2" | 3 => "3" | 4 => "4" | 5 => "5" | 6 => "6" | 7 => "7"
  | 8 => "8" | 9 => "9" | 10 => "a" | 11 => "b" | 12 => "c" | 13 => "d" | 14 => "e" | _ => "f"
  end%N%char.

Fixpoint hex_of_bytes (bs : list byte) : string :=
  match bs with
  | [] => EmptyString
  | b :: rest =>
      String (hex_digit (N.div (Byte.to_N b) 16))
        (String (hex_digit (N.modulo (Byte.to_N b) 16)) (hex_of_bytes rest))
  end.

(** [Buffer.from(s, 'hex')]: pairs of hexadecimal characters are decoded
    until the input ends, a single character is left over, or a pair holds a
    character that is not a hexadecimal digit; what was decoded so far is
    the buffer. *)
Definition hex_value (c : ascii) : option N :=
  let n := N_of_ascii c in
  (if (48 <=? n) && (n <=? 57) then Some (n - 48)
   else if (97 <=? n) && (n <=? 102) then Some (n - 87)
   else if (65 <=? n) && (n <=? 70) then Some (n - 55)
   else None)%N.

Fixpoint Buffer_from_hex (s : string) : list byte :=
  match s with
  | String c1 (String c2 rest) =>
      match hex_value c1, hex_value c2 with
      | Some h, Some l => byte_of_Z (Z.of_N (16 * h + l)) :: Buffer_from_hex rest
      | _, _ => []
      end
  | _ => []
  end%N.

Fixpoint bytes_eqb (a b : list byte) : bool :=
  match a, b with
  | [], [] => true
  | x :: a', y :: b' => Byte.eqb x y && bytes_eqb a' b'
  | _, _ => false
  end.

(** [crypto.timingSafeEqual(a, b)] throws a [RangeError] when the two
    buffers differ in byte length. *)
Definition timingSafeEqual (a b : list byte) : Js.completion bool :=
  if Nat.eqb (List.length a) (List.length b)
  then Js.Normal (bytes_eqb a b)
  else Js.Throw (Js.RangeError "Input buffers must have the same byte length").

(** [createHmac('sha256', key).update(msg).digest('hex')] on strings. *)
Definition createHmac_sha256_hex (key msg : string) : string :=
  hex_of_bytes (hmac_sha256 (list_byte_of_string key) (list_byte_of_string msg)).

End Crypto.

(* ------------------------------------------------------------------------- *)
(** ** src/webhook/request-validator.ts *)

Module Webhook.
Import Js Crypto.
Local Open Scope string_scope.

Record ValidateOptions : Type := {
  url : option string;
  timestamp : option string;
  deliveryId : option string
}.

(** [options?.timestamp], [options?.deliveryId] *)
Definition opt_timestamp (options : option ValidateOptions) : option string :=
  match options with
  | Some o => timestamp o
  | None => None
  end.

Definition opt_deliveryId (options : option ValidateOptions) : option string :=
  match options with
  | Some o => deliveryId o
  | None => None
  end.

Section RequestValidator.

(** [constructor(private readonly authToken: string)] *)
Variable authToken : string.

Definition buildStringToSign (payload : string) (timestamp deliveryId : option string)
  : string :=
  if truthy timestamp && truthy deliveryId then
    interp timestamp ++ "." ++ interp deliveryId ++ "." ++ payload
  else if truthy timestamp then
    interp timestamp ++ "." ++ payload
  else payload.

Definition computeSignature (payload : string) (timestamp deliveryId : option string)
  : string :=
  let stringToSign := buildStringToSign payload timestamp deliveryId in
  createHmac_sha256_hex authToken stringToSign.

Definition validate (payload signature : string) (options : option ValidateOptions)
  : completion bool :=
  let stringToSign :=
    buildStringToSign payload (opt_timestamp options) (opt_deliveryId options) in
  let expectedSignature := computeSignature stringToSign None None in
  let providedSignature :=
    if startsWith signature "sha256=" then slice signature 7 else signature in
  try_catch
    (timingSafeEqual (Buffer_from_hex providedSignature)
                     (Buffer_from_hex expectedSignature))
    (fun _ => Normal false).

End RequestValidator.

(** The digest [validate] expects for a payload under a secret. *)
Definition expected_digest (secret payload : string) (options : option ValidateOptions)
  : list byte :=
  hmac_sha256 (list_byte_of_string secret)
    (list_byte_of_string
       (buildStringToSign payload (opt_timestamp options) (opt_deliveryId options))).

(** The signature after the optional [sha256=] prefix is removed. *)
Definition provided (signature : string) : string :=
  if startsWith signature "sha256=" then slice signature 7 else signature.

End Webhook.

(* ------------------------------------------------------------------------- *)
(** ** The transport's data (axios) and the API envelope (src/types/common.ts) *)

Module Axios.

Inductive ParamValue : Type :=
| PNum (z : Z)
| PStr (s : string).

Record AxiosRequestConfig : Type := {
  method : string;
  url : option string;
  params : list (string * ParamValue);
  data : option string;
  headers : list (string * string);
  _retryCount : option Z
}.

Definition Details : Type := list (string * string).

Record ErrorBody : Type := {
  eb_message : option string;
  eb_code : option string;
  eb_details : option Details
}.

Record Pagination : Type := {
  page : Z;
  limit : Z;
  total : Z;
  has_more : bool
}.

(** [{ data: T, pagination?, error? }] *)
Record Body (T : Type) : Type := {
  body_data : option T;
  body_pagination : option Pagination;
  body_error : option ErrorBody
}.

Record AxiosResponse (T : Type) : Type := {
  status : Z;
  response_headers : list (string * string);
  response_data : Body T
}.

Record AxiosError (T : Type) : Type := {
  ae_message : string;
  config : option AxiosRequestConfig;
  response : option (AxiosResponse T)
}.

(** [params[name]] *)
Fixpoint param (ps : list (string * ParamValue)) (name : string) : option ParamValue :=
  match ps with
  | [] => None
  | (k, v) :: rest => if String.eqb k name then Some v else param rest name
  end.

Fixpoint header (hs : list (string * string)) (name : string) : option string :=
  match hs with
  | [] => None
  | (k, v) :: rest => if String.eqb k name then Some v else header rest name
  end.

End Axios.

(* ------------------------------------------------------------------------- *)
(** ** src/errors/vocafuse-error.ts *)

Module Errors.
Import Js.
Local Open Scope string_scope.

Record ErrorContext : Type := {
  resourceType : option string;
  resourceId : option string;
  endpoint : option string;
  suggestion : option string
}.

(** The class an error object was constructed by (its prototype). *)
Inductive ErrorClass : Type :=
| C_VocaFuseError
| C_AuthenticationError
| C_AuthorizationError
| C_ValidationError
| C_NotFoundError
| C_ConflictError
| C_RateLimitError
| C_ServerError
| C_VoicenoteNotFoundError
| C_WebhookNotFoundError
| C_TranscriptionNotFoundError
| C_APIKeyNotFoundError.

Definition ErrorClass_eqb (a b : ErrorClass) : bool :=
  match a, b with
  | C_VocaFuseError, C_VocaFuseError
  | C_AuthenticationError, C_AuthenticationError
  | C_AuthorizationError, C_AuthorizationError
  | C_ValidationError, C_ValidationError
  | C_NotFoundError, C_NotFoundError
  | C_ConflictError, C_ConflictError
  | C_RateLimitError, C_RateLimitError
  | C_ServerError, C_ServerError
  | C_VoicenoteNotFoundError, C_VoicenoteNotFoundError
  | C_WebhookNotFoundError, C_WebhookNotFoundError
  | C_TranscriptionNotFoundError, C_TranscriptionNotFoundError
  | C_APIKeyNotFoundError, C_APIKeyNotFoundError => true
  | _, _ => false
  end.

(** [class C extends parent C] *)
Definition extends (c : ErrorClass) : option ErrorClass :=
  match c with
  | C_VocaFuseError => None
  | C_VoicenoteNotFoundError | C_WebhookNotFoundError
  | C_TranscriptionNotFoundError | C_APIKeyNotFoundError => Some C_NotFoundError
  | _ => Some C_VocaFuseError
  end.

Record error : Type := {
  proto : ErrorClass;
  message : string;
  statusCode : option Z;
  errorCode : option string;
  details : option Axios.Details;
  context : option ErrorContext;
  retryAfter : option number
}.

(** [e instanceof C]: walk the (at most three deep) prototype chain. *)
Definition instanceof (e : error) (c : ErrorClass) : bool :=
  ErrorClass_eqb (proto e) c ||
  match extends (proto e) with
  | None => false
  | Some p =>
      ErrorClass_eqb p c ||
      match extends p with
      | None => false
      | Some g => ErrorClass_eqb g c
      end
  end.

(** [this.name = ...; Object.setPrototypeOf(this, C.prototype)] *)
Definition setPrototypeOf (e : error) (c : ErrorClass) : error :=
  {| proto := c; message := message e; statusCode := statusCode e;
     errorCode := errorCode e; details := details e; context := context e;
     retryAfter := retryAfter e |}.

Definition name (e : error) : string :=
  match proto e with
  | C_VocaFuseError => "VocaFuseError"
  | C_AuthenticationError => "AuthenticationError"
  | C_AuthorizationError => "AuthorizationError"
  | C_ValidationError => "ValidationError"
  | C_NotFoundError => "NotFoundError"
  | C_ConflictError => "ConflictError"
  | C_RateLimitError => "RateLimitError"
  | C_ServerError => "ServerError"
  | C_VoicenoteNotFoundError => "VoicenoteNotFoundError"
  | C_WebhookNotFoundError => "WebhookNotFoundError"
  | C_TranscriptionNotFoundError => "TranscriptionNotFoundError"
  | C_APIKeyNotFoundError => "APIKeyNotFoundError"
  end.

(** [context?.f] *)
Definition ctx (f : ErrorContext -> option string) (c : option ErrorContext)
  : option string :=
  match c with
  | Some c => f c
  | None => None
  end.

(** [a || b] on optional strings *)
Definition or_else (a : option string) (b : string) : string :=
  if truthy a then interp a else b.

(** [{ ...context, suggestion: s }] *)
Definition with_suggestion (c : option ErrorContext) (s : string) : ErrorContext :=
  {| resourceType := ctx resourceType c; resourceId := ctx resourceId c;
     endpoint := ctx endpoint c; suggestion := Some s |}.

Definition VocaFuseError (message : string) (statusCode : option Z)
    (errorCode : option string) (details : option Axios.Details)
    (context : option ErrorContext) : error :=
  {| proto := C_VocaFuseError; message := message; statusCode := statusCode;
     errorCode := errorCode; details := details; context := context;
     retryAfter := None |}.

Definition friendlyMessage (e : error) : string :=
  let msg := message e in
  let msg :=
    if truthy (ctx resourceId (context e)) then
      msg ++ " (" ++ or_else (ctx resourceType (context e)) "resource" ++ ": "
          ++ interp (ctx resourceId (context e)) ++ ")"
    else msg in
  let msg :=
    if truthy (ctx suggestion (context e)) then
      msg ++ ". " ++ interp (ctx suggestion (context e))
    else msg in
  msg.

Definition AuthenticationError (message : string) (errorCode : option string)
    (details : option Axios.Details) (context : option ErrorContext) : error :=
  setPrototypeOf
    (VocaFuseError message (Some 401%Z) errorCode details
       (Some (with_suggestion context
                (or_else (ctx suggestion context)
                   "Verify your API key and secret are correct and not expired."))))
    C_AuthenticationError.

Definition AuthorizationError (message : string) (errorCode : option string)
    (details : option Axios.Details) (context : option ErrorContext) : error :=
  setPrototypeOf
    (VocaFuseError message (Some 403%Z) errorCode details
       (Some (with_suggestion context
                (or_else (ctx suggestion context)
                   "Check that your API key has the required permissions for this operation."))))
    C_AuthorizationError.

Definition ValidationError (message : string) (errorCode : option string)
    (details : option Axios.Details) (context : option ErrorContext) : error :=
  setPrototypeOf (VocaFuseError message (Some 400%Z) errorCode details context)
    C_ValidationError.

Definition NotFoundError (message : string) (errorCode : option string)
    (details : option Axios.Details) (context : option ErrorContext) : error :=
  setPrototypeOf (VocaFuseError message (Some 404%Z) errorCode details context)
    C_NotFoundError.

Definition ConflictError (message : string) (errorCode : option string)
    (details : option Axios.Details) (context : option ErrorContext) : error :=
  setPrototypeOf (VocaFuseError message (Some 409%Z) errorCode details context)
    C_ConflictError.

Definition RateLimitError (message : string) (errorCode : option string)
    (details : option Axios.Details) (context : option ErrorContext)
    (retryAfter : option number) : error :=
  let e :=
    VocaFuseError message (Some 429%Z) errorCode details
      (Some (with_suggestion context
               (or_else (ctx suggestion context)
                  (if truthy_number retryAfter
                   then "Rate limit exceeded. Retry after "
                          ++ string_of_number retryAfter ++ " seconds."
                   else "Rate limit exceeded. Please reduce request frequency.")))) in
  {| proto := C_RateLimitError; message := Errors.message e;
     statusCode := Errors.statusCode e; errorCode := Errors.errorCode e;
     details := Errors.details e; context := Errors.context e;
     retryAfter := retryAfter |}.

Definition ServerError (message : string) (statusCode : Z) (errorCode : option string)
    (details : option Axios.Details) (context : option ErrorContext) : error :=
  setPrototypeOf
    (VocaFuseError message (Some statusCode) errorCode details
       (Some (with_suggestion context
                (or_else (ctx suggestion context)
                   "This is a server-side issue. Please try again later or contact support if it persists."))))
    C_ServerError.

Definition VoicenoteNotFoundError (message : string) (errorCode : option string)
    (details : option Axios.Details) (voicenoteId : option string) : error :=
  setPrototypeOf
    (NotFoundError message errorCode details
       (Some {| resourceType := Some "voicenote"; resourceId := voicenoteId;
                endpoint := None;
                suggestion :=
                  Some "Verify the voicenote ID exists and belongs to your account." |}))
    C_VoicenoteNotFoundError.

Definition WebhookNotFoundError (message : string) (errorCode : option string)
    (details : option Axios.Details) (webhookId : option string) : error :=
  setPrototypeOf
    (NotFoundError message errorCode details
       (Some {| resourceType := Some "webhook"; resourceId := webhookId;
                endpoint := None;
                suggestion :=
                  Some "Verify the webhook ID exists. Use client.webhooks.list() to see available webhooks." |}))
    C_WebhookNotFoundError.

Definition TranscriptionNotFoundError (message : string) (errorCode : option string)
    (details : option Axios.Details) (voicenoteId : option string) : error :=
  setPrototypeOf
    (NotFoundError message errorCode details
       (Some {| resourceType := Some "transcription"; resourceId := voicenoteId;
                endpoint := None;
                suggestion :=
                  Some "The voicenote may still be processing. Check voicenote.status before accessing transcription." |}))
    C_TranscriptionNotFoundError.

Definition APIKeyNotFoundError (message : string) (errorCode : option string)
    (details : option Axios.Details) (apiKeyId : option string) : error :=
  setPrototypeOf
    (NotFoundError message errorCode details
       (Some {| resourceType := Some "api_key"; resourceId := apiKeyId;
                endpoint := None;
                suggestion :=
                  Some "Verify the API key ID exists. Use client.apiKeys.list() to see available keys." |}))
    C_APIKeyNotFoundError.

End Errors.

(* ------------------------------------------------------------------------- *)
(** ** src/errors/error-handler.ts *)

Module ErrorHandler.
Import Js Axios Errors.
Local Open Scope string_scope.

(** What a [catch (error)] clause may receive. *)
Inductive thrown (T : Type) : Type :=
| ThrownVocaFuse (e : error)          (* error instanceof VocaFuseError *)
| ThrownAxios (e : AxiosError T)      (* axios.isAxiosError(error) *)
| ThrownError (message : string)      (* any other Error instance *)
| ThrownOther.                        (* anything else *)
Arguments ThrownVocaFuse {T} e.
Arguments ThrownAxios {T} e.
Arguments ThrownError {T} message.
Arguments ThrownOther {T}.

Definition patterns (resourceType : string) : option regex :=
  if String.eqb resourceType "voicenote" then Some (Regex "voicenotes/" SlashOrEnd)
  else if String.eqb resourceType "webhook" then Some (Regex "webhooks/" SlashOrEnd)
  else if String.eqb resourceType "api_key" then Some (Regex "api-keys/" SlashOrEnd)
  else if String.eqb resourceType "transcription"
       then Some (Regex "voicenotes/" (Literal "/transcription"))
  else None.

Definition extractResourceId (url : option string) (resourceType : string)
  : option string :=
  if negb (truthy url) then None
  else match patterns resourceType with
       | None => None
       | Some pattern => regex_exec pattern (interp url)
       end.

Definition is_match (m : option string) : bool :=
  match m with
  | Some _ => true
  | None => false
  end.

Definition detectResourceType (url : option string) : option string :=
  if negb (truthy url) then None
  else
    let url := interp url in
    if includes url "/transcription"
       || is_match (regex_exec (Regex "voicenotes/" (Literal "/transcription")) url)
    then Some "transcription"
    else if includes url "voicenotes/" || includes url "/voicenotes" then Some "voicenote"
    else if includes url "webhooks/" || includes url "/webhooks" then Some "webhook"
    else if includes url "api-keys/" || includes url "/api-keys" then Some "api_key"
    else None.

Definition only_endpoint (requestUrl : option string) : option ErrorContext :=
  Some {| resourceType := None; resourceId := None; endpoint := requestUrl;
          suggestion := None |}.

Definition handleApiError {T} (error : thrown T) : Errors.error :=
  match error with
  | ThrownVocaFuse e => e
  | ThrownError m => VocaFuseError m None None None None
  | ThrownOther => VocaFuseError "Unknown error occurred" None None None None
  | ThrownAxios axiosError =>
      let statusCode := option_map (@status T) (response axiosError) in
      let errorData :=
        match response axiosError with
        | Some r => body_error (response_data r)
        | None => None
        end in
      let message :=
        if truthy (match errorData with Some d => eb_message d | None => None end)
        then interp (match errorData with Some d => eb_message d | None => None end)
        else if truthy_string (ae_message axiosError) then ae_message axiosError
        else "An error occurred" in
      let errorCode := match errorData with Some d => eb_code d | None => None end in
      let details := match errorData with Some d => eb_details d | None => None end in
      let requestUrl :=
        match config axiosError with
        | Some c => url c
        | None => None
        end in
      let resourceType := detectResourceType requestUrl in
      let resourceId :=
        if truthy resourceType then extractResourceId requestUrl (interp resourceType)
        else None in
      match statusCode with
      | Some 401%Z => AuthenticationError message errorCode details (only_endpoint requestUrl)
      | Some 403%Z => AuthorizationError message errorCode details (only_endpoint requestUrl)
      | Some 400%Z => ValidationError message errorCode details (only_endpoint requestUrl)
      | Some 404%Z =>
          match resourceType with
          | Some rt =>
              if String.eqb rt "transcription"
              then TranscriptionNotFoundError message errorCode details resourceId
              else if String.eqb rt "voicenote"
              then VoicenoteNotFoundError message errorCode details resourceId
              else if String.eqb rt "webhook"
              then WebhookNotFoundError message errorCode details resourceId
              else if String.eqb rt "api_key"
              then APIKeyNotFoundError message errorCode details resourceId
              else NotFoundError message errorCode details (only_endpoint requestUrl)
          | None => NotFoundError message errorCode details (only_endpoint requestUrl)
          end
      | Some 409%Z => ConflictError message errorCode details (only_endpoint requestUrl)
      | Some 429%Z =>
          let retryAfterHeader :=
            match response axiosError with
            | Some r => header (response_headers r) "retry-after"
            | None => None
            end in
          let retryAfterSeconds :=
            if truthy retryAfterHeader then Some (parseInt (interp retryAfterHeader))
            else None in
          RateLimitError message errorCode details (only_endpoint requestUrl)
            retryAfterSeconds
      | Some sc =>
          if negb (Z.eqb sc 0) && Z.leb 500 sc
          then ServerError message sc errorCode details (only_endpoint requestUrl)
          else VocaFuseError message statusCode errorCode details (only_endpoint requestUrl)
      | None => VocaFuseError message statusCode errorCode details (only_endpoint requestUrl)
      end
  end.

(** A transport failure with the given status for a request to [u]. *)
Definition failure {T} (err : AxiosError T) (code : Z) (u : option string) : Prop :=
  option_map (@status T) (response err) = Some code
  /\ match config err with
     | Some c => url c = u
     | None => u = None
     end.

End ErrorHandler.

(* ------------------------------------------------------------------------- *)
(** ** src/client.ts (retry interceptor) and src/http/base-resource.ts *)

Module Http.
Import Js Axios.
Local Open Scope Z_scope.

Record RetryConfig : Type := {
  maxRetries : Z;
  retryDelay : Z;
  retryableStatuses : list Z
}.

(** [Partial<RetryConfig>] *)
Record PartialRetryConfig : Type := {
  opt_maxRetries : option Z;
  opt_retryDelay : option Z;
  opt_retryableStatuses : option (list Z)
}.

(** src/utils/constants.ts *)
Definition MAX_RETRIES : Z := 3.
Definition RETRY_DELAY : Z := 1000.
Definition PAGE_LIMIT : Z := 50.
Definition MAX_PAGE_LIMIT : Z := 100.
Definition RETRYABLE_STATUS_CODES : list Z := [408; 429; 500; 502; 503; 504].

Definition DEFAULT_RETRY_CONFIG : RetryConfig :=
  {| maxRetries := MAX_RETRIES; retryDelay := RETRY_DELAY;
     retryableStatuses := RETRYABLE_STATUS_CODES |}.

Definition or_default {A} (o : option A) (d : A) : A :=
  match o with
  | Some a => a
  | None => d
  end.

(** [{ ...DEFAULT_RETRY_CONFIG, ...options.retry }] for options whose keys,
    where present, hold values: [None] is an absent key. *)
Definition mergeRetryConfig (retry : option PartialRetryConfig) : RetryConfig :=
  match retry with
  | None => DEFAULT_RETRY_CONFIG
  | Some r =>
      {| maxRetries := or_default (opt_maxRetries r) (maxRetries DEFAULT_RETRY_CONFIG);
         retryDelay := or_default (opt_retryDelay r) (retryDelay DEFAULT_RETRY_CONFIG);
         retryableStatuses :=
           or_default (opt_retryableStatuses r) (retryableStatuses DEFAULT_RETRY_CONFIG) |}
  end.

(** [xs.includes(x)] on numbers *)
Fixpoint includesZ (xs : list Z) (x : Z) : bool :=
  match xs with
  | [] => false
  | y :: rest => Z.eqb y x || includesZ rest x
  end.

(** [config._retryCount || 0]; on counters [n || 0] is [n], also for [n = 0]. *)
Definition retryCount_or_0 (c : AxiosRequestConfig) : Z :=
  match _retryCount c with
  | Some n => n
  | None => 0
  end.

Definition set_retryCount (c : AxiosRequestConfig) (n : Z) : AxiosRequestConfig :=
  {| method := method c; url := url c; params := params c; data := data c;
     headers := headers c; _retryCount := Some n |}.

Section Transport.

Variable T : Type.

(** What the error handler of the response interceptor settles with:
    [Promise.reject(error)], or a pause of [delay] milliseconds followed by
    [this.httpClient.request(config)]. *)
Inductive Decision : Type :=
| Reject (error : AxiosError T)
| RetryAfter (delay : Z) (config : AxiosRequestConfig).

(** The [async (error: AxiosError) => ...] handler of [setupRetryInterceptor].
    The assignments to [config._retryCount] act on the object the error
    refers to, so a rejected error carries the updated counter. *)
Definition onRejected (retryConfig : RetryConfig) (error : AxiosError T) : Decision :=
  match config error with
  | None => Reject error
  | Some config =>
      let count := retryCount_or_0 config in
      let config := set_retryCount config count in
      let shouldRetry :=
        (count <? maxRetries retryConfig) &&
        match response error with
        | Some r => includesZ (retryableStatuses retryConfig) (status r)
        | None => false
        end in
      if negb shouldRetry then
        Reject {| ae_message := ae_message error; config := Some config;
                  response := response error |}
      else
        let config := set_retryCount config (count + 1) in
        let delay := retryDelay retryConfig * 2 ^ (count + 1 - 1) in
        RetryAfter delay config
  end.

(** The network, as a script: the replies the server gives to the successive
    requests, or a failure before any response is obtained.  Once the script
    is used up every request fails without a response. *)
Inductive Reply : Type :=
| Respond (r : AxiosResponse T)
| NetworkError (msg : string).

(** axios settles a response with [validateStatus]: 2xx resolves, anything
    else rejects with an [AxiosError] that refers to the request's config. *)
Definition validateStatus (status : Z) : bool :=
  (200 <=? status) && (status <? 300).

Definition status_error (config : AxiosRequestConfig) (r : AxiosResponse T)
  : AxiosError T :=
  {| ae_message :=
       ("Request failed with status code "
          ++ NilZero.string_of_int (Z.to_int (status r)))%string;
     config := Some config; response := Some r |}.

Definition network_error (config : AxiosRequestConfig) (msg : string)
  : AxiosError T :=
  {| ae_message := msg; config := Some config; response := None |}.

Definition settle (config : AxiosRequestConfig) (reply : Reply)
  : AxiosError T + AxiosResponse T :=
  match reply with
  | Respond r =>
      if validateStatus (status r) then inr r else inl (status_error config r)
  | NetworkError msg => inl (network_error config msg)
  end.

Inductive Event : Type :=
| Sent (config : AxiosRequestConfig)
| Failed (status : option Z)
| Slept (ms : Z).

Record Run : Type := {
  events : list Event;
  outcome : AxiosError T + AxiosResponse T;
  unread : list Reply
}.

(** The error a rejecting handler settles with.  A failure without a
    response is always rejected ([shouldRetry] needs a status), so on such a
    failure the second case is not taken. *)
Definition rejected (d : Decision) (error : AxiosError T) : AxiosError T :=
  match d with
  | Reject e => e
  | RetryAfter _ _ => error
  end.

(** [this.httpClient.request(config)] with the retry interceptor installed. *)
Fixpoint request (retryConfig : RetryConfig) (script : list Reply)
    (config : AxiosRequestConfig) : Run :=
  match script with
  | [] =>
      let error := network_error config "Network Error" in
      {| events := [Sent config; Failed None];
         outcome := inl (rejected (onRejected retryConfig error) error);
         unread := [] |}
  | reply :: rest =>
      match settle config reply with
      | inr response =>
          {| events := [Sent config]; outcome := inr response; unread := rest |}
      | inl error =>
          match onRejected retryConfig error with
          | Reject e =>
              {| events := [Sent config; Failed (option_map (@status T) (response error))];
                 outcome := inl e; unread := rest |}
          | RetryAfter delay config' =>
              let r := request retryConfig rest config' in
              {| events := Sent config
                             :: Failed (option_map (@status T) (response error))
                             :: Slept delay :: events r;
                 outcome := outcome r; unread := unread r |}
          end
      end
  end.

(** Number of HTTP attempts in a run, and the pauses taken between them. *)
Fixpoint attempts (es : list Event) : nat :=
  match es with
  | [] => O
  | Sent _ :: rest => S (attempts rest)
  | _ :: rest => attempts rest
  end.

Fixpoint sleeps (es : list Event) : list Z :=
  match es with
  | [] => []
  | Slept ms :: rest => ms :: sleeps rest
  | _ :: rest => sleeps rest
  end.

(** [BaseResource._get]: [try { return (await httpClient.get(endpoint, { params })).data }
    catch (error) { throw handleApiError(error) }] *)
Definition _get (retryConfig : RetryConfig) (script : list Reply)
    (endpoint : string) (params : list (string * ParamValue))
  : (Errors.error + Body T) * Run :=
  let r :=
    request retryConfig script
      {| method := "get"; url := Some endpoint; params := params; data := None;
         headers := []; _retryCount := None |} in
  (match outcome r with
   | inr response => inr (response_data response)
   | inl error => inl (ErrorHandler.handleApiError (ErrorHandler.ThrownAxios error))
   end, r).

End Transport.

End Http.

(* ------------------------------------------------------------------------- *)
(** ** src/resources/voicenotes.ts: [list] and [iterate] *)

Module Voicenotes.
Import Js Axios Http.
Local Open Scope Z_scope.

Record ListVoicenotesOptions : Type := {
  opt_page : option Z;
  opt_limit : option Z;
  opt_status : option string;
  dateFrom : option string;
  dateTo : option string
}.

(** [options?.f] *)
Definition opt {A} (f : ListVoicenotesOptions -> option A)
    (options : option ListVoicenotesOptions) : option A :=
  match options with
  | Some o => f o
  | None => None
  end.

(** [n || d] on numbers: [undefined] and [0] are falsy. *)
Definition num_or (n : option Z) (d : Z) : Z :=
  match n with
  | Some z => if Z.eqb z 0 then d else z
  | None => d
  end.

(** [...(s && { key: s })] *)
Definition spread_if (key : string) (s : option string) : list (string * ParamValue) :=
  if truthy s then [(key, PStr (interp s))] else [].

(** The [params] object built by [list]. *)
Definition list_params (options : option ListVoicenotesOptions)
  : list (string * ParamValue) :=
  [ ("page"%string, PNum (num_or (opt opt_page options) 0));
    ("limit"%string,
     PNum (Z.min (num_or (opt opt_limit options) PAGE_LIMIT) MAX_PAGE_LIMIT)) ]
  ++ spread_if "status" (opt opt_status options)
  ++ spread_if "date_from" (opt dateFrom options)
  ++ spread_if "date_to" (opt dateTo options).

(** [{ ...options, page }] *)
Definition with_page (options : option ListVoicenotesOptions) (page : Z)
  : ListVoicenotesOptions :=
  {| opt_page := Some page; opt_limit := opt opt_limit options;
     opt_status := opt opt_status options; dateFrom := opt dateFrom options;
     dateTo := opt dateTo options |}.

Section Resource.

Variable Voicenote : Type.

(** The client's retry configuration, the replies still to come from the
    server, and what has been observed so far: the HTTP traffic and the
    arguments of every call of [list]. *)
Record World : Type := {
  retryConfig : RetryConfig;
  script : list (Reply (list Voicenote));
  traffic : list Event;
  list_calls : list (option ListVoicenotesOptions)
}.

Definition list (options : option ListVoicenotesOptions) (w : World)
  : (Errors.error + Body (Datatypes.list Voicenote)) * World :=
  let '(res, r) := _get (retryConfig w) (script w) "voicenotes" (list_params options) in
  (res,
   {| retryConfig := retryConfig w; script := unread r;
      traffic := traffic w ++ events r;
      list_calls := list_calls w ++ [options] |}).

(** A suspended [iterate] generator: not started, parked at the [yield]
    inside the [for ... of] loop (with the items of the page still to be
    yielded), or completed. *)
Inductive Generator : Type :=
| NotStarted (options : option ListVoicenotesOptions)
| AtYield (options : option ListVoicenotesOptions) (page : Z)
          (remaining : Datatypes.list Voicenote) (pagination : option Pagination)
| Completed.

Inductive IteratorResult : Type :=
| Value (v : Voicenote)                       (* { value: v, done: false } *)
| Done                                        (* { done: true } *)
| Rejected (e : Errors.error)                 (* list() threw *)
| RejectedWith (e : exn).                     (* response.data is not iterable *)

(** [response.pagination?.has_more ?? false] *)
Definition has_more_of (pagination : option Pagination) : bool :=
  match pagination with
  | Some p => has_more p
  | None => false
  end.

(** The [while (hasMore)] loop, entered with [hasMore] true, run up to the
    next [yield], [return] or [throw].  Every turn calls [list], and [list]
    uses up part of the script, so [fuel] above the script's length is
    never exhausted. *)
Fixpoint while_hasMore (fuel : nat) (options : option ListVoicenotesOptions)
    (page : Z) (w : World) : option (IteratorResult * Generator * World) :=
  match fuel with
  | O => None
  | S fuel' =>
      let '(res, w') := list (Some (with_page options page)) w in
      match res with
      | inl e => Some (Rejected e, Completed, w')
      | inr response =>
          match body_data response with
          | None =>
              Some (RejectedWith (TypeError "response.data is not iterable"),
                    Completed, w')
          | Some (v :: rest) =>
              Some (Value v, AtYield options page rest (body_pagination response), w')
          | Some [] =>
              let hasMore := has_more_of (body_pagination response) in
              let page := page + 1 in
              if hasMore then while_hasMore fuel' options page w'
              else Some (Done, Completed, w')
          end
      end
  end.

(** [generator.next()] *)
Definition next (g : Generator) (w : World)
  : option (IteratorResult * Generator * World) :=
  match g with
  | NotStarted options =>
      let page := num_or (opt opt_page options) 0 in
      while_hasMore (S (List.length (script w))) options page w
  | AtYield options page (v :: rest) pagination =>
      Some (Value v, AtYield options page rest pagination, w)
  | AtYield options page [] pagination =>
      let hasMore := has_more_of pagination in
      let page := page + 1 in
      if hasMore then while_hasMore (S (List.length (script w))) options page w
      else Some (Done, Completed, w)
  | Completed => Some (Done, Completed, w)
  end.


(** [for await (const vn of gen) { out.push(vn) }], at most [fuel] turns. *)
Fixpoint for_await (fuel : nat) (g : Generator) (w : World) (out : Datatypes.list Voicenote)
  : option (Datatypes.list Voicenote * IteratorResult * World) :=
  match fuel with
  | O => None
  | S fuel' =>
      match next g w with
      | None => None
      | Some (Value v, g', w') => for_await fuel' g' w' (out ++ [v])
      | Some (r, _, w') => Some (out, r, w')
      end
  end.


End Resource.

(** A 200 reply carrying one page and its pagination metadata. *)
Definition page_reply {Voicenote} (items : Datatypes.list Voicenote) (pg : Pagination)
  : Reply (Datatypes.list Voicenote) :=
  Respond
    {| status := 200; response_headers := [];
       response_data := {| body_data := Some items; body_pagination := Some pg;
                           body_error := None |} |}.

End Voicenotes.

(* ------------------------------------------------------------------------- *)
(** ** src/utils/constants.ts and src/utils/environment.ts *)

Module Environment.
Import Js.
Local Open Scope string_scope.

Definition VERSION : string := "0.1.0".
Definition API_ENDPOINTS_LIVE : string := "https://api.vocafuse.com".
Definition API_ENDPOINTS_TEST : string := "https://test-api.vocafuse.com".
Definition API_KEY_PREFIXES_LIVE : string := "sk_live_".
Definition API_KEY_PREFIXES_TEST : string := "sk_test_".
Definition TIMEOUT : Z := 30000.
Definition HEADERS_API_KEY : string := "X-VocaFuse-API-Key".
Definition HEADERS_API_SECRET : string := "X-VocaFuse-API-Secret".

Definition detectBaseUrl (apiKey : string) : string :=
  if startsWith apiKey API_KEY_PREFIXES_LIVE then API_ENDPOINTS_LIVE
  else if startsWith apiKey API_KEY_PREFIXES_TEST then API_ENDPOINTS_TEST
  else API_ENDPOINTS_LIVE.

Definition isTestKey (apiKey : string) : bool :=
  startsWith apiKey API_KEY_PREFIXES_TEST.

Definition isLiveKey (apiKey : string) : bool :=
  startsWith apiKey API_KEY_PREFIXES_LIVE.

End Environment.

(* ------------------------------------------------------------------------- *)
(** ** src/client.ts: the constructor *)

Module ClientSetup.
Import Js Http Environment.
Local Open Scope string_scope.

(** A key of an object literal: absent, present and holding [undefined], or
    present and holding a value.  [Partial<RetryConfig>] admits all three. *)
Inductive key (A : Type) : Type :=
| Absent
| Undefined
| Given (a : A).
Arguments Absent {A}.
Arguments Undefined {A}.
Arguments Given {A} a.

(** [options.retry] as the caller wrote it. *)
Record RetryOptions : Type := {
  key_maxRetries : key Z;
  key_retryDelay : key Z;
  key_retryableStatuses : key (list Z)
}.

Record ClientOptions : Type := {
  apiKey : string;
  apiSecret : string;
  baseUrl : option string;
  timeout : option Z;
  retry : option RetryOptions
}.

(** The object [{ ...DEFAULT_RETRY_CONFIG, ...options.retry }]: the spread
    copies every key that is present, so a key given as [undefined]
    overwrites the default and the field holds [undefined] ([None]). *)
Record SpreadRetryConfig : Type := {
  spread_maxRetries : option Z;
  spread_retryDelay : option Z;
  spread_retryableStatuses : option (list Z)
}.

Definition spread_key {A} (default : A) (k : key A) : option A :=
  match k with
  | Absent => Some default
  | Undefined => None
  | Given a => Some a
  end.

Definition spreadRetryConfig (retry : option RetryOptions) : SpreadRetryConfig :=
  match retry with
  | None =>
      {| spread_maxRetries := Some (maxRetries DEFAULT_RETRY_CONFIG);
         spread_retryDelay := Some (retryDelay DEFAULT_RETRY_CONFIG);
         spread_retryableStatuses := Some (retryableStatuses DEFAULT_RETRY_CONFIG) |}
  | Some r =>
      {| spread_maxRetries :=
           spread_key (maxRetries DEFAULT_RETRY_CONFIG) (key_maxRetries r);
         spread_retryDelay :=
           spread_key (retryDelay DEFAULT_RETRY_CONFIG) (key_retryDelay r);
         spread_retryableStatuses :=
           spread_key (retryableStatuses DEFAULT_RETRY_CONFIG)
             (key_retryableStatuses r) |}
  end.

(** The options in which no key holds [undefined] are the partial
    configurations of [mergeRetryConfig]; a spread in which every field
    holds a value is a [RetryConfig]. *)
Definition is_undefined {A} (k : key A) : bool :=
  match k with
  | Undefined => true
  | _ => false
  end.

Definition no_undefined (retry : option RetryOptions) : bool :=
  match retry with
  | None => true
  | Some r =>
      negb (is_undefined (key_maxRetries r))
      && negb (is_undefined (key_retryDelay r))
      && negb (is_undefined (key_retryableStatuses r))
  end.

Definition key_value {A} (k : key A) : option A :=
  match k with
  | Given a => Some a
  | _ => None
  end.

Definition as_partial (r : RetryOptions) : PartialRetryConfig :=
  {| opt_maxRetries := key_value (key_maxRetries r);
     opt_retryDelay := key_value (key_retryDelay r);
     opt_retryableStatuses := key_value (key_retryableStatuses r) |}.

Definition as_RetryConfig (c : SpreadRetryConfig) : option RetryConfig :=
  match spread_maxRetries c, spread_retryDelay c, spread_retryableStatuses c with
  | Some m, Some d, Some l =>
      Some {| maxRetries := m; retryDelay := d; retryableStatuses := l |}
  | _, _, _ => None
  end.

(** What [axios.create] is given, and the retry configuration kept by the
    client. *)
Record Client : Type := {
  baseURL : string;
  axios_timeout : Z;
  default_headers : list (string * string);
  client_retryConfig : SpreadRetryConfig
}.

(** [new Client(options)] *)
Definition new_Client (options : ClientOptions) : Client :=
  let baseUrl :=
    if truthy (baseUrl options) then interp (baseUrl options)
    else detectBaseUrl (apiKey options) in
  {| baseURL := baseUrl;
     axios_timeout :=
       match timeout options with
       | Some t => if Z.eqb t 0 then TIMEOUT else t
       | None => TIMEOUT
       end;
     default_headers :=
       [ (HEADERS_API_KEY, apiKey options);
         (HEADERS_API_SECRET, apiSecret options);
         ("Content-Type", "application/json");
         ("User-Agent", "VocaFuse-Node-SDK/" ++ VERSION) ];
     client_retryConfig := spreadRetryConfig (retry options) |}.

End ClientSetup.

(* ------------------------------------------------------------------------- *)
(** ** src/http/base-resource.ts ([_delete]) and the id-addressed accessors of
       src/resources/voicenotes.ts, webhooks.ts and api-keys.ts *)

Module Resources.
Import Js Axios Http.
Local Open Scope string_scope.

Section BaseResource.

Variable T : Type.

(** [BaseResource._delete]: [try { await httpClient.delete(endpoint) }
    catch (error) { throw handleApiError(error) }] *)
Definition _delete (retryConfig : RetryConfig) (script : list (Reply T))
    (endpoint : string) : (Errors.error + unit) * Run T :=
  let r :=
    request retryConfig script
      {| method := "delete"; url := Some endpoint; params := []; data := None;
         headers := []; _retryCount := None |} in
  (match outcome r with
   | inr _ => inr tt
   | inl error => inl (ErrorHandler.handleApiError (ErrorHandler.ThrownAxios error))
   end, r).

(** [VoicenoteInstance.get], [VoicenoteInstance.delete] *)
Definition VoicenoteInstance_get (rc : RetryConfig) (script : list (Reply T))
    (voicenoteId : string) :=
  _get rc script ("voicenotes/" ++ voicenoteId) [].

Definition VoicenoteInstance_delete (rc : RetryConfig) (script : list (Reply T))
    (voicenoteId : string) :=
  _delete rc script ("voicenotes/" ++ voicenoteId).

(** [TranscriptionResource.get] *)
Definition TranscriptionResource_get (rc : RetryConfig) (script : list (Reply T))
    (voicenoteId : string) :=
  _get rc script ("voicenotes/" ++ voicenoteId ++ "/transcription") [].

(** [WebhookInstance.get], [WebhookInstance.delete] *)
Definition WebhookInstance_get (rc : RetryConfig) (script : list (Reply T))
    (webhookId : string) :=
  _get rc script ("webhooks/" ++ webhookId) [].

Definition WebhookInstance_delete (rc : RetryConfig) (script : list (Reply T))
    (webhookId : string) :=
  _delete rc script ("webhooks/" ++ webhookId).

(** [APIKeyInstance.get], [APIKeyInstance.delete] *)
Definition APIKeyInstance_get (rc : RetryConfig) (script : list (Reply T))
    (apiKeyId : string) :=
  _get rc script ("account/api-keys/" ++ apiKeyId) [].

Definition APIKeyInstance_delete (rc : RetryConfig) (script : list (Reply T))
    (apiKeyId : string) :=
  _delete rc script ("account/api-keys/" ++ apiKeyId).

End BaseResource.

End Resources.

(* ------------------------------------------------------------------------- *)
(** ** Vocabulary of the property statements *)

Module Vocabulary.
Import Js Axios Http.

(** The pauses of [n] consecutive retries that start at counter [c]. *)
Fixpoint backoff (rc : RetryConfig) (c : Z) (n : nat) : list Z :=
  match n with
  | O => []
  | S n' => (retryDelay rc * 2 ^ c)%Z :: backoff rc (c + 1)%Z n'
  end.

(** Two configs describe the same request: they differ at most in the
    attempt counter. *)
Definition same_request (a b : AxiosRequestConfig) : Prop :=
  method a = method b /\ url a = url b /\ params a = params b
  /\ data a = data b /\ headers a = headers b.

(** The error a rejecting handler hands on: the failure it was given, its
    config carrying the counter. *)
Definition handed_on {T} (cfg : AxiosRequestConfig) (err : AxiosError T)
  : AxiosError T :=
  {| ae_message := ae_message err;
     config := Some (set_retryCount cfg (retryCount_or_0 cfg));
     response := response err |}.

(** A run without the configs of its requests. *)
Inductive Step : Type :=
| Attempt
| Failure (status : option Z)
| Pause (ms : Z).

Definition step_of (e : Event) : Step :=
  match e with
  | Sent _ => Attempt
  | Failed s => Failure s
  | Slept ms => Pause ms
  end.

(** The arguments of [n] consecutive [list] calls of [iterate], from [page]. *)
Fixpoint pages_from (options : option Voicenotes.ListVoicenotesOptions) (page : Z)
    (n : nat) : list (option Voicenotes.ListVoicenotesOptions) :=
  match n with
  | O => []
  | S n' => Some (Voicenotes.with_page options page)
              :: pages_from options (page + 1)%Z n'
  end.

(** Every page reports [has_more]. *)
Fixpoint all_have_more {V} (pages : list (list V * Pagination)) : bool :=
  match pages with
  | [] => true
  | (_, pg) :: rest => has_more pg && all_have_more rest
  end.

Definition replies {V} (pages : list (list V * Pagination))
  : list (Reply (list V)) :=
  map (fun p => Voicenotes.page_reply (fst p) (snd p)) pages.

(** All characters are lowercase hexadecimal digits. *)
Fixpoint lower_hex (s : string) : bool :=
  match s with
  | EmptyString => true
  | String c s' =>
      let n := nat_of_ascii c in
      ((Nat.leb 48 n && Nat.leb n 57) || (Nat.leb 97 n && Nat.leb n 102))
      && lower_hex s'
  end.

(** The parts of a transport failure the classifier reads:
    [response?.data?.error], [config?.url], and the message it settles on. *)
Definition error_data {T} (err : AxiosError T) : option ErrorBody :=
  match response err with
  | Some r => body_error (response_data r)
  | None => None
  end.

Definition request_url {T} (err : AxiosError T) : option string :=
  match config err with
  | Some c => url c
  | None => None
  end.

Definition body_message {T} (err : AxiosError T) : option string :=
  match error_data err with
  | Some d => eb_message d
  | None => None
  end.

Definition settled_message {T} (err : AxiosError T) : string :=
  if truthy (body_message err) then interp (body_message err)
  else if truthy_string (ae_message err) then ae_message err
  else "An error occurred"%string.

(** The world after [list] was called for [page] and got a reply at once:
    [rest] is what remains of the script. *)
Definition after_page {V} (w : Voicenotes.World V)
    (options : option Voicenotes.ListVoicenotesOptions) (page : Z)
    (rest : list (Reply (list V))) : Voicenotes.World V :=
  {| Voicenotes.retryConfig := Voicenotes.retryConfig w;
     Voicenotes.script := rest;
     Voicenotes.traffic :=
       Voicenotes.traffic w
       ++ [Sent {| method := "get"; url := Some "voicenotes"%string;
                   params := Voicenotes.list_params
                               (Some (Voicenotes.with_page options page));
                   data := None; headers := []; _retryCount := None |}];
     Voicenotes.list_calls :=
       Voicenotes.list_calls w ++ [Some (Voicenotes.with_page options page)] |}.

(** What a [for await] loop does with the settled result of a [next()]. *)
Definition drain {V} (fuel : nat)
    (r : option (Voicenotes.IteratorResult V * Voicenotes.Generator V
                 * Voicenotes.World V))
    (out : list V)
  : option (list V * Voicenotes.IteratorResult V * Voicenotes.World V) :=
  match r with
  | None => None
  | Some (Voicenotes.Value v, g', w') => Voicenotes.for_await fuel g' w' (out ++ [v])
  | Some (r, _, w') => Some (out, r, w')
  end.

Definition all_items {V} (pages : list (list V * Pagination)) : list V :=
  List.concat (List.map fst pages).

(** A call ended with a typed 404 error of class [cls] whose context
    carries [id] as its [resourceId]. *)
Definition reports_missing {A} (res : Errors.error + A) (cls : Errors.ErrorClass)
    (id : option string) : Prop :=
  exists e : Errors.error,
    res = inl e /\ Errors.proto e = cls
    /\ Errors.ctx Errors.resourceId (Errors.context e) = id
    /\ Errors.statusCode e = Some 404%Z.

(** The error class thrown for a 404 by the resource type detected. *)
Definition classes : list (string * Errors.ErrorClass) :=
  [("transcription"%string, Errors.C_TranscriptionNotFoundError);
   ("voicenote"%string, Errors.C_VoicenoteNotFoundError);
   ("webhook"%string, Errors.C_WebhookNotFoundError);
   ("api_key"%string, Errors.C_APIKeyNotFoundError)].

(** Every character is below U+0080.  On such text the white space that
    [parseInt] skips is the white space of [is_space]. *)
Fixpoint ascii_only (s : string) : bool :=
  match s with
  | EmptyString => true
  | String c s' => Nat.ltb (nat_of_ascii c) 128 && ascii_only s'
  end.

(** The request that [list] makes when [iterate] asks for [page], and the
    requests of [n] consecutive pages. *)
Definition page_request (options : option Voicenotes.ListVoicenotesOptions)
    (page : Z) : AxiosRequestConfig :=
  {| method := "get"; url := Some "voicenotes"%string;
     params := Voicenotes.list_params (Some (Voicenotes.with_page options page));
     data := None; headers := []; _retryCount := None |}.

Fixpoint requests_from (options : option Voicenotes.ListVoicenotesOptions)
    (page : Z) (n : nat) : list Event :=
  match n with
  | O => []
  | S n' => Sent (page_request options page) :: requests_from options (page + 1)%Z n'
  end.

End Vocabulary.

(* ------------------------------------------------------------------------- *)
(** ** The specification's wording, for comparison with the code *)

Module AsSpecified.
Import Js Errors.
Local Open Scope string_scope.

(** The canonical string as the specification words it: a component takes
    part as soon as it is given. *)
Definition canonical_as_specified (payload : string) (timestamp deliveryId : option string)
  : string :=
  match timestamp, deliveryId with
  | Some t, Some d => t ++ "." ++ d ++ "." ++ payload
  | Some t, None => t ++ "." ++ payload
  | None, _ => payload
  end.

(** The composite message as the specification words it: the annotation
    appears when [resourceId] is set, the suggestion when [suggestion] is
    set, and ["resource"] stands in when [resourceType] is unset. *)
Definition friendlyMessage_as_specified (e : error) : string :=
  message e
  ++ match ctx resourceId (context e) with
     | Some id =>
         " (" ++ match ctx resourceType (context e) with
                 | Some rt => rt
                 | None => "resource"
                 end ++ ": " ++ id ++ ")"
     | None => ""
     end
  ++ match ctx suggestion (context e) with
     | Some s => ". " ++ s
     | None => ""
     end.

End AsSpecified.

(* ------------------------------------------------------------------------- *)
(** ** Sample data, after the repository's unit tests *)

Module Samples.
Import Axios Errors Http.
Local Open Scope string_scope.

Definition get_request (path : string) : AxiosRequestConfig :=
  {| method := "get"; url := Some path; params := []; data := None;
     headers := []; _retryCount := None |}.

Definition error_response (code : Z) (msg : string) : AxiosResponse unit :=
  {| status := code; response_headers := [];
     response_data :=
       {| body_data := None; body_pagination := None;
          body_error := Some {| eb_message := Some msg; eb_code := Some "NOT_FOUND";
                                eb_details := None |} |} |}.

Definition ok_response : AxiosResponse unit :=
  {| status := 200; response_headers := [];
     response_data := {| body_data := Some tt; body_pagination := None;
                         body_error := None |} |}.

(** [createAxiosError(status, message, 'NOT_FOUND', url)] *)
Definition createAxiosError (code : Z) (msg path : string) : AxiosError unit :=
  {| ae_message := msg; config := Some (get_request path);
     response := Some (error_response code msg) |}.

(** [new Client({ ..., retry: { maxRetries, retryDelay: 10 } })] *)
Definition test_retry (maxRetries : Z) : RetryConfig :=
  mergeRetryConfig
    (Some {| opt_maxRetries := Some maxRetries; opt_retryDelay := Some 10%Z;
             opt_retryableStatuses := None |}).

End Samples.

(* ========================================================================= *)
(** * Properties *)

Unset Implicit Arguments.

(* ------------------------------------------------------------------------- *)
(** ** Strings *)

Module JsFacts.
Import Js.
Local Open Scope string_scope.

Lemma length_append (a b : string) :
  String.length (a ++ b) = (String.length a + String.length b)%nat.
Proof. induction a as [|c a IH]; cbn; [reflexivity|]. now rewrite IH. Qed.

Lemma append_assoc (a b c : string) : (a ++ b) ++ c = a ++ (b ++ c).
Proof. induction a as [|x a IH]; cbn; [reflexivity|]. now rewrite IH. Qed.

Lemma append_empty_r (a : string) : a ++ "" = a.
Proof. induction a as [|x a IH]; cbn; [reflexivity|]. now rewrite IH. Qed.

Lemma startsWith_append (p s : string) : startsWith (p ++ s) p = true.
Proof.
  induction p as [|c p IH]; [reflexivity|].
  cbn. now rewrite Ascii.eqb_refl, IH.
Qed.

Lemma startsWith_empty (s : string) : startsWith s "" = true.
Proof. reflexivity. Qed.

Lemma startsWith_cons (b : ascii) (s : string) (a : ascii) (p : string) :
  startsWith (String b s) (String a p) = Ascii.eqb a b && startsWith s p.
Proof. reflexivity. Qed.

Lemma slice_append (p s : string) : slice (p ++ s) (String.length p) = s.
Proof. induction p as [|c p IH]; [reflexivity|]. exact IH. Qed.

Lemma includes_here (s needle : string) :
  startsWith s needle = true -> includes s needle = true.
Proof. intro H. destruct s; cbn [includes]; now rewrite H. Qed.

Lemma includes_append_l (a s needle : string) :
  includes s needle = true -> includes (a ++ s) needle = true.
Proof.
  intro H. induction a as [|c a IH]; [exact H|].
  cbn [append includes]. rewrite IH. apply orb_true_r.
Qed.


Lemma includes_tail (c : ascii) (s needle : string) :
  includes (String c s) needle = false -> includes s needle = false.
Proof. cbn [includes]. intro H. now apply orb_false_iff in H. Qed.

Lemma includes_false_startsWith (s needle : string) :
  includes s needle = false -> startsWith s needle = false.
Proof. destruct s; cbn [includes]; intro H; now apply orb_false_iff in H. Qed.

End JsFacts.

(* ------------------------------------------------------------------------- *)
(** ** The platform primitives: known answers and round trips *)

Module CryptoFacts.
Import Js Crypto.
Local Open Scope string_scope.

(** FIPS 180-4 and RFC 4231 test vectors. *)
Example sha256_abc :
  hex_of_bytes (sha256 (list_byte_of_string "abc"))
  = "ba7816bf8f01cfea414140de5dae2223b00361a396177a9cb410ff61f20015ad".
Proof. vm_compute. reflexivity. Qed.

Example sha256_empty :
  hex_of_bytes (sha256 [])
  = "e3b0c44298fc1c149afbf4c8996fb92427ae41e4649b934ca495991b7852b855".
Proof. vm_compute. reflexivity. Qed.

Example hmac_sha256_rfc4231_case2 :
  createHmac_sha256_hex "Jefe" "what do ya want for nothing?"
  = "5bdcc146bf60754e6a042426089575c75a003f089d2739839dec58b964ec3843".
Proof. vm_compute. reflexivity. Qed.

Lemma sha256_length (msg : list byte) : List.length (sha256 msg) = 32%nat.
Proof. unfold sha256. rewrite length_map. reflexivity. Qed.

Lemma hmac_sha256_length (key msg : list byte) :
  List.length (hmac_sha256 key msg) = 32%nat.
Proof. unfold hmac_sha256. apply sha256_length. Qed.

Lemma hex_pair_decodes (b : byte) :
  hex_value (hex_digit (N.div (Byte.to_N b) 16)) = Some (N.div (Byte.to_N b) 16)
  /\ hex_value (hex_digit (N.modulo (Byte.to_N b) 16)) = Some (N.modulo (Byte.to_N b) 16)
  /\ byte_of_Z (Z.of_N (16 * N.div (Byte.to_N b) 16 + N.modulo (Byte.to_N b) 16)) = b.
Proof. destruct b; repeat split; reflexivity. Qed.

(** Decoding a hex digest gives back the digest's bytes. *)
Lemma Buffer_from_hex_of_bytes (bs : list byte) :
  Buffer_from_hex (hex_of_bytes bs) = bs.
Proof.
  induction bs as [|b bs IH]; [reflexivity|].
  destruct (hex_pair_decodes b) as (Hh & Hl & Hb).
  cbn [hex_of_bytes Buffer_from_hex].
  rewrite Hh, Hl, Hb, IH. reflexivity.
Qed.

Lemma hex_of_bytes_inj (a b : list byte) :
  hex_of_bytes a = hex_of_bytes b -> a = b.
Proof.
  intro H. rewrite <- (Buffer_from_hex_of_bytes a), H.
  apply Buffer_from_hex_of_bytes.
Qed.

(** A hex digest never carries the [sha256=] prefix. *)
Lemma hex_digit_not_s (n : N) : Ascii.eqb "s" (hex_digit n) = false.
Proof.
  destruct n as [|p]; [reflexivity|].
  do 5 (try (destruct p as [p|p|]; try reflexivity)).
Qed.

Lemma hex_of_bytes_unprefixed (bs : list byte) :
  startsWith (hex_of_bytes bs) "sha256=" = false.
Proof.
  destruct bs as [|b bs]; [reflexivity|].
  cbn [hex_of_bytes startsWith]. rewrite hex_digit_not_s. reflexivity.
Qed.

Lemma bytes_eqb_eq (a b : list byte) : bytes_eqb a b = true <-> a = b.
Proof.
  revert b. induction a as [|x a IH]; intros [|y b]; cbn [bytes_eqb];
    try (split; discriminate); try tauto.
  rewrite andb_true_iff, IH. split.
  - intros [Hx ->]. apply Byte.byte_dec_bl in Hx. now subst.
  - intros [= -> ->]. split; [apply Byte.byte_dec_lb|]; reflexivity.
Qed.

Lemma bytes_eqb_refl (a : list byte) : bytes_eqb a a = true.
Proof. now apply bytes_eqb_eq. Qed.

Lemma bytes_eqb_neq (a b : list byte) : a <> b -> bytes_eqb a b = false.
Proof.
  intro H. destruct (bytes_eqb a b) eqn:E; [|reflexivity].
  apply bytes_eqb_eq in E. contradiction.
Qed.

(** On two digests [timingSafeEqual] does not throw: it compares. *)
Lemma timingSafeEqual_digests (k1 m1 k2 m2 : list byte) :
  timingSafeEqual (hmac_sha256 k1 m1) (hmac_sha256 k2 m2)
  = Normal (bytes_eqb (hmac_sha256 k1 m1) (hmac_sha256 k2 m2)).
Proof.
  unfold timingSafeEqual. rewrite !hmac_sha256_length. reflexivity.
Qed.

(** A decoded signature of any other length makes it throw. *)
Lemma timingSafeEqual_length_mismatch (a b : list byte) :
  List.length a <> List.length b -> exists e, timingSafeEqual a b = Throw e.
Proof.
  intro H. unfold timingSafeEqual.
  destruct (Nat.eqb_spec (List.length a) (List.length b)); [contradiction|].
  eexists. reflexivity.
Qed.

End CryptoFacts.

(* ------------------------------------------------------------------------- *)
(** ** Webhook signatures *)

Module WebhookProps.
Import Js Crypto Webhook AsSpecified JsFacts CryptoFacts.
Local Open Scope string_scope.

Lemma buildStringToSign_absent (s : string) : buildStringToSign s None None = s.
Proof. reflexivity. Qed.

Lemma validate_unfold (secret payload signature : string)
    (options : option ValidateOptions) :
  validate secret payload signature options
  = try_catch
      (timingSafeEqual (Buffer_from_hex (provided signature))
                       (expected_digest secret payload options))
      (fun _ => Normal false).
Proof.
  unfold validate, computeSignature, createHmac_sha256_hex, expected_digest, provided.
  rewrite buildStringToSign_absent, Buffer_from_hex_of_bytes. reflexivity.
Qed.

Lemma validate_hex_digest (secret payload : string) (key msg : list byte)
    (options : option ValidateOptions) :
  validate secret payload (hex_of_bytes (hmac_sha256 key msg)) options
  = Normal (bytes_eqb (hmac_sha256 key msg) (expected_digest secret payload options)).
Proof.
  rewrite validate_unfold. unfold provided.
  rewrite hex_of_bytes_unprefixed, Buffer_from_hex_of_bytes.
  unfold expected_digest. rewrite timingSafeEqual_digests. reflexivity.
Qed.

Lemma validate_signature_of (secret secret' payload : string)
    (options : option ValidateOptions) :
  validate secret' payload
    (computeSignature secret payload (opt_timestamp options) (opt_deliveryId options))
    options
  = Normal (bytes_eqb (expected_digest secret payload options)
                      (expected_digest secret' payload options)).
Proof.
  unfold computeSignature, createHmac_sha256_hex.
  rewrite validate_hex_digest. reflexivity.
Qed.

Lemma validate_wrong_length (secret payload signature : string)
    (options : option ValidateOptions) :
  List.length (Buffer_from_hex (provided signature))
    <> List.length (expected_digest secret payload options) ->
  validate secret payload signature options = Normal false.
Proof.
  intro H. rewrite validate_unfold.
  destruct (timingSafeEqual_length_mismatch _ _ H) as [e ->]. reflexivity.
Qed.

(** C3 (as amended).  A signature computed by [computeSignature] validates
    under the secret that made it, whatever timestamp and delivery id are
    supplied to both calls.  Under another secret the same signature is
    accepted exactly when HMAC-SHA256 gives both secrets the same digest of
    the canonical string, and rejected otherwise, as it is for the secrets
    of the repository's tests. *)
Theorem validate_own_signature_and_other_secret :
  forall (S S' P : string) (options : option ValidateOptions),
    let signature :=
      computeSignature S P (opt_timestamp options) (opt_deliveryId options) in
    validate S P signature options = Normal true
    /\ (expected_digest S' P options = expected_digest S P options ->
        validate S' P signature options = Normal true)
    /\ (expected_digest S' P options <> expected_digest S P options ->
        validate S' P signature options = Normal false)
    /\ validate "different-secret" "test-payload"
         (computeSignature "test-secret-key" "test-payload" None None) None
       = Normal false.
Proof.
  intros S S' P options signature. subst signature.
  split; [|split; [|split]].
  - rewrite validate_signature_of. now rewrite bytes_eqb_refl.
  - intros E. rewrite validate_signature_of, E. now rewrite bytes_eqb_refl.
  - intro H. rewrite validate_signature_of, bytes_eqb_neq; [reflexivity|].
    intro E. now apply H.
  - vm_compute. reflexivity.
Qed.

Lemma validate_own_signature_and_other_secret_witness :
  validate "test-secret-key" "test-payload"
    (computeSignature "test-secret-key" "test-payload" (Some "1234567890") None)
    (Some {| url := None; timestamp := Some "1234567890"; deliveryId := None |})
  = Normal true
  /\ validate "different-secret" "test-payload"
       (computeSignature "test-secret-key" "test-payload" (Some "1234567890") None)
       (Some {| url := None; timestamp := Some "1234567890"; deliveryId := None |})
     = Normal false.
Proof.
  pose proof (validate_own_signature_and_other_secret
                "test-secret-key" "different-secret" "test-payload"
                (Some {| url := None; timestamp := Some "1234567890";
                         deliveryId := None |})) as H.
  cbv zeta in H. destruct H as (H1 & _ & H3 & _).
  split; [exact H1|]. apply H3. vm_compute. discriminate.
Defined.

(** C3, the claim as stated, fails: a secret that differs from the signing
    secret only by a trailing NUL character is a different string, yet
    HMAC fills both keys with zero bytes up to the block size, so the
    signature made under one validates under the other. *)
Lemma validate_accepts_nul_padded_secret :
  "test-secret-key" ++ String "000" "" <> "test-secret-key"
  /\ validate ("test-secret-key" ++ String "000" "") "test-payload"
       (computeSignature "test-secret-key" "test-payload" None None) None
     = Normal true.
Proof. split; [discriminate|]. vm_compute. reflexivity. Qed.

(** C4.  Whatever the signature string, [validate] completes normally with
    a boolean; a decoded signature whose length differs from the expected
    digest's gives [false]; so do the three-character and the
    200-character garbage signatures of the tests, for every payload,
    secret and options. *)
Theorem validate_never_throws :
  forall (S P signature : string) (options : option ValidateOptions),
    (exists b : bool, validate S P signature options = Normal b)
    /\ (List.length (Buffer_from_hex (provided signature))
          <> List.length (expected_digest S P options) ->
        validate S P signature options = Normal false)
    /\ validate S P "abc" options = Normal false
    /\ validate S P (string_repeat "a" 200) options = Normal false
    /\ validate S P "invalid-signature" options = Normal false.
Proof.
  intros S P signature options. split; [|split; [|split; [|split]]].
  - rewrite validate_unfold.
    destruct (timingSafeEqual _ _) as [b|e]; eexists; reflexivity.
  - apply validate_wrong_length.
  - apply validate_wrong_length. unfold expected_digest.
    rewrite hmac_sha256_length. vm_compute. discriminate.
  - apply validate_wrong_length. unfold expected_digest.
    rewrite hmac_sha256_length. vm_compute. discriminate.
  - apply validate_wrong_length. unfold expected_digest.
    rewrite hmac_sha256_length. vm_compute. discriminate.
Qed.

Lemma validate_never_throws_witness :
  validate "test-secret-key" "{}" "sha256=zz" None = Normal false.
Proof.
  destruct (validate_never_throws "test-secret-key" "{}" "sha256=zz" None)
    as (_ & H & _).
  apply H. vm_compute. discriminate.
Defined.

Lemma timestamped_string_differs (t payload : string) :
  t ++ "." ++ payload <> payload.
Proof.
  intro H. apply (f_equal String.length) in H.
  rewrite !length_append in H. cbn in H. lia.
Qed.

(** C5 (as amended).  The canonical string is
    ["{timestamp}.{deliveryId}.{payload}"] when timestamp and deliveryId are
    both given and non-empty, ["{timestamp}.{payload}"] when a non-empty
    timestamp is given and the deliveryId is absent or empty, and the
    payload otherwise; the signature is the hex HMAC-SHA256 of that string.
    For a non-empty timestamp the string signed differs from the one signed
    without it, so the two signatures differ, and validating without the
    timestamp fails, whenever HMAC-SHA256 tells the two strings apart, as it
    does on the repository's test vector. *)
Theorem canonical_string_of_given_components :
  forall (S P : string) (ts did : option string),
    (forall t d, ts = Some t -> did = Some d -> t <> "" -> d <> "" ->
       buildStringToSign P ts did = t ++ "." ++ d ++ "." ++ P)
    /\ (forall t, ts = Some t -> t <> "" -> did = None \/ did = Some "" ->
          buildStringToSign P ts did = t ++ "." ++ P)
    /\ (ts = None \/ ts = Some "" -> buildStringToSign P ts did = P)
    /\ computeSignature S P ts did
       = createHmac_sha256_hex S (buildStringToSign P ts did)
    /\ (forall t, ts = Some t -> t <> "" ->
          buildStringToSign P ts None <> buildStringToSign P None None
          /\ (hmac_sha256 (list_byte_of_string S) (list_byte_of_string (t ++ "." ++ P))
                <> hmac_sha256 (list_byte_of_string S) (list_byte_of_string P) ->
              computeSignature S P ts None <> computeSignature S P None None
              /\ validate S P (computeSignature S P ts None) None = Normal false))
    /\ computeSignature "test-secret-key" "test-payload" (Some "1234567890") None
         <> computeSignature "test-secret-key" "test-payload" None None
    /\ validate "test-secret-key" "test-payload"
         (computeSignature "test-secret-key" "test-payload" (Some "1234567890") None)
         None
       = Normal false.
Proof.
  intros S P ts did. split; [|split; [|split; [|split; [|split; [|split]]]]].
  - intros t d -> -> Ht Hd. destruct t; [contradiction|]. destruct d; [contradiction|].
    reflexivity.
  - intros t -> Ht [-> | ->]; (destruct t; [contradiction|]); reflexivity.
  - intros [-> | ->]; reflexivity.
  - reflexivity.
  - intros t -> Ht. destruct t as [|c t]; [contradiction|].
    change (buildStringToSign P (Some (String c t)) None) with (String c t ++ "." ++ P).
    change (buildStringToSign P None None) with P.
    split; [apply timestamped_string_differs|].
    intro Hd. unfold computeSignature, createHmac_sha256_hex.
    change (buildStringToSign P (Some (String c t)) None) with (String c t ++ "." ++ P).
    change (buildStringToSign P None None) with P.
    split.
    + intro E. apply hex_of_bytes_inj in E. contradiction.
    + rewrite validate_hex_digest. unfold expected_digest.
      change (buildStringToSign P (opt_timestamp None) (opt_deliveryId None)) with P.
      now rewrite bytes_eqb_neq.
  - vm_compute. discriminate.
  - vm_compute. reflexivity.
Qed.

Lemma canonical_string_of_given_components_witness :
  buildStringToSign "{}" (Some "1234567890") (Some "del_abc123")
  = "1234567890" ++ "." ++ "del_abc123" ++ "." ++ "{}"
  /\ buildStringToSign "{}" (Some "1234567890") None = "1234567890" ++ "." ++ "{}"
  /\ buildStringToSign "{}" None (Some "del_abc123") = "{}"
  /\ validate "test-secret-key" "{}"
       (computeSignature "test-secret-key" "{}" (Some "1234567890") None) None
     = Normal false.
Proof.
  split; [|split; [|split]].
  - destruct (canonical_string_of_given_components "test-secret-key" "{}"
                (Some "1234567890") (Some "del_abc123")) as (H & _).
    apply (H "1234567890" "del_abc123"); (reflexivity || discriminate).
  - destruct (canonical_string_of_given_components "test-secret-key" "{}"
                (Some "1234567890") None) as (_ & H & _).
    apply (H "1234567890"); [reflexivity | discriminate | left; reflexivity].
  - destruct (canonical_string_of_given_components "test-secret-key" "{}"
                None (Some "del_abc123")) as (_ & _ & H & _).
    apply H. left; reflexivity.
  - destruct (canonical_string_of_given_components "test-secret-key" "{}"
                (Some "1234567890") None) as (_ & _ & _ & _ & H & _).
    destruct (H "1234567890" eq_refl) as (_ & H2); [discriminate|].
    apply H2. vm_compute. discriminate.
Defined.

(** C5, the claim as stated, fails on an empty timestamp: it is given, and
    the string signed is the bare payload, not [".{deliveryId}.{payload}"];
    the signature then equals the one computed without a timestamp, and
    validating without the timestamp succeeds. *)
Lemma empty_timestamp_is_not_signed :
  buildStringToSign "p" (Some "") (Some "d")
    <> canonical_as_specified "p" (Some "") (Some "d")
  /\ computeSignature "test-secret-key" "p" (Some "") None
     = computeSignature "test-secret-key" "p" None None
  /\ validate "test-secret-key" "p"
       (computeSignature "test-secret-key" "p" (Some "") None) None
     = Normal true.
Proof. split; [discriminate|split]; vm_compute; reflexivity. Qed.

(** C10.  An empty timestamp or deliveryId is treated as an absent one:
    [computeSignature(P, "", D)] is [computeSignature(P)],
    [computeSignature(P, T, "")] is [computeSignature(P, T)], and [validate]
    gives the same verdict for the corresponding options. *)
Theorem empty_component_is_absent :
  forall (S P signature : string) (T D u : option string),
    computeSignature S P (Some "") D = computeSignature S P None None
    /\ computeSignature S P T (Some "") = computeSignature S P T None
    /\ validate S P signature
         (Some {| url := u; timestamp := Some ""; deliveryId := D |})
       = validate S P signature None
    /\ validate S P signature
         (Some {| url := u; timestamp := T; deliveryId := Some "" |})
       = validate S P signature
           (Some {| url := u; timestamp := T; deliveryId := None |}).
Proof.
  intros S P signature T D u.
  assert (H1 : forall did, buildStringToSign P (Some "") did = P) by reflexivity.
  assert (H2 : buildStringToSign P T (Some "") = buildStringToSign P T None).
  { unfold buildStringToSign. cbn [truthy truthy_string]. now rewrite andb_false_r. }
  split; [|split; [|split]].
  - unfold computeSignature. now rewrite H1.
  - unfold computeSignature. now rewrite H2.
  - rewrite !validate_unfold. unfold expected_digest.
    cbn [opt_timestamp opt_deliveryId timestamp deliveryId]. now rewrite H1.
  - rewrite !validate_unfold. unfold expected_digest.
    cbn [opt_timestamp opt_deliveryId timestamp deliveryId]. now rewrite H2.
Qed.

End WebhookProps.

(* ------------------------------------------------------------------------- *)
(** ** The resource regular expressions *)

Module RegexFacts.
Import Js JsFacts.
Local Open Scope string_scope.

Lemma capture_stops_at_slash (t : regex_tail) (rest : string) :
  tail_matches SlashOrEnd rest = true -> capture t rest = None.
Proof.
  destruct rest as [|c rest]; [reflexivity|].
  cbn [tail_matches capture]. now intros ->.
Qed.

(** The group takes the whole segment when the tail follows it. *)
Lemma capture_segment (t : regex_tail) (id rest : string) :
  id <> "" -> slash_free id = true ->
  tail_matches SlashOrEnd rest = true -> tail_matches t rest = true ->
  capture t (id ++ rest) = Some id.
Proof.
  intros Hne Hfree Hend Htail.
  induction id as [|c id IH]; [contradiction|].
  cbn [slash_free] in Hfree. apply andb_true_iff in Hfree as [Hc Hfree].
  cbn [append capture]. apply negb_true_iff in Hc. rewrite Hc.
  destruct id as [|c' id].
  - cbn [append]. rewrite (capture_stops_at_slash t rest Hend), Htail. reflexivity.
  - rewrite IH; [reflexivity|discriminate|exact Hfree].
Qed.

Lemma match_at_segment (lit : string) (t : regex_tail) (id rest : string) :
  id <> "" -> slash_free id = true ->
  tail_matches SlashOrEnd rest = true -> tail_matches t rest = true ->
  match_at (Regex lit t) (lit ++ id ++ rest) = Some id.
Proof.
  intros. unfold match_at. cbn [re_lit re_tail].
  rewrite startsWith_append, slice_append. now apply capture_segment.
Qed.

Lemma regex_exec_here (r : regex) (s g : string) :
  match_at r s = Some g -> regex_exec r s = Some g.
Proof. intro H. destruct s; cbn [regex_exec]; now rewrite H. Qed.

Lemma match_at_needs_lit (r : regex) (s : string) :
  startsWith s (re_lit r) = false -> match_at r s = None.
Proof. intro H. unfold match_at. now rewrite H. Qed.




(** A match of a pattern with a literal tail shows the literal in the string. *)
Lemma capture_literal_included (l s g : string) :
  capture (Literal l) s = Some g -> includes s l = true.
Proof.
  revert g. induction s as [|c s IH]; intros g; [discriminate|].
  cbn [capture]. destruct (Ascii.eqb c "/"); [discriminate|].
  destruct (capture (Literal l) s) as [g'|] eqn:E.
  - intros _. cbn [includes]. rewrite (IH g' eq_refl). apply orb_true_r.
  - cbn [tail_matches]. destruct (startsWith s l) eqn:Es; [|discriminate].
    intros _. cbn [includes]. rewrite (includes_here _ _ Es). apply orb_true_r.
Qed.

Lemma includes_slice (s needle : string) (n : nat) :
  includes (slice s n) needle = true -> includes s needle = true.
Proof.
  revert s. induction n as [|n IH]; intros s H; [exact H|].
  destruct s as [|c s]; [exact H|].
  cbn [slice] in H. cbn [includes]. rewrite (IH s H). apply orb_true_r.
Qed.

Lemma regex_exec_literal_included (lit l s : string) :
  includes s l = false -> regex_exec (Regex lit (Literal l)) s = None.
Proof.
  induction s as [|c s IH]; intro H.
  - cbn [regex_exec]. destruct (match_at _ _) eqn:E; [|reflexivity].
    unfold match_at in E. cbn [re_lit re_tail] in E.
    destruct (startsWith "" lit); [|discriminate].
    apply capture_literal_included, includes_slice in E. congruence.
  - cbn [regex_exec]. destruct (match_at _ _) eqn:E.
    + unfold match_at in E. cbn [re_lit re_tail] in E.
      destruct (startsWith (String c s) lit); [|discriminate].
      apply capture_literal_included, includes_slice in E. congruence.
    + apply IH. eapply includes_tail, H.
Qed.

End RegexFacts.

(* ------------------------------------------------------------------------- *)
(** ** Typed errors and the classifier *)

Module ErrorProps.
Import Js Axios Errors ErrorHandler AsSpecified Samples JsFacts RegexFacts.
Local Open Scope string_scope.

(** C9 (as amended).  The composite message is the base message, followed
    by [" ({resourceType}: {resourceId})"] exactly when [context.resourceId]
    is set to a non-empty string (with ["resource"] when [resourceType] is
    unset or empty), followed by [". {suggestion}"] exactly when
    [context.suggestion] is set to a non-empty string; without a
    [resourceId] there is no annotation, whatever the [resourceType]. *)
Theorem friendlyMessage_composition :
  forall e : error,
    friendlyMessage e
    = message e
      ++ match ctx resourceId (context e) with
         | Some (String c id) =>
             " (" ++ match ctx resourceType (context e) with
                     | Some (String a rt) => String a rt
                     | _ => "resource"
                     end ++ ": " ++ String c id ++ ")"
         | _ => ""
         end
      ++ match ctx suggestion (context e) with
         | Some (String c s) => ". " ++ String c s
         | _ => ""
         end.
Proof.
  intros [p m sc ec d c ra]. unfold friendlyMessage. cbn [message context].
  destruct (ctx resourceId c) as [[|ci id]|];
    destruct (ctx suggestion c) as [[|cs s]|];
    destruct (ctx resourceType c) as [[|ct rt]|];
    cbn [truthy truthy_string interp or_else];
    rewrite ?append_assoc, ?append_empty_r; reflexivity.
Qed.

(** C9, the claim as stated, fails on an error whose [resourceId] is set to
    the empty string: no annotation is added. *)
Lemma friendlyMessage_skips_empty_resourceId :
  let e :=
    VocaFuseError "Test error" (Some 404%Z) None None
      (Some {| resourceType := Some "voicenote"; resourceId := Some "";
               endpoint := None; suggestion := None |}) in
  friendlyMessage e = "Test error"
  /\ friendlyMessage_as_specified e = "Test error (voicenote: )"
  /\ friendlyMessage e <> friendlyMessage_as_specified e.
Proof. cbv zeta. split; [reflexivity|split; [reflexivity|discriminate]]. Qed.

(** The repository's expectations for [friendlyMessage]. *)
Example friendlyMessage_resource_and_suggestion :
  friendlyMessage
    (VocaFuseError "Test error" (Some 404%Z) None None
       (Some {| resourceType := Some "voicenote"; resourceId := Some "vn_123";
                endpoint := None; suggestion := Some "Check the ID" |}))
  = "Test error (voicenote: vn_123). Check the ID".
Proof. reflexivity. Qed.

Section Classifier.

Variable T : Type.

Lemma detect_voicenote (u : string) :
  includes u "/transcription" = false -> includes u "voicenotes/" = true ->
  detectResourceType (Some u) = Some "voicenote".
Proof.
  intros Ht Hv. unfold detectResourceType.
  destruct u as [|c u]; [discriminate Hv|].
  cbn [truthy truthy_string negb interp].
  rewrite Ht, (regex_exec_literal_included _ _ _ Ht), Hv. reflexivity.
Qed.








End Classifier.



End ErrorProps.

(* ------------------------------------------------------------------------- *)
(** ** The retry engine *)

Module RetryProps.
Import Js Axios Errors ErrorHandler Http Samples.
Local Open Scope Z_scope.

Section Engine.

Variable T : Type.

(** The handler asks for a retry exactly as the backoff rule says. *)
Lemma onRejected_retries (rc : RetryConfig) (err : AxiosError T)
    (cfg : AxiosRequestConfig) (r : AxiosResponse T) :
  config err = Some cfg -> response err = Some r ->
  includesZ (retryableStatuses rc) (status r) = true ->
  retryCount_or_0 cfg < maxRetries rc ->
  onRejected rc err
  = RetryAfter T (retryDelay rc * 2 ^ retryCount_or_0 cfg)
      (set_retryCount cfg (retryCount_or_0 cfg + 1)).
Proof.
  intros Hc Hr Hin Hlt. unfold onRejected. rewrite Hc, Hr, Hin.
  apply Z.ltb_lt in Hlt. rewrite Hlt. cbn [andb negb].
  replace (retryCount_or_0 cfg + 1 - 1) with (retryCount_or_0 cfg) by lia.
  reflexivity.
Qed.

(** Otherwise it rejects, with the failure it was given. *)
Lemma onRejected_rejects (rc : RetryConfig) (err : AxiosError T) :
  (forall cfg r, config err = Some cfg -> response err = Some r ->
     includesZ (retryableStatuses rc) (status r) = false
     \/ maxRetries rc <= retryCount_or_0 cfg) ->
  exists e, onRejected rc err = Reject e
            /\ response e = response err /\ ae_message e = ae_message err.
Proof.
  intro H. unfold onRejected.
  destruct (config err) as [cfg|] eqn:Hc; [|eexists; repeat split].
  destruct (response err) as [r|] eqn:Hr.
  - destruct (H cfg r eq_refl eq_refl) as [Hn | Hge].
    + rewrite Hn, andb_false_r. eexists; repeat split.
    + apply Z.ltb_ge in Hge. rewrite Hge. eexists; repeat split.
  - rewrite andb_false_r. eexists; repeat split.
Qed.

(** A failure without a response is never retried, so the fallback of
    [rejected] is not used by [request]. *)
Lemma onRejected_no_response (rc : RetryConfig) (err : AxiosError T) :
  response err = None -> exists e, onRejected rc err = Reject e.
Proof.
  intro H. destruct (onRejected_rejects rc err) as (e & He & _).
  - intros cfg r _ Hr. congruence.
  - now exists e.
Qed.

Lemma request_success (rc : RetryConfig) (r : AxiosResponse T)
    (rest : list (Reply T)) (cfg : AxiosRequestConfig) :
  validateStatus (status r) = true ->
  request rc (Respond r :: rest) cfg
  = {| events := [Sent cfg]; outcome := inr r; unread := rest |}.
Proof. intro H. cbn [request settle]. now rewrite H. Qed.

Lemma request_retry (rc : RetryConfig) (r : AxiosResponse T)
    (rest : list (Reply T)) (cfg : AxiosRequestConfig) :
  validateStatus (status r) = false ->
  includesZ (retryableStatuses rc) (status r) = true ->
  retryCount_or_0 cfg < maxRetries rc ->
  let again := request rc rest (set_retryCount cfg (retryCount_or_0 cfg + 1)) in
  request rc (Respond r :: rest) cfg
  = {| events := Sent cfg :: Failed (Some (status r))
                   :: Slept (retryDelay rc * 2 ^ retryCount_or_0 cfg) :: events again;
       outcome := outcome again; unread := unread again |}.
Proof.
  intros Hs Hin Hlt again. subst again. cbn [request settle]. rewrite Hs.
  rewrite (onRejected_retries rc (status_error cfg r) cfg r
             eq_refl eq_refl Hin Hlt).
  reflexivity.
Qed.

Lemma request_reject (rc : RetryConfig) (r : AxiosResponse T)
    (rest : list (Reply T)) (cfg : AxiosRequestConfig) :
  validateStatus (status r) = false ->
  includesZ (retryableStatuses rc) (status r) = false
  \/ maxRetries rc <= retryCount_or_0 cfg ->
  exists e, request rc (Respond r :: rest) cfg
            = {| events := [Sent cfg; Failed (Some (status r))];
                 outcome := inl e; unread := rest |}
            /\ response e = Some r.
Proof.
  intros Hs H. cbn [request settle]. rewrite Hs.
  destruct (onRejected_rejects rc (status_error cfg r)) as (e & -> & Hr & _).
  - cbn [config response]. intros cfg' r' [= <-] [= <-]. exact H.
  - exists e. split; [reflexivity|exact Hr].
Qed.

Lemma handleApiError_500 (err : AxiosError T) (r : AxiosResponse T) :
  response err = Some r -> status r = 500 ->
  proto (handleApiError (ThrownAxios err)) = C_ServerError
  /\ statusCode (handleApiError (ThrownAxios err)) = Some 500.
Proof.
  intros Hr Hs. unfold handleApiError. rewrite Hr. cbn [option_map].
  rewrite Hs. split; reflexivity.
Qed.

(** C1.  On a failure whose status is in [retryableStatuses], with the
    attempt counter (0 on a fresh request) below [maxRetries], the handler
    pauses [retryDelay * 2 ^ attemptsSoFar] milliseconds, increments the
    counter and resubmits the request with the same method, path, query,
    body and headers.  Hence the replies 500, 500, 200 with [maxRetries = 3]
    end in the 200 response after exactly three attempts, and with
    [maxRetries = 0] a single 500 is sent once, never retried, and reaches
    the caller as a typed [ServerError]. *)
Theorem retry_backoff_and_attempts :
  forall rc : RetryConfig,
    (forall (err : AxiosError T) (cfg : AxiosRequestConfig) (r : AxiosResponse T),
       config err = Some cfg -> response err = Some r ->
       includesZ (retryableStatuses rc) (status r) = true ->
       retryCount_or_0 cfg < maxRetries rc ->
       let cfg' := set_retryCount cfg (retryCount_or_0 cfg + 1) in
       onRejected rc err
       = RetryAfter T (retryDelay rc * 2 ^ retryCount_or_0 cfg) cfg'
       /\ retryCount_or_0 cfg' = retryCount_or_0 cfg + 1
       /\ method cfg' = method cfg /\ url cfg' = url cfg
       /\ params cfg' = params cfg /\ data cfg' = data cfg
       /\ headers cfg' = headers cfg)
    /\ (forall (r : AxiosResponse T) (rest : list (Reply T))
               (cfg : AxiosRequestConfig),
          validateStatus (status r) = false ->
          includesZ (retryableStatuses rc) (status r) = true ->
          retryCount_or_0 cfg < maxRetries rc ->
          let again := request rc rest (set_retryCount cfg (retryCount_or_0 cfg + 1)) in
          request rc (Respond r :: rest) cfg
          = {| events := Sent cfg :: Failed (Some (status r))
                           :: Slept (retryDelay rc * 2 ^ retryCount_or_0 cfg)
                           :: events again;
               outcome := outcome again; unread := unread again |})
    /\ (forall (r1 r2 r3 : AxiosResponse T) (cfg : AxiosRequestConfig),
          maxRetries rc = 3 -> includesZ (retryableStatuses rc) 500 = true ->
          status r1 = 500 -> status r2 = 500 -> status r3 = 200 ->
          _retryCount cfg = None ->
          let run := request rc [Respond r1; Respond r2; Respond r3] cfg in
          outcome run = inr r3
          /\ attempts (events run) = 3%nat
          /\ sleeps (events run) = [retryDelay rc * 1; retryDelay rc * 2]
          /\ unread run = [])
    /\ (forall (r : AxiosResponse T) (rest : list (Reply T)) (endpoint : string)
               (params : list (string * ParamValue)),
          maxRetries rc = 0 -> status r = 500 ->
          let result := _get rc (Respond r :: rest) endpoint params in
          attempts (events (snd result)) = 1%nat
          /\ sleeps (events (snd result)) = []
          /\ unread (snd result) = rest
          /\ exists e : error,
               fst result = inl e
               /\ proto e = C_ServerError /\ statusCode e = Some 500).
Proof.
  intro rc. split; [|split; [|split]].
  - intros err cfg r Hc Hr Hin Hlt cfg'. subst cfg'.
    rewrite (onRejected_retries rc err cfg r Hc Hr Hin Hlt). repeat split.
  - intros r rest cfg. apply request_retry.
  - intros r1 r2 r3 cfg Hmax H500 H1 H2 H3 Hfresh run. subst run.
    assert (Hc0 : retryCount_or_0 cfg = 0) by (unfold retryCount_or_0; now rewrite Hfresh).
    rewrite request_retry;
      [|rewrite H1; reflexivity|rewrite H1; exact H500|rewrite Hc0, Hmax; lia].
    rewrite Hc0. cbn [events outcome unread attempts sleeps].
    rewrite request_retry;
      [|rewrite H2; reflexivity|rewrite H2; exact H500
       |cbn [retryCount_or_0 set_retryCount _retryCount]; rewrite Hmax; lia].
    cbn [retryCount_or_0 set_retryCount _retryCount events outcome unread
         attempts sleeps].
    rewrite request_success by (rewrite H3; reflexivity).
    cbn [events outcome unread attempts sleeps]. repeat split.
  - intros r rest endpoint params Hmax Hs result. subst result.
    unfold _get.
    destruct (request_reject rc r rest
                {| method := "get"; url := Some endpoint; params := params;
                   data := None; headers := []; _retryCount := None |})
      as (e & -> & He).
    + rewrite Hs. reflexivity.
    + right. rewrite Hmax. cbn. lia.
    + cbn [fst snd events outcome unread attempts sleeps]. repeat split.
      eexists. split; [reflexivity|]. now apply (handleApiError_500 e r).
Qed.

(** A 400 is not in the set: the handler rejects, whatever the counter. *)
Lemma onRejected_not_retryable (rc : RetryConfig) (err : AxiosError T)
    (r : AxiosResponse T) :
  includesZ (retryableStatuses rc) (status r) = false ->
  response err = Some r ->
  exists e, onRejected rc err = Reject e
            /\ response e = Some r /\ ae_message e = ae_message err.
Proof.
  intros Hn Hr.
  destruct (onRejected_rejects rc err) as (e & He & Hre & Hm).
  - intros cfg r' _ Hr'. left. congruence.
  - exists e. repeat split; congruence.
Qed.

(** In a run, a failure outside the retryable set is the last event. *)
Lemma non_retryable_failure_ends_run (rc : RetryConfig) (code : Z) :
  includesZ (retryableStatuses rc) code = false ->
  forall (script : list (Reply T)) (cfg : AxiosRequestConfig)
         (before after : list Event),
    events (request rc script cfg) = before ++ Failed (Some code) :: after ->
    after = []
    /\ exists (e : AxiosError T) (r : AxiosResponse T),
         outcome (request rc script cfg) = inl e
         /\ response e = Some r /\ status r = code.
Proof.
  intros Hn. induction script as [|reply rest IH]; intros cfg before after H.
  - cbn [request events] in H.
    destruct before as [|e1 [|e2 [|e3 before]]]; cbn in H; discriminate.
  - cbn [request] in *. destruct (settle cfg reply) as [err|resp] eqn:Hsettle.
    + destruct (onRejected rc err) as [e|delay cfg'] eqn:Hd.
      * cbn [events outcome] in *.
        destruct before as [|e1 [|e2 [|e3 before]]]; cbn in H; try discriminate.
        -- injection H as _ H1 H2. split; [now subst|].
           destruct (response err) as [r|] eqn:Hr; [|discriminate].
           cbn in H1. injection H1 as H1.
           destruct (onRejected_rejects rc err) as (e' & He' & Hre & _).
           { intros c r' _ Hr'. left. congruence. }
           rewrite Hd in He'. injection He' as <-.
           exists e, r. repeat split; congruence.
      * cbn [events outcome] in *.
        destruct before as [|e1 [|e2 [|e3 before]]]; cbn in H; try discriminate.
        -- exfalso. injection H as _ H1 _.
           destruct (response err) as [r|] eqn:Hr; [|discriminate].
           cbn in H1. injection H1 as H1.
           destruct (onRejected_not_retryable rc err r) as (e' & He' & _);
             [congruence|exact Hr|congruence].
        -- injection H as _ _ _ H. apply (IH cfg' before after H).
    + cbn [events] in H.
      destruct before as [|e1 [|e2 before]]; cbn in H; discriminate.
Qed.

(** C8.  With the default retryable statuses, whatever [maxRetries] and
    [retryDelay] the client is configured with, the handler rejects a 400
    failure at once, at any value of the attempt counter, and in every run
    of a request a 400 failure is the last event: no pause and no
    resubmission follow it, and the run ends with that failure. *)
Theorem bad_request_is_never_retried :
  forall (max : Z) (delay : option Z),
    let rc :=
      mergeRetryConfig
        (Some {| opt_maxRetries := Some max; opt_retryDelay := delay;
                 opt_retryableStatuses := None |}) in
    maxRetries rc = max
    /\ (forall (err : AxiosError T) (r : AxiosResponse T),
          response err = Some r -> status r = 400 ->
          exists e : AxiosError T,
            onRejected rc err = Reject e
            /\ response e = Some r /\ ae_message e = ae_message err)
    /\ (forall (script : list (Reply T)) (cfg : AxiosRequestConfig)
               (before after : list Event),
          events (request rc script cfg) = before ++ Failed (Some 400) :: after ->
          after = []
          /\ exists (e : AxiosError T) (r : AxiosResponse T),
               outcome (request rc script cfg) = inl e
               /\ response e = Some r /\ status r = 400).
Proof.
  intros max delay rc. split; [reflexivity|split].
  - intros err r Hr Hs. apply onRejected_not_retryable; [|exact Hr].
    rewrite Hs. reflexivity.
  - apply non_retryable_failure_ends_run. reflexivity.
Qed.

End Engine.

Lemma retry_backoff_and_attempts_witness :
  let run :=
    request (test_retry 3)
      [Respond (error_response 500 "Server error");
       Respond (error_response 500 "Server error"); Respond ok_response]
      (get_request "/voicenotes") in
  onRejected (test_retry 3) (createAxiosError 500 "Server error" "/voicenotes")
  = RetryAfter unit 10 (set_retryCount (get_request "/voicenotes") 1)
  /\ outcome run = inr ok_response
  /\ attempts (events run) = 3%nat
  /\ sleeps (events run) = [10; 20]
  /\ (exists e : error,
        fst (_get (test_retry 0) [Respond (error_response 500 "Server error")]
               "voicenotes" [])
        = inl e
        /\ proto e = C_ServerError /\ statusCode e = Some 500).
Proof.
  cbv zeta. split; [|split; [|split; [|split]]].
  - destruct (retry_backoff_and_attempts unit (test_retry 3)) as (H & _).
    apply (H (createAxiosError 500 "Server error" "/voicenotes")
             (get_request "/voicenotes") (error_response 500 "Server error"));
      reflexivity.
  - destruct (retry_backoff_and_attempts unit (test_retry 3)) as (_ & _ & H & _).
    apply (H (error_response 500 "Server error") (error_response 500 "Server error")
             ok_response (get_request "/voicenotes")); reflexivity.
  - destruct (retry_backoff_and_attempts unit (test_retry 3)) as (_ & _ & H & _).
    apply (H (error_response 500 "Server error") (error_response 500 "Server error")
             ok_response (get_request "/voicenotes")); reflexivity.
  - destruct (retry_backoff_and_attempts unit (test_retry 3)) as (_ & _ & H & _).
    apply (H (error_response 500 "Server error") (error_response 500 "Server error")
             ok_response (get_request "/voicenotes")); reflexivity.
  - destruct (retry_backoff_and_attempts unit (test_retry 0)) as (_ & _ & _ & H).
    apply (H (error_response 500 "Server error") [] "voicenotes"%string []);
      reflexivity.
Defined.

Lemma bad_request_is_never_retried_witness :
  let cfg := get_request "/voicenotes" in
  let run :=
    request (test_retry 3)
      [Respond (error_response 400 "Bad request"); Respond ok_response] cfg in
  (exists e : AxiosError unit,
     onRejected (test_retry 3) (createAxiosError 400 "Bad request" "/voicenotes")
     = Reject e)
  /\ events run = [Sent cfg; Failed (Some 400)]
  /\ exists (e : AxiosError unit) (r : AxiosResponse unit),
       outcome run = inl e /\ response e = Some r /\ status r = 400.
Proof.
  cbv zeta.
  destruct (bad_request_is_never_retried unit 3 (Some 10)) as (_ & H1 & H2).
  split; [|split].
  - destruct (H1 (createAxiosError 400 "Bad request" "/voicenotes")
                 (error_response 400 "Bad request") eq_refl eq_refl) as (e & He & _).
    exists e. exact He.
  - reflexivity.
  - apply (H2 [Respond (error_response 400 "Bad request"); Respond ok_response]
              (get_request "/voicenotes") [Sent (get_request "/voicenotes")] []).
    reflexivity.
Defined.

End RetryProps.

(* ------------------------------------------------------------------------- *)
(** ** Voicenotes: the list parameters and the auto-paginating generator *)

Module VoicenotesProps.
Import Js Axios Http Voicenotes RetryProps.
Local Open Scope Z_scope.

(** Every run starts by sending the request it was given. *)
Lemma request_sends_first (T : Type) (rc : RetryConfig) (script : Datatypes.list (Reply T))
    (cfg : AxiosRequestConfig) :
  exists rest, events (request rc script cfg) = Sent cfg :: rest.
Proof.
  destruct script as [|reply script]; cbn [request].
  - eexists. reflexivity.
  - destruct (settle cfg reply); [destruct (onRejected rc _)|];
      eexists; reflexivity.
Qed.

(** C7 (as amended).  The limit sent by [list] never exceeds 100: an omitted
    limit (and a limit of 0) is sent as the default 50, a limit from 1 to
    100 is sent as it is, a limit above 100 is sent as 100, and a negative
    limit is sent unchanged, there being no lower clamp.  It is the [limit]
    parameter of the request that goes out. *)
Theorem list_limit_is_capped_at_100 :
  forall (Voicenote : Type) (options : option ListVoicenotesOptions)
         (w : World Voicenote),
    exists l : Z,
      param (list_params options) "limit" = Some (PNum l)
      /\ (exists cfg rest,
            events (snd (_get (retryConfig w) (script w) "voicenotes"
                           (list_params options)))
            = Sent cfg :: rest
            /\ param (params cfg) "limit" = Some (PNum l))
      /\ l <= 100
      /\ (opt opt_limit options = None \/ opt opt_limit options = Some 0 -> l = 50)
      /\ (forall n, opt opt_limit options = Some n -> 1 <= n <= 100 -> l = n)
      /\ (forall n, opt opt_limit options = Some n -> 100 < n -> l = 100)
      /\ (forall n, opt opt_limit options = Some n -> n < 0 -> l = n).
Proof.
  intros Voicenote options w.
  exists (Z.min (num_or (opt opt_limit options) PAGE_LIMIT) MAX_PAGE_LIMIT).
  unfold PAGE_LIMIT, MAX_PAGE_LIMIT.
  split; [reflexivity|split; [|split; [|split; [|split; [|split]]]]].
  - unfold _get. cbn [snd].
    destruct (request_sends_first (Datatypes.list Voicenote) (retryConfig w) (script w)
                {| method := "get"; url := Some "voicenotes"%string;
                   params := list_params options; data := None; headers := [];
                   _retryCount := None |}) as [rest ->].
    eexists _, rest. split; reflexivity.
  - lia.
  - intros [-> | ->]; reflexivity.
  - intros n -> Hn. unfold num_or.
    destruct (Z.eqb_spec n 0); lia.
  - intros n -> Hn. unfold num_or.
    destruct (Z.eqb_spec n 0); lia.
  - intros n -> Hn. unfold num_or.
    destruct (Z.eqb_spec n 0); lia.
Qed.

Lemma list_limit_is_capped_at_100_witness :
  param (list_params (Some {| opt_page := None; opt_limit := Some 200;
                              opt_status := None; dateFrom := None;
                              dateTo := None |})) "limit"
  = Some (PNum 100).
Proof.
  destruct (list_limit_is_capped_at_100 unit
              (Some {| opt_page := None; opt_limit := Some 200;
                       opt_status := None; dateFrom := None; dateTo := None |})
              {| retryConfig := DEFAULT_RETRY_CONFIG; script := [];
                 traffic := []; list_calls := [] |})
    as (l & Hl & _ & _ & _ & _ & Hcap & _).
  rewrite Hl. rewrite (Hcap 200 eq_refl); [reflexivity|lia].
Defined.

(** C7, the claim as stated, fails on a negative limit: it is sent as it is,
    below the interval. *)
Lemma negative_limit_is_sent_unclamped :
  param (list_params (Some {| opt_page := None; opt_limit := Some (-5);
                              opt_status := None; dateFrom := None;
                              dateTo := None |})) "limit"
  = Some (PNum (-5))
  /\ ~ (1 <= -5 <= 100).
Proof. split; [reflexivity|lia]. Qed.

Section Pagination.

Variable Voicenote : Type.

(** A request uses up a reply, unless none is left, and then it fails. *)
Lemma request_consumes (T : Type) (rc : RetryConfig)
    (script : Datatypes.list (Reply T)) (cfg : AxiosRequestConfig) :
  (script = [] /\ exists e, outcome (request rc script cfg) = inl e)
  \/ (List.length (unread (request rc script cfg)) < List.length script)%nat.
Proof.
  revert cfg. induction script as [|reply rest IH]; intro cfg.
  - left. split; [reflexivity|]. cbn [request outcome]. eexists. reflexivity.
  - right. cbn [request].
    destruct (settle cfg reply); [destruct (onRejected rc _) as [e|delay cfg']|];
      cbn [unread List.length]; try lia.
    destruct (IH cfg') as [[-> _] | H]; [cbn; lia|lia].
Qed.

Lemma list_script (options : option ListVoicenotesOptions) (w : World Voicenote) :
  match fst (list options w) with
  | inl _ => True
  | inr _ => (List.length (script (snd (list options w))) < List.length (script w))%nat
  end.
Proof.
  unfold list, _get. cbn [fst snd script].
  destruct (request_consumes (Datatypes.list Voicenote) (retryConfig w) (script w)
              {| method := "get"; url := Some "voicenotes"%string;
                 params := list_params options; data := None; headers := [];
                 _retryCount := None |}) as [[_ [e ->]] | H]; [exact I|].
  destruct (outcome _); [exact I|exact H].
Qed.

(** The loop never runs out of fuel that exceeds the script's length. *)
Lemma while_hasMore_total (fuel : nat) :
  forall (options : option ListVoicenotesOptions) (page : Z) (w : World Voicenote),
    (List.length (script w) < fuel)%nat ->
    while_hasMore fuel options page w <> None.
Proof.
  induction fuel as [|fuel IH]; intros options page w Hlen; [lia|].
  cbn [while_hasMore].
  pose proof (list_script (Some (with_page options page)) w) as Hs.
  destruct (list (Some (with_page options page)) w) as [res w'].
  cbn [fst snd] in Hs.
  destruct res as [e|response]; [discriminate|].
  destruct (body_data response) as [[|v rest]|]; try discriminate.
  destruct (has_more_of (body_pagination response)); [|discriminate].
  apply IH. lia.
Qed.

(** [next()] always settles. *)
Theorem next_total (g : Generator Voicenote) (w : World Voicenote) :
  exists r, next g w = Some r.
Proof.
  assert (H : next g w <> None).
  { destruct g as [options | options page [|v rest] pagination |];
      cbn [next]; try discriminate.
    - apply while_hasMore_total. lia.
    - destruct (has_more_of pagination); [|discriminate].
      apply while_hasMore_total. lia. }
  destruct (next g w) as [r|]; [now exists r|contradiction].
Qed.


End Pagination.


End VoicenotesProps.

(* ------------------------------------------------------------------------- *)
(** ** More on the retry engine: bounds, schedule, invariance *)

Module RetryMore.
Import Js Axios Errors ErrorHandler Http Vocabulary Samples.
Local Open Scope Z_scope.

Section Engine.

Variable T : Type.

(** One turn of [request], by the reply it meets. *)
Lemma request_step (rc : RetryConfig) (reply : Reply T) (rest : list (Reply T))
    (cfg : AxiosRequestConfig) :
  match reply with
  | Respond r =>
      if validateStatus (status r) then
        request rc (reply :: rest) cfg
        = {| events := [Sent cfg]; outcome := inr r; unread := rest |}
      else if (retryCount_or_0 cfg <? maxRetries rc)
              && includesZ (retryableStatuses rc) (status r) then
        let again := request rc rest (set_retryCount cfg (retryCount_or_0 cfg + 1)) in
        request rc (reply :: rest) cfg
        = {| events := Sent cfg :: Failed (Some (status r))
                         :: Slept (retryDelay rc * 2 ^ retryCount_or_0 cfg)
                         :: events again;
             outcome := outcome again; unread := unread again |}
      else
        request rc (reply :: rest) cfg
        = {| events := [Sent cfg; Failed (Some (status r))];
             outcome := inl (handed_on cfg (status_error cfg r)); unread := rest |}
  | NetworkError _ msg =>
      request rc (reply :: rest) cfg
      = {| events := [Sent cfg; Failed None];
           outcome := inl (handed_on cfg (network_error T cfg msg)); unread := rest |}
  end.
Proof.
  destruct reply as [r|msg]; cbn [request settle].
  - destruct (validateStatus (status r)); [reflexivity|].
    unfold onRejected. cbn [config response status_error].
    destruct ((retryCount_or_0 cfg <? maxRetries rc)
              && includesZ (retryableStatuses rc) (status r)); cbn [negb].
    + replace (retryCount_or_0 cfg + 1 - 1) with (retryCount_or_0 cfg) by lia.
      reflexivity.
    + reflexivity.
  - unfold onRejected. cbn [config response network_error].
    rewrite andb_false_r. reflexivity.
Qed.

Lemma request_nil (rc : RetryConfig) (cfg : AxiosRequestConfig) :
  request rc [] cfg
  = {| events := [Sent cfg; Failed None];
       outcome := inl (handed_on cfg (network_error T cfg "Network Error"));
       unread := [] |}.
Proof.
  cbn [request]. unfold onRejected. cbn [config response network_error].
  rewrite andb_false_r. reflexivity.
Qed.

(** Case analysis on one turn of a run, for inductions over the script. *)
Ltac run_cases rc reply rest cfg :=
  let H := fresh "Hstep" in
  pose proof (request_step rc reply rest cfg) as H;
  destruct reply as [?r|?msg];
  [ destruct (validateStatus (status _)) eqn:?Hok;
    [ | destruct ((retryCount_or_0 cfg <? maxRetries rc)
                  && includesZ (retryableStatuses rc) (status _)) eqn:?Hretry;
        cbv zeta in H ]
  | ];
  rewrite H; clear H; cbn [events outcome unread attempts sleeps].

Lemma retryCount_set (cfg : AxiosRequestConfig) (n : Z) :
  retryCount_or_0 (set_retryCount cfg n) = n.
Proof. reflexivity. Qed.

Lemma attempts_and_sleeps (rc : RetryConfig) (script : list (Reply T)) :
  forall cfg : AxiosRequestConfig,
    let run := request rc script cfg in
    (1 <= attempts (events run))%nat
    /\ (attempts (events run)
        <= 1 + Z.to_nat (maxRetries rc - retryCount_or_0 cfg))%nat
    /\ sleeps (events run)
       = backoff rc (retryCount_or_0 cfg) (attempts (events run) - 1).
Proof.
  induction script as [|reply rest IH]; intros cfg run; subst run.
  - rewrite request_nil. cbn. repeat split; lia.
  - run_cases rc reply rest cfg; try (cbn; repeat split; lia).
    apply andb_true_iff in Hretry as [Hlt _]. apply Z.ltb_lt in Hlt.
    specialize (IH (set_retryCount cfg (retryCount_or_0 cfg + 1))).
    cbv zeta in IH. rewrite retryCount_set in IH.
    destruct IH as (H1 & H2 & H3). repeat split; try lia.
    rewrite H3.
    destruct (attempts (events (request rc rest _))) as [|n]; [lia|].
    cbn [backoff Nat.sub]. rewrite Nat.sub_0_r. reflexivity.
Qed.

Lemma backoff_length (rc : RetryConfig) (n : nat) :
  forall c : Z, List.length (backoff rc c n) = n.
Proof. induction n as [|n IH]; intro c; cbn; [reflexivity|]. now rewrite IH. Qed.

Lemma fresh_count (cfg : AxiosRequestConfig) :
  _retryCount cfg = None -> retryCount_or_0 cfg = 0.
Proof. intro H. unfold retryCount_or_0. now rewrite H. Qed.

(** X1.  A fresh request is sent at least once and at most [maxRetries + 1]
    times (once when [maxRetries] is not positive), whatever the server
    replies, and one pause is taken between two consecutive attempts. *)
Theorem attempts_bounded_by_maxRetries :
  forall (rc : RetryConfig) (script : list (Reply T)) (cfg : AxiosRequestConfig),
    _retryCount cfg = None ->
    let run := request rc script cfg in
    (1 <= attempts (events run))%nat
    /\ Z.of_nat (attempts (events run)) <= Z.max 0 (maxRetries rc) + 1
    /\ List.length (sleeps (events run)) = (attempts (events run) - 1)%nat.
Proof.
  intros rc script cfg Hfresh run. subst run.
  destruct (attempts_and_sleeps rc script cfg) as (H1 & H2 & H3).
  rewrite (fresh_count cfg Hfresh) in *.
  repeat split; [exact H1|lia|].
  rewrite H3. apply backoff_length.
Qed.

(** X2.  The pauses of a run double from one retry to the next, starting at
    [retryDelay]: the [i]-th pause of a fresh request is
    [retryDelay * 2 ^ i], for as many retries as the run makes. *)
Theorem backoff_schedule_doubles :
  forall (rc : RetryConfig) (script : list (Reply T)) (cfg : AxiosRequestConfig),
    _retryCount cfg = None ->
    let run := request rc script cfg in
    sleeps (events run) = backoff rc 0 (attempts (events run) - 1)
    /\ forall (i : nat) (ms : Z),
         nth_error (sleeps (events run)) i = Some ms ->
         ms = retryDelay rc * 2 ^ Z.of_nat i.
Proof.
  intros rc script cfg Hfresh run. subst run.
  destruct (attempts_and_sleeps rc script cfg) as (_ & _ & H3).
  rewrite (fresh_count cfg Hfresh) in H3. split; [exact H3|].
  rewrite H3. generalize (attempts (events (request rc script cfg)) - 1)%nat as n.
  assert (G : forall n c i ms,
             nth_error (backoff rc c n) i = Some ms ->
             ms = retryDelay rc * 2 ^ (c + Z.of_nat i)).
  { induction n as [|n IH]; intros c i ms H; destruct i as [|i]; cbn in H;
      try discriminate.
    - injection H as <-. now rewrite Z.add_0_r.
    - apply IH in H. rewrite H. f_equal. f_equal. lia. }
  intros n i ms H. apply G in H. exact H.
Qed.

Lemma retries_until_exhausted (rc : RetryConfig) (rest : list (Reply T)) (n : nat) :
  forall (rs : list (AxiosResponse T)) (cfg : AxiosRequestConfig),
    maxRetries rc - retryCount_or_0 cfg = Z.of_nat n ->
    List.length rs = S n ->
    Forall (fun r => validateStatus (status r) = false
                     /\ includesZ (retryableStatuses rc) (status r) = true) rs ->
    let run := request rc (map (@Respond T) rs ++ rest) cfg in
    attempts (events run) = S n
    /\ unread run = rest
    /\ exists (e : AxiosError T) (front : list (AxiosResponse T))
              (r : AxiosResponse T) (c : AxiosRequestConfig),
         rs = front ++ [r] /\ outcome run = inl e /\ response e = Some r
         /\ config e = Some c /\ _retryCount c = Some (maxRetries rc).
Proof.
  induction n as [|n IH]; intros rs cfg Hn Hlen Hall run; subst run;
    destruct rs as [|r rs]; try discriminate Hlen;
    apply Forall_cons_iff in Hall as [[Hbad Hin] Hall];
    cbn [map app].
  - destruct rs; [|discriminate Hlen]. cbn [map app].
    pose proof (request_step rc (Respond r) rest cfg) as H. cbv beta iota in H.
    rewrite Hbad in H.
    assert (Hge : (retryCount_or_0 cfg <? maxRetries rc) = false)
      by (apply Z.ltb_ge; lia).
    rewrite Hge in H. cbn [andb] in H. rewrite H.
    cbn [events outcome unread attempts]. repeat split.
    exists (handed_on cfg (status_error cfg r)), [], r,
      (set_retryCount cfg (retryCount_or_0 cfg)).
    repeat split. cbn. f_equal. lia.
  - pose proof (request_step rc (Respond r) (map (@Respond T) rs ++ rest) cfg) as H.
    cbv beta iota in H. rewrite Hbad, Hin in H.
    assert (Hlt : (retryCount_or_0 cfg <? maxRetries rc) = true)
      by (apply Z.ltb_lt; lia).
    rewrite Hlt in H. cbn [andb] in H. cbv zeta in H. rewrite H.
    cbn [events outcome unread attempts].
    destruct (IH rs (set_retryCount cfg (retryCount_or_0 cfg + 1)))
      as (Ha & Hu & e & front & r' & c & Hrs & Ho & Hr & Hc & Hcount).
    + rewrite retryCount_set. lia.
    + now injection Hlen.
    + exact Hall.
    + split; [now rewrite Ha|]. split; [exact Hu|].
      exists e, (r :: front), r', c. subst rs.
      repeat split; assumption || reflexivity.
Qed.

(** X3.  When the server answers a fresh request with retryable failures
    [maxRetries + 1] times in a row, the request is sent exactly
    [maxRetries + 1] times, the pauses are [retryDelay * 2 ^ i] for
    [i < maxRetries], the failure handed on is the last of these replies,
    and no later reply is consumed. *)
Theorem retries_exhausted :
  forall (rc : RetryConfig) (rs : list (AxiosResponse T)) (rest : list (Reply T))
         (cfg : AxiosRequestConfig),
    0 <= maxRetries rc ->
    _retryCount cfg = None ->
    List.length rs = S (Z.to_nat (maxRetries rc)) ->
    Forall (fun r => validateStatus (status r) = false
                     /\ includesZ (retryableStatuses rc) (status r) = true) rs ->
    let run := request rc (map (@Respond T) rs ++ rest) cfg in
    attempts (events run) = S (Z.to_nat (maxRetries rc))
    /\ sleeps (events run) = backoff rc 0 (Z.to_nat (maxRetries rc))
    /\ unread run = rest
    /\ exists (e : AxiosError T) (front : list (AxiosResponse T))
              (r : AxiosResponse T),
         rs = front ++ [r] /\ outcome run = inl e /\ response e = Some r.
Proof.
  intros rc rs rest cfg Hmax Hfresh Hlen Hall run. subst run.
  destruct (retries_until_exhausted rc rest (Z.to_nat (maxRetries rc)) rs cfg)
    as (Ha & Hu & e & front & r & c & Hrs & Ho & Hr & _); try assumption.
  { rewrite (fresh_count cfg Hfresh). lia. }
  destruct (attempts_and_sleeps rc (map (@Respond T) rs ++ rest) cfg)
    as (_ & _ & Hs).
  rewrite (fresh_count cfg Hfresh), Ha in Hs. cbn [Nat.sub] in Hs.
  rewrite Nat.sub_0_r in Hs.
  repeat split; try assumption. exists e, front, r. repeat split; assumption.
Qed.

Lemma same_request_counter (cfg : AxiosRequestConfig) (n : Z) :
  same_request (set_retryCount cfg n) cfg.
Proof. repeat split. Qed.

Lemma same_request_trans (a b c : AxiosRequestConfig) :
  same_request a b -> same_request b c -> same_request a c.
Proof.
  intros (H1 & H2 & H3 & H4 & H5) (G1 & G2 & G3 & G4 & G5).
  repeat split; congruence.
Qed.

(** X4.  Every request of a run, the first and each resubmission, has the
    method, path, query, body and headers of the request the caller made,
    and so does the config of the error a failed run hands on. *)
Theorem resubmissions_keep_the_request :
  forall (rc : RetryConfig) (script : list (Reply T)) (cfg : AxiosRequestConfig),
    let run := request rc script cfg in
    (forall c, In (Sent c) (events run) -> same_request c cfg)
    /\ (forall e, outcome run = inl e ->
          exists c, config e = Some c /\ same_request c cfg).
Proof.
  intros rc script. induction script as [|reply rest IH]; intros cfg run; subst run.
  - rewrite request_nil. cbn [events outcome]. split.
    + intros c [[= <-] | [H | []]]; [repeat split|discriminate H].
    + intros e [= <-]. eexists. split; [reflexivity|apply same_request_counter].
  - run_cases rc reply rest cfg.
    + split; [|discriminate]. intros c [[= <-] | []]. repeat split.
    + destruct (IH (set_retryCount cfg (retryCount_or_0 cfg + 1))) as [H1 H2].
      split.
      * intros c [[= <-] | [H | [H | H]]]; try discriminate H; [repeat split|].
        eapply same_request_trans; [apply (H1 c H)|apply same_request_counter].
      * intros e He. destruct (H2 e He) as (c & Hc & Hsame).
        exists c. split; [exact Hc|].
        eapply same_request_trans; [exact Hsame|apply same_request_counter].
    + split.
      * intros c [[= <-] | [H | []]]; [repeat split|discriminate H].
      * intros e [= <-]. eexists. split; [reflexivity|apply same_request_counter].
    + split.
      * intros c [[= <-] | [H | []]]; [repeat split|discriminate H].
      * intros e [= <-]. eexists. split; [reflexivity|apply same_request_counter].
Qed.

(** X5.  A run resolves only with a reply of the script whose status is
    2xx, and rejects only with a reply of the script whose status is not,
    or without a response; the replies it leaves unread are a suffix of the
    script. *)
Theorem outcome_is_a_reply_of_the_server :
  forall (rc : RetryConfig) (script : list (Reply T)) (cfg : AxiosRequestConfig),
    let run := request rc script cfg in
    match outcome run with
    | inr r => validateStatus (status r) = true /\ In (Respond r) script
    | inl e =>
        match response e with
        | Some r => validateStatus (status r) = false /\ In (Respond r) script
        | None => True
        end
    end
    /\ exists used, script = used ++ unread run.
Proof.
  intros rc script. induction script as [|reply rest IH]; intros cfg run; subst run.
  - rewrite request_nil. cbn. split; [exact I|now exists []].
  - run_cases rc reply rest cfg.
    + split; [split; [exact Hok|now left]|now exists [Respond r]].
    + destruct (IH (set_retryCount cfg (retryCount_or_0 cfg + 1))) as [H1 [used H2]].
      split.
      * destruct (outcome _) as [e|r'].
        -- destruct (response e) as [r'|]; [|exact I].
           destruct H1 as [Ha Hb]. split; [exact Ha|now right].
        -- destruct H1 as [Ha Hb]. split; [exact Ha|now right].
      * exists (Respond r :: used). cbn. now rewrite <- H2.
    + cbn. split; [split; [exact Hok|now left]|now exists [Respond r]].
    + cbn. split; [exact I|now exists [NetworkError T msg]].
Qed.

(** X6.  A failure that comes without a response is handed on at once,
    with its message, whatever [maxRetries] is; and with [maxRetries] at
    most 0 a fresh request is sent exactly once whatever the reply. *)
Theorem no_response_or_no_budget_no_retry :
  forall (rc : RetryConfig) (cfg : AxiosRequestConfig),
    (forall (msg : string) (rest : list (Reply T)),
       let run := request rc (NetworkError T msg :: rest) cfg in
       events run = [Sent cfg; Failed None]
       /\ unread run = rest
       /\ exists e, outcome run = inl e /\ response e = None /\ ae_message e = msg)
    /\ (forall script : list (Reply T),
          maxRetries rc <= 0 -> _retryCount cfg = None ->
          attempts (events (request rc script cfg)) = 1%nat
          /\ sleeps (events (request rc script cfg)) = []).
Proof.
  intros rc cfg. split.
  - intros msg rest run. subst run.
    pose proof (request_step rc (NetworkError T msg) rest cfg) as H.
    cbv beta iota in H. rewrite H. cbn [events outcome unread].
    repeat split. eexists. repeat split.
  - intros script Hmax Hfresh.
    destruct (attempts_and_sleeps rc script cfg) as (H1 & H2 & H3).
    rewrite (fresh_count cfg Hfresh) in *.
    assert (Ha : attempts (events (request rc script cfg)) = 1%nat) by lia.
    split; [exact Ha|]. rewrite H3, Ha. reflexivity.
Qed.

(** X7.  The engine does not look at the method, path or body: two requests
    with the same attempt counter meet the same script with the same
    attempts, failures and pauses, consume the same replies and end with
    the same response, so a POST is resubmitted exactly as a GET is. *)
Theorem retry_ignores_method_and_body :
  forall (rc : RetryConfig) (script : list (Reply T))
         (c1 c2 : AxiosRequestConfig),
    retryCount_or_0 c1 = retryCount_or_0 c2 ->
    let run1 := request rc script c1 in
    let run2 := request rc script c2 in
    map step_of (events run1) = map step_of (events run2)
    /\ unread run1 = unread run2
    /\ match outcome run1, outcome run2 with
       | inr r1, inr r2 => r1 = r2
       | inl e1, inl e2 => response e1 = response e2
       | _, _ => False
       end.
Proof.
  intros rc script. induction script as [|reply rest IH];
    intros c1 c2 Hc run1 run2; subst run1 run2.
  - rewrite !request_nil. cbn. repeat split.
  - pose proof (request_step rc reply rest c1) as H1.
    pose proof (request_step rc reply rest c2) as H2.
    rewrite <- Hc in H2.
    destruct reply as [r|msg].
    + destruct (validateStatus (status r)).
      * rewrite H1, H2. cbn. repeat split.
      * destruct ((retryCount_or_0 c1 <? maxRetries rc)
                  && includesZ (retryableStatuses rc) (status r)).
        -- cbv zeta in H1, H2. rewrite H1, H2.
           cbn [events outcome unread map step_of].
           destruct (IH (set_retryCount c1 (retryCount_or_0 c1 + 1))
                        (set_retryCount c2 (retryCount_or_0 c1 + 1)) eq_refl)
             as (Ha & Hb & Hd).
           repeat split; [now rewrite Ha|exact Hb|exact Hd].
        -- rewrite H1, H2. cbn. repeat split.
    + rewrite H1, H2. cbn. repeat split.
Qed.

End Engine.

Lemma attempts_bounded_by_maxRetries_witness :
  (attempts
     (events
        (request (test_retry 3)
           [Respond (error_response 500 "Server error");
            Respond (error_response 500 "Server error"); Respond ok_response]
           (get_request "/voicenotes"))) <= 4)%nat.
Proof.
  pose proof (attempts_bounded_by_maxRetries unit (test_retry 3)
                [Respond (error_response 500 "Server error");
                 Respond (error_response 500 "Server error"); Respond ok_response]
                (get_request "/voicenotes") eq_refl) as H.
  cbv zeta in H. destruct H as (_ & H & _).
  change (maxRetries (test_retry 3)) with 3 in H. lia.
Defined.

Lemma backoff_schedule_doubles_witness :
  sleeps
    (events
       (request (test_retry 3)
          [Respond (error_response 500 "Server error");
           Respond (error_response 503 "Unavailable"); Respond ok_response]
          (get_request "/voicenotes")))
  = [10; 20].
Proof.
  pose proof (backoff_schedule_doubles unit (test_retry 3)
                [Respond (error_response 500 "Server error");
                 Respond (error_response 503 "Unavailable"); Respond ok_response]
                (get_request "/voicenotes") eq_refl) as H.
  cbv zeta in H. destruct H as (H & _). rewrite H. reflexivity.
Defined.

(** The repository's test: four 500s with [maxRetries: 3] are four attempts. *)
Lemma retries_exhausted_witness :
  attempts
    (events
       (request (test_retry 3)
          (map (@Respond unit)
             [error_response 500 "Server error"; error_response 500 "Server error";
              error_response 500 "Server error"; error_response 500 "Server error"]
           ++ [Respond ok_response])
          (get_request "/voicenotes")))
  = 4%nat.
Proof.
  pose proof (retries_exhausted unit (test_retry 3)
                [error_response 500 "Server error"; error_response 500 "Server error";
                 error_response 500 "Server error"; error_response 500 "Server error"]
                [Respond ok_response] (get_request "/voicenotes")) as H.
  cbv zeta in H. destruct H as (H & _).
  - cbn. lia.
  - reflexivity.
  - reflexivity.
  - repeat constructor.
  - exact H.
Defined.

Lemma resubmissions_keep_the_request_witness :
  same_request (set_retryCount (get_request "/voicenotes") 1)
    (get_request "/voicenotes").
Proof.
  destruct (resubmissions_keep_the_request unit (test_retry 3)
              [Respond (error_response 500 "Server error"); Respond ok_response]
              (get_request "/voicenotes")) as [H _].
  apply H. cbn. right. right. right. left. reflexivity.
Defined.

Lemma no_response_or_no_budget_no_retry_witness :
  attempts
    (events
       (request (test_retry 0)
          [Respond (error_response 500 "Server error"); Respond ok_response]
          (get_request "/voicenotes")))
  = 1%nat.
Proof.
  destruct (no_response_or_no_budget_no_retry unit (test_retry 0)
              (get_request "/voicenotes")) as [_ H].
  apply H; [cbn; lia|reflexivity].
Defined.

Lemma retry_ignores_method_and_body_witness :
  map step_of
    (events
       (request (test_retry 3)
          [Respond (error_response 500 "Server error"); Respond ok_response]
          {| method := "post"; url := Some "webhooks"%string; params := [];
             data := Some "{}"%string; headers := []; _retryCount := None |}))
  = map step_of
      (events
         (request (test_retry 3)
            [Respond (error_response 500 "Server error"); Respond ok_response]
            (get_request "webhooks"))).
Proof.
  pose proof (retry_ignores_method_and_body unit (test_retry 3)
                [Respond (error_response 500 "Server error"); Respond ok_response]
                {| method := "post"; url := Some "webhooks"%string; params := [];
                   data := Some "{}"%string; headers := []; _retryCount := None |}
                (get_request "webhooks") eq_refl) as H.
  cbv zeta in H. destruct H as (H & _). exact H.
Defined.

End RetryMore.

(* ------------------------------------------------------------------------- *)
(** ** [parseInt] reads back what a template literal prints *)

Module NumberFacts.
Import Js.
Local Open Scope Z_scope.

(** Evaluate the digit at the head of the numeral. *)
Ltac read_digit :=
  match goal with
  | |- context [digit_value ?c] =>
      let v := eval vm_compute in (digit_value c) in
      change (digit_value c) with v; cbv beta iota
  end.

Lemma parse_digits_acc (d : Decimal.uint) :
  forall acc : positive,
    parse_digits (NilEmpty.string_of_uint d) (Some (Z.pos acc))
    = Some (Z.pos (Pos.of_uint_acc d acc)).
Proof.
  induction d; intro acc; cbn [NilEmpty.string_of_uint parse_digits Pos.of_uint_acc];
    try reflexivity;
    read_digit; rewrite <- IHd; do 2 f_equal; lia.
Qed.

Lemma parse_digits_positive (p : positive) :
  parse_digits (NilEmpty.string_of_uint (Pos.to_uint p)) None = Some (Z.pos p).
Proof.
  pose proof (Unsigned.of_to p) as H.
  assert (G : forall d n, Pos.of_uint d = Npos n ->
                forall a, a = None \/ a = Some 0 ->
                parse_digits (NilEmpty.string_of_uint d) a = Some (Z.pos n)).
  { induction d; intros n Hd a Ha; cbn [Pos.of_uint] in Hd; try discriminate;
      cbn [NilEmpty.string_of_uint parse_digits]; read_digit.
    - apply IHd; [exact Hd|]. right. destruct Ha as [-> | ->]; reflexivity.
    - injection Hd as <-. rewrite <- parse_digits_acc.
      destruct Ha as [-> | ->]; reflexivity.
    - injection Hd as <-. rewrite <- parse_digits_acc.
      destruct Ha as [-> | ->]; reflexivity.
    - injection Hd as <-. rewrite <- parse_digits_acc.
      destruct Ha as [-> | ->]; reflexivity.
    - injection Hd as <-. rewrite <- parse_digits_acc.
      destruct Ha as [-> | ->]; reflexivity.
    - injection Hd as <-. rewrite <- parse_digits_acc.
      destruct Ha as [-> | ->]; reflexivity.
    - injection Hd as <-. rewrite <- parse_digits_acc.
      destruct Ha as [-> | ->]; reflexivity.
    - injection Hd as <-. rewrite <- parse_digits_acc.
      destruct Ha as [-> | ->]; reflexivity.
    - injection Hd as <-. rewrite <- parse_digits_acc.
      destruct Ha as [-> | ->]; reflexivity.
    - injection Hd as <-. rewrite <- parse_digits_acc.
      destruct Ha as [-> | ->]; reflexivity. }
  apply (G _ p H). now left.
Qed.

Lemma digits_start (d : Decimal.uint) :
  d <> Decimal.Nil ->
  exists c s, NilEmpty.string_of_uint d = String c s
              /\ is_space c = false /\ c <> "-"%char /\ c <> "+"%char.
Proof.
  destruct d; intro H; try contradiction;
    cbn [NilEmpty.string_of_uint]; eexists _, _;
    (split; [reflexivity|split; [reflexivity|split; discriminate]]).
Qed.

Lemma parseInt_unsigned (c : ascii) (s : string) (z : Z) :
  is_space c = false -> c <> "-"%char -> c <> "+"%char ->
  parse_digits (String c s) None = Some z ->
  parseInt (String c s) = Num z.
Proof.
  intros Hsp Hm Hpl Hp. unfold parseInt. cbn [skip_spaces]. rewrite Hsp.
  destruct c as [[] [] [] [] [] [] [] []];
    try (exfalso; apply Hm; reflexivity);
    try (exfalso; apply Hpl; reflexivity);
    cbv beta iota; rewrite Hp; reflexivity.
Qed.

(** The decimal numeral of a positive number parses to that number. *)
Lemma parseInt_of_numeral (n : Z) :
  0 < n ->
  parseInt (string_of_number (Some (Num n))) = Num n
  /\ truthy (Some (string_of_number (Some (Num n)))) = true.
Proof.
  intro Hn. destruct n as [|p|p]; try lia.
  cbn [string_of_number Z.to_int NilZero.string_of_int].
  pose proof (Unsigned.to_uint_nonnil p) as Hnil.
  pose proof (parse_digits_positive p) as Hp.
  assert (E : NilZero.string_of_uint (Pos.to_uint p)
              = NilEmpty.string_of_uint (Pos.to_uint p))
    by (destruct (Pos.to_uint p); [contradiction|reflexivity..]).
  rewrite E.
  destruct (digits_start _ Hnil) as (c & s & Hs & Hsp & Hm & Hpl).
  rewrite Hs in *. split; [|reflexivity].
  now apply parseInt_unsigned.
Qed.

End NumberFacts.

(* ------------------------------------------------------------------------- *)
(** ** More on the classifier and the typed errors *)

Module ErrorsMore.
Import Js Axios Errors ErrorHandler Vocabulary Samples JsFacts RegexFacts.
Local Open Scope string_scope.

Section Classifier.

Variable T : Type.

(** The [switch] of [handleApiError], as a chain of tests on the status. *)
Lemma handleApiError_by_status (err : AxiosError T) (r : AxiosResponse T) :
  response err = Some r ->
  let s := status r in
  let message :=
    if truthy (body_message err) then interp (body_message err)
    else if truthy_string (ae_message err) then ae_message err
    else "An error occurred" in
  let errorCode := match error_data err with Some d => eb_code d | None => None end in
  let details := match error_data err with Some d => eb_details d | None => None end in
  let u := request_url err in
  handleApiError (ThrownAxios err)
  = if Z.eqb s 401 then AuthenticationError message errorCode details (only_endpoint u)
    else if Z.eqb s 403 then AuthorizationError message errorCode details (only_endpoint u)
    else if Z.eqb s 400 then ValidationError message errorCode details (only_endpoint u)
    else if Z.eqb s 404 then
      match detectResourceType u with
      | Some rt =>
          let resourceId := extractResourceId u rt in
          if String.eqb rt "transcription"
          then TranscriptionNotFoundError message errorCode details resourceId
          else if String.eqb rt "voicenote"
          then VoicenoteNotFoundError message errorCode details resourceId
          else if String.eqb rt "webhook"
          then WebhookNotFoundError message errorCode details resourceId
          else if String.eqb rt "api_key"
          then APIKeyNotFoundError message errorCode details resourceId
          else NotFoundError message errorCode details (only_endpoint u)
      | None => NotFoundError message errorCode details (only_endpoint u)
      end
    else if Z.eqb s 409 then ConflictError message errorCode details (only_endpoint u)
    else if Z.eqb s 429 then
      let retryAfterHeader := header (response_headers r) "retry-after" in
      RateLimitError message errorCode details (only_endpoint u)
        (if truthy retryAfterHeader then Some (parseInt (interp retryAfterHeader))
         else None)
    else if (negb (Z.eqb s 0) && Z.leb 500 s)%bool
    then ServerError message s errorCode details (only_endpoint u)
    else VocaFuseError message (Some s) errorCode details (only_endpoint u).
Proof.
  intros Hr. cbv zeta.
  unfold handleApiError, body_message, error_data, request_url.
  rewrite Hr. cbn [option_map].
  generalize (status r) as s. intro s.
  destruct (detectResourceType _) as [rt|] eqn:Hd.
  - assert (Hrt : forall b : option string,
               (if String.eqb rt "transcription" then true
                else if String.eqb rt "voicenote" then true
                else if String.eqb rt "webhook" then true
                else String.eqb rt "api_key") = true ->
               (if truthy (Some rt) then b else None) = b).
    { intros b H. destruct rt; [discriminate H|reflexivity]. }
    destruct s as [|p|p]; try reflexivity.
    do 10 (try (destruct p as [p|p|]; try reflexivity)).
    cbn [interp].
    destruct (String.eqb rt "transcription") eqn:E1; [now rewrite Hrt|].
    destruct (String.eqb rt "voicenote") eqn:E2; [now rewrite Hrt|].
    destruct (String.eqb rt "webhook") eqn:E3; [now rewrite Hrt|].
    destruct (String.eqb rt "api_key") eqn:E4; [now rewrite Hrt|].
    reflexivity.
  - destruct s as [|p|p]; try reflexivity.
    do 10 (try (destruct p as [p|p|]; try reflexivity)).
Qed.

Lemma handleApiError_no_response (err : AxiosError T) :
  response err = None ->
  handleApiError (ThrownAxios err)
  = VocaFuseError
      (if truthy (body_message err) then interp (body_message err)
       else if truthy_string (ae_message err) then ae_message err
       else "An error occurred")
      None None None (only_endpoint (request_url err)).
Proof.
  intro Hr. unfold handleApiError, body_message, error_data, request_url.
  rewrite Hr. reflexivity.
Qed.

(** Split on the status the way the [switch] does. *)
Ltac by_status err r Hr :=
  rewrite (handleApiError_by_status err r Hr); cbv zeta;
  destruct (Z.eqb_spec (status r) 401) as [E|N401];
  [rewrite ?E in *
  |destruct (Z.eqb_spec (status r) 403) as [E|N403];
   [rewrite ?E in *
   |destruct (Z.eqb_spec (status r) 400) as [E|N400];
    [rewrite ?E in *
    |destruct (Z.eqb_spec (status r) 404) as [E|N404];
     [rewrite ?E in *
     |destruct (Z.eqb_spec (status r) 409) as [E|N409];
      [rewrite ?E in *
      |destruct (Z.eqb_spec (status r) 429) as [E|N429];
       [rewrite ?E in *
       |destruct (Z.eqb_spec (status r) 0) as [E0|N0]; cbn [negb andb];
        [|destruct (Z.leb_spec 500 (status r)) as [G500|L500]]]]]]]].

(** In the 404 case, split on the resource type the way the [if] chain does. *)
Ltac by_resource :=
  match goal with
  | |- context [detectResourceType ?u] =>
      destruct (detectResourceType u) as [rt|] eqn:Hdetect;
      [ destruct (String.eqb_spec rt "transcription") as [->|];
        [|destruct (String.eqb_spec rt "voicenote") as [->|];
          [|destruct (String.eqb_spec rt "webhook") as [->|];
            [|destruct (String.eqb_spec rt "api_key") as [->|]]]]
      | ]
  end.

(** X8.  The classifier keeps the status code of the response and picks the
    class by it alone: 401, 403, 400, 409 and 429 give their own class, 404
    gives [NotFoundError] or one of its subclasses, 500 and above give
    [ServerError], and every other status the base class; a failure without
    a response gives the base class with no status code. *)
Theorem classification_by_status :
  forall err : AxiosError T,
    let e := handleApiError (ThrownAxios err) in
    match response err with
    | None => statusCode e = None /\ proto e = C_VocaFuseError
    | Some r =>
        let s := status r in
        statusCode e = Some s
        /\ (proto e = C_AuthenticationError <-> s = 401%Z)
        /\ (proto e = C_AuthorizationError <-> s = 403%Z)
        /\ (proto e = C_ValidationError <-> s = 400%Z)
        /\ (instanceof e C_NotFoundError = true <-> s = 404%Z)
        /\ (proto e = C_ConflictError <-> s = 409%Z)
        /\ (proto e = C_RateLimitError <-> s = 429%Z)
        /\ (proto e = C_ServerError <-> (500 <= s)%Z)
        /\ (proto e = C_VocaFuseError <->
            (s < 500)%Z /\ ~ In s [400; 401; 403; 404; 409; 429]%Z)
    end.
Proof.
  intros err e. subst e. destruct (response err) as [r|] eqn:Hr.
  - by_status err r Hr; try by_resource;
      cbn [proto statusCode instanceof extends ErrorClass_eqb orb In
           AuthenticationError AuthorizationError ValidationError NotFoundError
           ConflictError RateLimitError ServerError VocaFuseError setPrototypeOf
           VoicenoteNotFoundError WebhookNotFoundError TranscriptionNotFoundError
           APIKeyNotFoundError];
      repeat split; intros; try discriminate; try lia; try reflexivity;
      try congruence; try tauto; intuition (try lia; try discriminate).
  - rewrite (handleApiError_no_response err Hr). split; reflexivity.
Qed.

(** All constructors hand the message, code and details on unchanged. *)
Ltac constructors :=
  cbn [proto statusCode message errorCode details context retryAfter
       AuthenticationError AuthorizationError ValidationError NotFoundError
       ConflictError RateLimitError ServerError VocaFuseError setPrototypeOf
       VoicenoteNotFoundError WebhookNotFoundError TranscriptionNotFoundError
       APIKeyNotFoundError only_endpoint with_suggestion ctx
       resourceType resourceId endpoint suggestion].

Lemma settled_message_nonempty (err : AxiosError T) : settled_message err <> "".
Proof.
  unfold settled_message.
  destruct (body_message err) as [[|c m]|]; cbn [truthy truthy_string interp];
    try discriminate; destruct (ae_message err); cbn; discriminate.
Qed.

(** X9.  Whatever class it picks, the classifier gives the error the
    message of the response body when that is not empty, else the
    transport's message when that is not empty, else ["An error occurred"],
    so the message is never empty; the error code and the details are those
    of the response body. *)
Theorem classified_error_keeps_body_fields :
  forall err : AxiosError T,
    let e := handleApiError (ThrownAxios err) in
    message e = settled_message err
    /\ message e <> ""
    /\ errorCode e = match error_data err with Some d => eb_code d | None => None end
    /\ details e = match error_data err with Some d => eb_details d | None => None end.
Proof.
  intros err e. subst e.
  assert (H : message (handleApiError (ThrownAxios err)) = settled_message err
              /\ errorCode (handleApiError (ThrownAxios err))
                 = match error_data err with Some d => eb_code d | None => None end
              /\ details (handleApiError (ThrownAxios err))
                 = match error_data err with Some d => eb_details d | None => None end).
  { destruct (response err) as [r|] eqn:Hr.
    - by_status err r Hr; try by_resource; constructors; repeat split.
    - rewrite (handleApiError_no_response err Hr). unfold error_data.
      rewrite Hr. repeat split. }
  destruct H as (Hm & Hc & Hd). repeat split; try assumption.
  rewrite Hm. apply settled_message_nonempty.
Qed.

Lemma detect_range (u : option string) (rt : string) :
  detectResourceType u = Some rt ->
  rt = "transcription" \/ rt = "voicenote" \/ rt = "webhook" \/ rt = "api_key".
Proof.
  unfold detectResourceType.
  destruct (negb (truthy u)); [discriminate|].
  repeat match goal with
         | |- (if ?c then _ else _) = _ -> _ => destruct c
         end; intros [= <-]; auto.
Qed.

(** X10.  A 404 for a path in which a resource type is detected gives an
    error whose context names that type and the id extracted from the path,
    and no endpoint; every other classified failure names the request's
    path as its endpoint and no resource. *)
Theorem context_names_resource_or_endpoint :
  forall err : AxiosError T,
    let e := handleApiError (ThrownAxios err) in
    let u := request_url err in
    let names_endpoint :=
      ctx endpoint (context e) = u
      /\ ctx resourceType (context e) = None
      /\ ctx resourceId (context e) = None in
    match response err with
    | Some r =>
        if Z.eqb (status r) 404 then
          match detectResourceType u with
          | Some rt =>
              ctx resourceType (context e) = Some rt
              /\ ctx resourceId (context e) = extractResourceId u rt
              /\ ctx endpoint (context e) = None
          | None => names_endpoint
          end
        else names_endpoint
    | None => names_endpoint
    end.
Proof.
  intros err e u names_endpoint. subst e u names_endpoint.
  destruct (response err) as [r|] eqn:Hr.
  - by_status err r Hr; try by_resource;
      try (destruct (Z.eqb_spec (status r) 404) as [?|?]; [congruence|]);
      try (destruct (detect_range _ _ Hdetect) as [? | [? | [? | ?]]]; congruence);
      constructors; repeat split.
  - rewrite (handleApiError_no_response err Hr). repeat split.
Qed.

(** X11.  Errors for 401, 403, 429, a status of 500 and above, and a 404 on
    a detected resource carry a non-empty suggestion; errors for 400, 409, a
    404 on an unrecognised path and every other status carry none. *)
Theorem suggestion_by_status :
  forall (err : AxiosError T) (r : AxiosResponse T),
    response err = Some r ->
    let e := handleApiError (ThrownAxios err) in
    let s := status r in
    let u := request_url err in
    (s = 401%Z \/ s = 403%Z \/ s = 429%Z \/ (500 <= s)%Z
     \/ (s = 404%Z /\ detectResourceType u <> None) ->
     truthy (ctx suggestion (context e)) = true)
    /\ (s = 400%Z \/ s = 409%Z \/ (s = 404%Z /\ detectResourceType u = None)
        \/ ((s < 500)%Z /\ ~ In s [400; 401; 403; 404; 409; 429]%Z) ->
        ctx suggestion (context e) = None).
Proof.
  intros err r Hr e s u. subst e s u.
  by_status err r Hr; try by_resource;
    try (destruct (detect_range _ _ Hdetect) as [? | [? | [? | ?]]]; congruence);
    constructors; cbn [In];
    (split; intros H;
     [ try reflexivity;
       try (destruct (truthy_number _); reflexivity);
       try (exfalso; intuition (try lia; try discriminate; try congruence))
     | try reflexivity;
       try (exfalso; intuition (try lia; try discriminate; try congruence)) ]).
Qed.

(** X12.  For a 429, a [Retry-After] header holding the decimal numeral of
    a positive safe integer [n] makes [retryAfter] the number [n] and the
    suggestion name the same numeral; without the header, or with an empty
    one, [retryAfter] is unset and the suggestion is the general one; an
    ASCII header in which [parseInt] finds no number is recorded as [NaN]
    and gets the general suggestion, and so does one that parses to zero. *)
Theorem retry_after_from_header :
  forall (err : AxiosError T) (r : AxiosResponse T),
    response err = Some r -> status r = 429%Z ->
    let e := handleApiError (ThrownAxios err) in
    let h := header (response_headers r) "retry-after" in
    let general := Some "Rate limit exceeded. Please reduce request frequency." in
    (forall n : Z,
       (0 < n <= MAX_SAFE_INTEGER)%Z ->
       h = Some (string_of_number (Some (Num n))) ->
       retryAfter e = Some (Num n)
       /\ ctx suggestion (context e)
          = Some ("Rate limit exceeded. Retry after "
                    ++ string_of_number (Some (Num n)) ++ " seconds."))
    /\ (truthy h = false ->
        retryAfter e = None /\ ctx suggestion (context e) = general)
    /\ (truthy h = true -> ascii_only (interp h) = true ->
        (parseInt (interp h) = NaN ->
         retryAfter e = Some NaN /\ ctx suggestion (context e) = general)
        /\ (parseInt (interp h) = Num 0 ->
            ctx suggestion (context e) = general)).
Proof.
  intros err r Hr Hs e h general. subst e h general.
  rewrite (handleApiError_by_status err r Hr). cbv zeta. rewrite Hs.
  cbn [Z.eqb Pos.eqb]. constructors. split; [|split].
  - intros n [Hn _] Hh. rewrite Hh.
    destruct (NumberFacts.parseInt_of_numeral n Hn) as [Hp Ht].
    rewrite Ht. cbn [interp]. rewrite Hp. cbn [truthy_number].
    destruct (Z.eqb_spec n 0) as [->|_]; [lia|]. split; reflexivity.
  - intros Hh. rewrite Hh. split; reflexivity.
  - intros Hh _. rewrite Hh. split; intros ->; [split|]; reflexivity.
Qed.

End Classifier.

Lemma suggestion_by_status_witness :
  truthy
    (ctx suggestion
       (context (handleApiError
                   (ThrownAxios (createAxiosError 401 "Unauthorized" "/voicenotes")))))
  = true
  /\ ctx suggestion
       (context (handleApiError
                   (ThrownAxios (createAxiosError 400 "Bad request" "/voicenotes"))))
     = None.
Proof.
  split.
  - destruct (suggestion_by_status unit
                (createAxiosError 401 "Unauthorized" "/voicenotes")
                (error_response 401 "Unauthorized") eq_refl) as [H _].
    apply H. left. reflexivity.
  - destruct (suggestion_by_status unit
                (createAxiosError 400 "Bad request" "/voicenotes")
                (error_response 400 "Bad request") eq_refl) as [_ H].
    apply H. left. reflexivity.
Defined.

(** The repository's test: [Retry-After: 60]. *)
Lemma retry_after_from_header_witness :
  let err :=
    {| ae_message := "Rate limited";
       config := Some (get_request "/voicenotes");
       response :=
         Some {| status := 429; response_headers := [("retry-after", "60")];
                 response_data := {| body_data := @None unit; body_pagination := None;
                                     body_error := None |} |} |} in
  retryAfter (handleApiError (ThrownAxios err)) = Some (Num 60)
  /\ ctx suggestion (context (handleApiError (ThrownAxios err)))
     = Some "Rate limit exceeded. Retry after 60 seconds.".
Proof.
  cbv zeta.
  destruct (retry_after_from_header unit
              {| ae_message := "Rate limited";
                 config := Some (get_request "/voicenotes");
                 response :=
                   Some {| status := 429; response_headers := [("retry-after", "60")];
                           response_data :=
                             {| body_data := @None unit; body_pagination := None;
                                body_error := None |} |} |}
              _ eq_refl eq_refl) as [H _].
  apply (H 60%Z); [unfold MAX_SAFE_INTEGER; lia|reflexivity].
Defined.

End ErrorsMore.

(* ------------------------------------------------------------------------- *)
(** ** More on webhook signatures *)

Module WebhookMore.
Import Js Crypto Webhook Vocabulary JsFacts CryptoFacts.
Local Open Scope string_scope.

Lemma validate_as_comparison (S P signature : string)
    (options : option ValidateOptions) :
  validate S P signature options
  = try_catch
      (timingSafeEqual (Buffer_from_hex (provided signature))
                       (expected_digest S P options))
      (fun _ => Normal false).
Proof.
  unfold validate, computeSignature, createHmac_sha256_hex, expected_digest, provided.
  change (buildStringToSign ?x None None) with x.
  rewrite Buffer_from_hex_of_bytes. reflexivity.
Qed.

Lemma validate_equal_bytes (S P signature : string)
    (options : option ValidateOptions) :
  Buffer_from_hex (provided signature) = expected_digest S P options ->
  validate S P signature options = Normal true.
Proof.
  intro H. rewrite validate_as_comparison, H. unfold timingSafeEqual.
  now rewrite Nat.eqb_refl, bytes_eqb_refl.
Qed.

(** X13.  [validate] answers [true] exactly when the bytes decoded from the
    signature (after an optional [sha256=] prefix) are the HMAC-SHA256 digest
    of the canonical string under the validator's secret, and [false] in
    every other case. *)
Theorem validate_compares_decoded_signature :
  forall (S P signature : string) (options : option ValidateOptions),
    (Buffer_from_hex (provided signature) = expected_digest S P options ->
     validate S P signature options = Normal true)
    /\ (Buffer_from_hex (provided signature) <> expected_digest S P options ->
        validate S P signature options = Normal false).
Proof.
  intros S P signature options. rewrite validate_as_comparison.
  unfold timingSafeEqual. split.
  - intros ->. rewrite Nat.eqb_refl, bytes_eqb_refl. reflexivity.
  - intro H. destruct (Nat.eqb _ _); [|reflexivity].
    now rewrite (bytes_eqb_neq _ _ H).
Qed.

Lemma validate_compares_decoded_signature_witness :
  validate "test-secret-key" "test-payload" "00ff" None = Normal false.
Proof.
  destruct (validate_compares_decoded_signature "test-secret-key" "test-payload"
              "00ff" None) as [_ H].
  apply H. vm_compute. discriminate.
Defined.

(** X14.  A signature that does not itself start with [sha256=] validates
    the same with and without that prefix. *)
Theorem prefix_is_optional :
  forall (S P signature : string) (options : option ValidateOptions),
    startsWith signature "sha256=" = false ->
    validate S P ("sha256=" ++ signature) options
    = validate S P signature options.
Proof.
  intros S P signature options H. rewrite !validate_as_comparison.
  unfold provided. rewrite H.
  change (startsWith ("sha256=" ++ signature) "sha256=") with true.
  reflexivity.
Qed.

Lemma prefix_is_optional_witness :
  validate "test-secret-key" "test-payload"
    ("sha256=" ++ computeSignature "test-secret-key" "test-payload" None None) None
  = validate "test-secret-key" "test-payload"
      (computeSignature "test-secret-key" "test-payload" None None) None.
Proof.
  apply (prefix_is_optional "test-secret-key" "test-payload"
           (computeSignature "test-secret-key" "test-payload" None None) None).
  vm_compute. reflexivity.
Defined.

Lemma Buffer_from_hex_append (bs : list byte) (junk : string) :
  Buffer_from_hex (hex_of_bytes bs ++ junk) = (bs ++ Buffer_from_hex junk)%list.
Proof.
  induction bs as [|b bs IH]; [reflexivity|].
  destruct (hex_pair_decodes b) as (Hh & Hl & Hb).
  cbn [hex_of_bytes append Buffer_from_hex app].
  rewrite Hh, Hl, Hb, IH. reflexivity.
Qed.

Lemma upper_hex_value (c : ascii) : hex_value (upper_char c) = hex_value c.
Proof. destruct c as [[] [] [] [] [] [] [] []]; reflexivity. Qed.

Lemma Buffer_from_hex_upper_pair (n : nat) :
  forall s : string,
    (String.length s <= n)%nat ->
    Buffer_from_hex (toUpperCase s) = Buffer_from_hex s.
Proof.
  induction n as [|n IH]; intros s Hlen.
  - destruct s; [reflexivity|cbn in Hlen; lia].
  - destruct s as [|c1 [|c2 s]]; try reflexivity.
    cbn [toUpperCase Buffer_from_hex]. rewrite !upper_hex_value.
    rewrite IH; [reflexivity|]. cbn in Hlen. lia.
Qed.

Lemma hex_digit_upper_not_s (n : N) : Ascii.eqb "s" (upper_char (hex_digit n)) = false.
Proof.
  destruct n as [|p]; [reflexivity|].
  do 5 (try (destruct p as [p|p|]; try reflexivity)).
Qed.

(** X15.  The comparison is on decoded bytes: the signature made by
    [computeSignature] is also accepted in upper case, and when followed by
    any text that [Buffer.from(_, 'hex')] decodes to nothing (a single
    character, or text whose first two characters are not both hexadecimal
    digits). *)
Theorem signature_text_is_not_unique :
  forall (S P : string) (options : option ValidateOptions) (junk : string),
    let signature :=
      computeSignature S P (opt_timestamp options) (opt_deliveryId options) in
    validate S P (toUpperCase signature) options = Normal true
    /\ (Buffer_from_hex junk = [] ->
        validate S P (signature ++ junk) options = Normal true).
Proof.
  intros S P options junk signature. subst signature.
  unfold computeSignature, createHmac_sha256_hex.
  set (d := hmac_sha256 _ _).
  assert (Hd : d = expected_digest S P options) by reflexivity.
  assert (Hne : exists b bs, d = b :: bs).
  { pose proof (hmac_sha256_length (list_byte_of_string S)
                  (list_byte_of_string
                     (buildStringToSign P (opt_timestamp options)
                        (opt_deliveryId options)))) as Hl.
    fold d in Hl. destruct d as [|b bs]; [discriminate Hl|now exists b, bs]. }
  destruct Hne as (b & bs & Hbs). split.
  - apply validate_equal_bytes. unfold provided.
    assert (Hs : startsWith (toUpperCase (hex_of_bytes d)) "sha256=" = false).
    { rewrite Hbs. cbn [hex_of_bytes toUpperCase startsWith].
      now rewrite hex_digit_upper_not_s. }
    rewrite Hs, (Buffer_from_hex_upper_pair _ _ (le_n _)).
    rewrite Buffer_from_hex_of_bytes. exact Hd.
  - intro Hjunk. apply validate_equal_bytes. unfold provided.
    assert (Hs : startsWith (hex_of_bytes d ++ junk) "sha256=" = false).
    { rewrite Hbs. cbn [hex_of_bytes append startsWith].
      now rewrite hex_digit_not_s. }
    rewrite Hs, Buffer_from_hex_append, Hjunk, app_nil_r. exact Hd.
Qed.

Lemma signature_text_is_not_unique_witness :
  validate "test-secret-key" "test-payload"
    (computeSignature "test-secret-key" "test-payload" None None ++ "zz") None
  = Normal true.
Proof.
  destruct (signature_text_is_not_unique "test-secret-key" "test-payload" None "zz")
    as [_ H].
  apply H. reflexivity.
Defined.

Lemma hex_of_bytes_shape (bs : list byte) :
  String.length (hex_of_bytes bs) = (2 * List.length bs)%nat
  /\ lower_hex (hex_of_bytes bs) = true.
Proof.
  assert (Hd : forall n : N,
             (let k := nat_of_ascii (hex_digit n) in
              (Nat.leb 48 k && Nat.leb k 57) || (Nat.leb 97 k && Nat.leb k 102))
             = true).
  { intros [|p]; [reflexivity|].
    do 5 (try (destruct p as [p|p|]; try reflexivity)). }
  induction bs as [|b bs [IH1 IH2]]; [split; reflexivity|].
  cbn [hex_of_bytes String.length List.length lower_hex]. split.
  - rewrite IH1. lia.
  - cbv zeta in Hd. rewrite !Hd, IH2. reflexivity.
Qed.

(** X16.  [computeSignature] always returns sixty-four lowercase hexadecimal
    characters, whatever the secret, payload, timestamp and delivery id. *)
Theorem signature_is_64_lowercase_hex :
  forall (S P : string) (timestamp deliveryId : option string),
    String.length (computeSignature S P timestamp deliveryId) = 64%nat
    /\ lower_hex (computeSignature S P timestamp deliveryId) = true.
Proof.
  intros S P ts did. unfold computeSignature, createHmac_sha256_hex.
  destruct (hex_of_bytes_shape
              (hmac_sha256 (list_byte_of_string S)
                 (list_byte_of_string (buildStringToSign P ts did)))) as [H1 H2].
  rewrite hmac_sha256_length in H1. split; assumption.
Qed.

(** X17.  The canonical string does not mark where its components end: a
    delivery id can be moved to the front of the payload, and a timestamp
    with a dot in it can be split into a timestamp and a delivery id,
    without changing the signature, and [validate] accepts the one for the
    other. *)
Theorem components_are_not_delimited :
  forall (S P t d : string),
    t <> "" -> d <> "" ->
    computeSignature S P (Some t) (Some d)
    = computeSignature S (d ++ "." ++ P) (Some t) None
    /\ computeSignature S P (Some t) (Some d)
       = computeSignature S P (Some (t ++ "." ++ d)) None
    /\ forall (signature : string) (u : option string),
         validate S P signature
           (Some {| url := u; timestamp := Some t; deliveryId := Some d |})
         = validate S (d ++ "." ++ P) signature
             (Some {| url := u; timestamp := Some t; deliveryId := None |}).
Proof.
  intros S P t d Ht Hd.
  destruct t as [|ct t]; [contradiction|]. destruct d as [|cd d]; [contradiction|].
  assert (H1 : buildStringToSign P (Some (String ct t)) (Some (String cd d))
               = buildStringToSign (String cd d ++ "." ++ P) (Some (String ct t)) None)
    by reflexivity.
  assert (H2 : buildStringToSign P (Some (String ct t)) (Some (String cd d))
               = buildStringToSign P (Some (String ct t ++ "." ++ String cd d)) None).
  { cbn [buildStringToSign truthy truthy_string interp andb append].
    f_equal. now rewrite append_assoc. }
  split; [|split].
  - unfold computeSignature. now rewrite H1.
  - unfold computeSignature. now rewrite H2.
  - intros signature u. rewrite !validate_as_comparison. unfold expected_digest.
    cbn [opt_timestamp opt_deliveryId timestamp deliveryId]. now rewrite H1.
Qed.

Lemma components_are_not_delimited_witness :
  computeSignature "test-secret-key" "{}" (Some "1234567890") (Some "del_abc123")
  = computeSignature "test-secret-key" "{}" (Some "1234567890.del_abc123") None.
Proof.
  destruct (components_are_not_delimited "test-secret-key" "{}" "1234567890"
              "del_abc123") as (_ & H & _); [discriminate|discriminate|].
  exact H.
Defined.

End WebhookMore.

(* ------------------------------------------------------------------------- *)
(** ** Environment detection and the client constructor *)

Module EnvironmentProps.
Import Js Axios Http Environment ClientSetup JsFacts.
Local Open Scope string_scope.

Lemma prefixes_exclude (k : string) :
  startsWith k API_KEY_PREFIXES_LIVE = true ->
  startsWith k API_KEY_PREFIXES_TEST = false.
Proof.
  unfold API_KEY_PREFIXES_LIVE, API_KEY_PREFIXES_TEST. intro H.
  do 3 (destruct k as [|c k]; [discriminate H|];
        rewrite startsWith_cons in H; rewrite startsWith_cons;
        destruct (Ascii.eqb _ c); [cbn [andb] in *|discriminate H]; clear c).
  destruct k as [|c k]; [discriminate H|].
  rewrite startsWith_cons in H. rewrite startsWith_cons.
  destruct (Ascii.eqb_spec "l" c) as [<-|]; [reflexivity|discriminate H].
Qed.

(** X18.  [detectBaseUrl] returns the test endpoint exactly for the keys
    that start with [sk_test_] and the live endpoint for all others, with or
    without the [sk_live_] prefix; no key is both a test key and a live key. *)
Theorem base_url_by_key_prefix :
  forall apiKey : string,
    (detectBaseUrl apiKey = API_ENDPOINTS_TEST <-> isTestKey apiKey = true)
    /\ (detectBaseUrl apiKey = API_ENDPOINTS_LIVE <-> isTestKey apiKey = false)
    /\ (isLiveKey apiKey = true -> isTestKey apiKey = false)
    /\ (forall rest, detectBaseUrl ("sk_test_" ++ rest) = API_ENDPOINTS_TEST)
    /\ (forall rest, detectBaseUrl ("sk_live_" ++ rest) = API_ENDPOINTS_LIVE).
Proof.
  intro k. unfold detectBaseUrl, isTestKey, isLiveKey.
  pose proof (prefixes_exclude k) as Hex.
  destruct (startsWith k API_KEY_PREFIXES_LIVE) eqn:Hl.
  - rewrite (Hex eq_refl).
    repeat split; intros; try discriminate; try reflexivity.
  - destruct (startsWith k API_KEY_PREFIXES_TEST) eqn:Ht;
      repeat split; intros; try discriminate; try reflexivity.
Qed.

(** X19.  A client is built with the caller's base URL unless that is absent
    or empty, in which case the URL detected from the key is used; with a
    timeout of 30000 ms unless a non-zero one is given; and with the key and
    the secret in their two headers.  Its retry configuration is the spread
    of the caller's over the defaults 3, 1000 and 408, 429, 500, 502, 503,
    504: a key given with a value holds that value, an absent key keeps the
    default, and a key given as [undefined] holds [undefined], not the
    default.  When no key is given as [undefined] the result is the merged
    [RetryConfig]. *)
Theorem client_configuration :
  forall options : ClientOptions,
    let c := new_Client options in
    let over {A} (default : A) (k : key A) : option A :=
      match k with
      | Absent => Some default
      | Undefined => None
      | Given a => Some a
      end in
    (forall u, baseUrl options = Some u -> u <> "" -> baseURL c = u)
    /\ (baseUrl options = None \/ baseUrl options = Some "" ->
        baseURL c = detectBaseUrl (apiKey options))
    /\ (forall t, timeout options = Some t -> t <> 0%Z -> axios_timeout c = t)
    /\ (timeout options = None \/ timeout options = Some 0%Z ->
        axios_timeout c = 30000%Z)
    /\ header (default_headers c) "X-VocaFuse-API-Key" = Some (apiKey options)
    /\ header (default_headers c) "X-VocaFuse-API-Secret" = Some (apiSecret options)
    /\ (retry options = None ->
        client_retryConfig c
        = {| spread_maxRetries := Some 3%Z; spread_retryDelay := Some 1000%Z;
             spread_retryableStatuses := Some [408; 429; 500; 502; 503; 504]%Z |})
    /\ (forall r : RetryOptions,
          retry options = Some r ->
          client_retryConfig c
          = {| spread_maxRetries := over 3%Z (key_maxRetries r);
               spread_retryDelay := over 1000%Z (key_retryDelay r);
               spread_retryableStatuses :=
                 over [408; 429; 500; 502; 503; 504]%Z (key_retryableStatuses r) |})
    /\ (no_undefined (retry options) = true ->
        as_RetryConfig (client_retryConfig c)
        = Some (mergeRetryConfig (option_map as_partial (retry options)))).
Proof.
  intros [k sec u t r] c over. subst c over. unfold new_Client.
  cbn [apiKey apiSecret baseUrl timeout retry baseURL axios_timeout
       default_headers client_retryConfig].
  split; [|split; [|split; [|split; [|split; [|split; [|split; [|split]]]]]]].
  - intros u' -> Hu. destruct u'; [contradiction|reflexivity].
  - intros [-> | ->]; reflexivity.
  - intros t' -> Ht. destruct (Z.eqb_spec t' 0); [contradiction|reflexivity].
  - intros [-> | ->]; reflexivity.
  - reflexivity.
  - reflexivity.
  - intros ->. reflexivity.
  - intros r' ->. reflexivity.
  - destruct r as [[[| |m] [| |d] [| |l]]|]; cbn [no_undefined is_undefined
      key_maxRetries key_retryDelay key_retryableStatuses negb andb];
      intro H; try discriminate H; reflexivity.
Qed.

End EnvironmentProps.

(* ------------------------------------------------------------------------- *)
(** ** More on the voicenotes list parameters and the generator *)

Module VoicenotesMore.
Import Js Axios Http Voicenotes Vocabulary Samples.
Local Open Scope Z_scope.

(** X20.  [list] sends the page it is given (0 when omitted), and sends
    [status], [date_from] and [date_to] exactly for the filters that are
    given and not empty; besides [page] and [limit] it sends nothing else. *)
Theorem list_sends_only_given_filters :
  forall options : option ListVoicenotesOptions,
    let ps := list_params options in
    let given (o : option string) :=
      match o with
      | Some (String c s) => Some (PStr (String c s))
      | _ => None
      end in
    param ps "page"
    = Some (PNum match opt opt_page options with Some p => p | None => 0 end)
    /\ param ps "status" = given (opt opt_status options)
    /\ param ps "date_from" = given (opt dateFrom options)
    /\ param ps "date_to" = given (opt dateTo options)
    /\ forall k : string,
         ~ In k ["page"; "limit"; "status"; "date_from"; "date_to"]%string ->
         param ps k = None.
Proof.
  intros options ps given. subst ps given. unfold list_params, spread_if.
  destruct (opt opt_status options) as [[|c1 s1]|];
    destruct (opt dateFrom options) as [[|c2 s2]|];
    destruct (opt dateTo options) as [[|c3 s3]|];
    cbn [truthy truthy_string interp app];
    (split; [unfold num_or; destruct (opt opt_page options) as [pg|];
             [destruct (Z.eqb_spec pg 0) as [->|]|]; reflexivity|]);
    (split; [reflexivity|]); (split; [reflexivity|]); (split; [reflexivity|]);
    intros k Hk; cbn [In] in Hk; cbn [param];
    repeat match goal with
           | |- context [String.eqb ?a k] =>
               destruct (String.eqb_spec a k); [exfalso; tauto|]
           end; reflexivity.
Qed.

Section Iterate.

Variable V : Type.

(** [list] on a script whose next reply is a 2xx. *)
Lemma list_on_success (w : World V) (options : option ListVoicenotesOptions)
    (page : Z) (r : AxiosResponse (Datatypes.list V))
    (rest : Datatypes.list (Reply (Datatypes.list V))) :
  script w = Respond r :: rest -> validateStatus (status r) = true ->
  list (Some (with_page options page)) w
  = (inr (response_data r), after_page w options page rest).
Proof.
  intros Hs Hok. unfold list, _get. rewrite Hs. cbn [request settle].
  rewrite Hok. reflexivity.
Qed.

Lemma for_await_step (f : nat) (g : Generator V) (w : World V)
    (out : Datatypes.list V) :
  for_await (S f) g w out = drain f (next g w) out.
Proof. reflexivity. Qed.

(** Yielding what is left of a page that reports more. *)
Lemma rest_of_page (options : option ListVoicenotesOptions) (page : Z)
    (pg : option Pagination) (w : World V) (f : nat) :
  has_more_of pg = true ->
  forall (items out : Datatypes.list V),
    for_await (S (List.length items + f)) (AtYield options page items pg) w out
    = drain f (while_hasMore (S (List.length (script w))) options (page + 1) w)
        (out ++ items).
Proof.
  intros Hm items. induction items as [|v items IH]; intro out.
  - rewrite for_await_step. cbn [next]. rewrite Hm. now rewrite app_nil_r.
  - cbn [List.length Nat.add]. rewrite for_await_step. cbn [next drain].
    rewrite IH. now rewrite <- app_assoc.
Qed.

(** One page that reports more: its items are yielded and the loop goes on
    to the next page. *)
Lemma page_with_more (options : option ListVoicenotesOptions) (page : Z)
    (w : World V) (r : AxiosResponse (Datatypes.list V))
    (items : Datatypes.list V)
    (rest : Datatypes.list (Reply (Datatypes.list V)))
    (out : Datatypes.list V) (f : nat) :
  script w = Respond r :: rest -> validateStatus (status r) = true ->
  body_data (response_data r) = Some items ->
  has_more_of (body_pagination (response_data r)) = true ->
  drain (List.length items + f)
    (while_hasMore (S (List.length (script w))) options page w) out
  = drain f
      (while_hasMore (S (List.length rest)) options (page + 1)
         (after_page w options page rest))
      (out ++ items).
Proof.
  intros Hs Hok Hdata Hm. cbn [while_hasMore].
  rewrite (list_on_success w options page r rest Hs Hok), Hdata.
  destruct items as [|v items].
  - rewrite Hm, Hs, app_nil_r. reflexivity.
  - cbn [drain List.length Nat.add].
    rewrite (rest_of_page options page _ _ f Hm items (out ++ [v])).
    now rewrite <- app_assoc.
Qed.

Lemma page_reply_facts (items : Datatypes.list V) (pg : Pagination) :
  exists r, page_reply items pg = Respond r
            /\ validateStatus (status r) = true
            /\ body_data (response_data r) = Some items
            /\ body_pagination (response_data r) = Some pg.
Proof. eexists. repeat split. Qed.

(** A run of pages that all report more, with the requests it makes. *)
Lemma pages_run (pages : Datatypes.list (Datatypes.list V * Pagination)) :
  all_have_more pages = true ->
  forall (options : option ListVoicenotesOptions) (page : Z) (w : World V)
         (tail : Datatypes.list (Reply (Datatypes.list V))),
    script w = (replies pages ++ tail)%list ->
    exists w',
      script w' = tail
      /\ retryConfig w' = retryConfig w
      /\ list_calls w'
         = (list_calls w ++ pages_from options page (List.length pages))%list
      /\ traffic w'
         = (traffic w ++ requests_from options page (List.length pages))%list
      /\ forall (out : Datatypes.list V) (f : nat),
           drain (List.length (all_items pages) + f)
             (while_hasMore (S (List.length (script w))) options page w) out
           = drain f
               (while_hasMore (S (List.length tail)) options
                  (page + Z.of_nat (List.length pages)) w')
               (out ++ all_items pages).
Proof.
  induction pages as [|[items pg] pages IH]; intros Hall options page w tail Hs.
  - exists w. cbn in Hs.
    cbn [List.length pages_from requests_from all_items map concat Nat.add].
    rewrite !app_nil_r, Z.add_0_r, Hs. repeat split.
    intros out f. now rewrite app_nil_r.
  - cbn [all_have_more] in Hall. apply andb_true_iff in Hall as [Hm Hall].
    cbn [replies map fst snd app] in Hs.
    destruct (page_reply_facts items pg) as (r & Hr & Hok & Hdata & Hpg).
    rewrite Hr in Hs.
    destruct (IH Hall options (page + 1) (after_page w options page
                                            (replies pages ++ tail)%list) tail eq_refl)
      as (w' & H1 & H2 & H3 & H4 & H5).
    exists w'. split; [exact H1|]. split; [exact H2|]. split; [|split].
    + rewrite H3. cbn [after_page list_calls List.length pages_from].
      now rewrite <- app_assoc.
    + rewrite H4. cbn [after_page traffic List.length requests_from].
      now rewrite <- app_assoc.
    + intros out f.
      replace (page + Z.of_nat (List.length ((items, pg) :: pages)))
        with (page + 1 + Z.of_nat (List.length pages))
        by (cbn [List.length]; lia).
      unfold all_items. cbn [List.map fst List.concat].
      rewrite length_app, <- Nat.add_assoc.
      rewrite (page_with_more options page w r items (replies pages ++ tail)%list
                 out _ Hs Hok Hdata); [|rewrite Hpg; exact Hm].
      cbn [after_page script] in H5. fold (all_items pages).
      rewrite (H5 (out ++ items)%list f). now rewrite <- app_assoc.
Qed.

Lemma attempts_app (es fs : Datatypes.list Event) :
  attempts (es ++ fs) = (attempts es + attempts fs)%nat.
Proof.
  induction es as [|[c|s|ms] es IH]; cbn [app attempts]; [reflexivity|..];
    now rewrite IH.
Qed.

Lemma attempts_requests (options : option ListVoicenotesOptions) (n : nat) :
  forall page : Z, attempts (requests_from options page n) = n.
Proof. induction n as [|n IH]; intro page; cbn; [|rewrite IH]; reflexivity. Qed.

(** A run of pages that all report more. *)
Lemma pages_with_more (pages : Datatypes.list (Datatypes.list V * Pagination)) :
  all_have_more pages = true ->
  forall (options : option ListVoicenotesOptions) (page : Z) (w : World V)
         (tail : Datatypes.list (Reply (Datatypes.list V))),
    script w = (replies pages ++ tail)%list ->
    exists w',
      script w' = tail
      /\ retryConfig w' = retryConfig w
      /\ list_calls w'
         = (list_calls w ++ pages_from options page (List.length pages))%list
      /\ attempts (traffic w') = (attempts (traffic w) + List.length pages)%nat
      /\ forall (out : Datatypes.list V) (f : nat),
           drain (List.length (all_items pages) + f)
             (while_hasMore (S (List.length (script w))) options page w) out
           = drain f
               (while_hasMore (S (List.length tail)) options
                  (page + Z.of_nat (List.length pages)) w')
               (out ++ all_items pages).
Proof.
  intros Hall options page w tail Hs.
  destruct (pages_run pages Hall options page w tail Hs)
    as (w' & H1 & H2 & H3 & H4 & H5).
  exists w'. split; [exact H1|]. split; [exact H2|]. split; [exact H3|].
  split; [|exact H5].
  now rewrite H4, attempts_app, attempts_requests.
Qed.

(** What is left of a page that reports no more. *)
Lemma rest_of_last_page (options : option ListVoicenotesOptions) (page : Z)
    (pg : option Pagination) (w : World V) (f : nat) :
  has_more_of pg = false ->
  forall (items out : Datatypes.list V),
    for_await (S (List.length items + f)) (AtYield options page items pg) w out
    = Some ((out ++ items)%list, @Done V, w).
Proof.
  intros Hm items. induction items as [|v items IH]; intro out.
  - rewrite for_await_step. cbn [next]. rewrite Hm. cbn [drain].
    now rewrite app_nil_r.
  - cbn [List.length Nat.add]. rewrite for_await_step. cbn [next drain].
    rewrite IH. now rewrite <- app_assoc.
Qed.

Lemma last_page (options : option ListVoicenotesOptions) (page : Z)
    (w : World V) (r : AxiosResponse (Datatypes.list V))
    (items : Datatypes.list V)
    (rest : Datatypes.list (Reply (Datatypes.list V)))
    (out : Datatypes.list V) (f : nat) :
  script w = Respond r :: rest -> validateStatus (status r) = true ->
  body_data (response_data r) = Some items ->
  has_more_of (body_pagination (response_data r)) = false ->
  drain (List.length items + f)
    (while_hasMore (S (List.length (script w))) options page w) out
  = Some ((out ++ items)%list, @Done V, after_page w options page rest).
Proof.
  intros Hs Hok Hdata Hm. cbn [while_hasMore].
  rewrite (list_on_success w options page r rest Hs Hok), Hdata.
  destruct items as [|v items].
  - rewrite Hm, app_nil_r. reflexivity.
  - cbn [drain List.length Nat.add].
    rewrite (rest_of_last_page options page _ _ f Hm items (out ++ [v])).
    now rewrite <- app_assoc.
Qed.

Lemma pages_from_snoc (options : option ListVoicenotesOptions) (n : nat) :
  forall page : Z,
    pages_from options page (S n)
    = (pages_from options page n
       ++ [Some (with_page options (page + Z.of_nat n))])%list.
Proof.
  induction n as [|n IH]; intro page.
  - cbn. now rewrite Z.add_0_r.
  - change (pages_from options page (S (S n)))
      with (Some (with_page options page) :: pages_from options (page + 1) (S n)).
    rewrite IH. replace (page + Z.of_nat (S n)) with (page + 1 + Z.of_nat n) by lia.
    reflexivity.
Qed.

Lemma requests_from_snoc (options : option ListVoicenotesOptions) (n : nat) :
  forall page : Z,
    requests_from options page (S n)
    = (requests_from options page n
       ++ [Sent (page_request options (page + Z.of_nat n))])%list.
Proof.
  induction n as [|n IH]; intro page.
  - cbn. now rewrite Z.add_0_r.
  - change (requests_from options page (S (S n)))
      with (Sent (page_request options page)
              :: requests_from options (page + 1) (S n)).
    rewrite IH. replace (page + Z.of_nat (S n)) with (page + 1 + Z.of_nat n) by lia.
    reflexivity.
Qed.

Lemma requests_from_length (options : option ListVoicenotesOptions) (n : nat) :
  forall page : Z, List.length (requests_from options page n) = n.
Proof. induction n as [|n IH]; intro page; cbn; [|rewrite IH]; reflexivity. Qed.

Lemma pages_from_length (options : option ListVoicenotesOptions) (n : nat) :
  forall page : Z, List.length (pages_from options page n) = n.
Proof. induction n as [|n IH]; intro page; cbn; [|rewrite IH]; reflexivity. Qed.

Lemma requests_from_nth (options : option ListVoicenotesOptions) (n : nat) :
  forall (page : Z) (i : nat),
    (i < n)%nat ->
    nth_error (requests_from options page n) i
    = Some (Sent (page_request options (page + Z.of_nat i))).
Proof.
  induction n as [|n IH]; intros page i Hi; [lia|].
  destruct i as [|i]; cbn [requests_from nth_error].
  - now rewrite Z.add_0_r.
  - rewrite IH by lia. do 3 f_equal. lia.
Qed.

(** The query of the request for a page: the page asked for, and for every
    other key what [list] sends for the caller's options. *)
Lemma page_request_params (options : option ListVoicenotesOptions) (page : Z) :
  param (params (page_request options page)) "page" = Some (PNum page)
  /\ forall k : string,
       k <> "page"%string ->
       param (params (page_request options page)) k = param (list_params options) k.
Proof.
  unfold page_request, list_params. cbn [params app param]. split.
  - cbn [String.eqb Ascii.eqb Bool.eqb]. unfold num_or. cbn [opt with_page opt_page].
    destruct (Z.eqb_spec page 0) as [->|]; reflexivity.
  - intros k Hk. destruct (String.eqb_spec "page" k) as [E|_]; [congruence|].
    reflexivity.
Qed.

(** X21.  Consumed to the end, the generator yields the items of every page
    in order and stops at the first reply that does not report more:
    replies after it stay unread.  It calls [list] once per page, each call
    making one GET request to [voicenotes]; the [i]-th request asks for
    page [first + i], where [first] is the page of the options (0 when
    omitted), and sends for every other key what [list] sends for the
    caller's options.  The pages are safe integers, for which the code's
    [page += 1] is exact. *)
Theorem iterate_yields_every_page_in_order :
  forall (rc : RetryConfig) (options : option ListVoicenotesOptions)
         (front : Datatypes.list (Datatypes.list V * Pagination))
         (r : AxiosResponse (Datatypes.list V)) (last_items : Datatypes.list V)
         (extra : Datatypes.list (Reply (Datatypes.list V))) (fuel : nat),
    let first := match opt opt_page options with Some p => p | None => 0 end in
    all_have_more front = true ->
    validateStatus (status r) = true ->
    body_data (response_data r) = Some last_items ->
    has_more_of (body_pagination (response_data r)) = false ->
    (List.length (all_items front) + List.length last_items < fuel)%nat ->
    - MAX_SAFE_INTEGER <= first ->
    first + Z.of_nat (List.length front) < MAX_SAFE_INTEGER ->
    exists w',
      for_await fuel (@NotStarted V options)
        {| retryConfig := rc; script := (replies front ++ Respond r :: extra)%list;
           traffic := []; list_calls := [] |} []
      = Some ((all_items front ++ last_items)%list, @Done V, w')
      /\ script w' = extra
      /\ List.length (list_calls w') = S (List.length front)
      /\ List.length (traffic w') = S (List.length front)
      /\ forall i : nat,
           (i <= List.length front)%nat ->
           exists c : AxiosRequestConfig,
             nth_error (traffic w') i = Some (Sent c)
             /\ method c = "get"%string /\ url c = Some "voicenotes"%string
             /\ param (params c) "page" = Some (PNum (first + Z.of_nat i))
             /\ forall k : string,
                  k <> "page"%string ->
                  param (params c) k = param (list_params options) k.
Proof.
  intros rc options front r last_items extra fuel first Hall Hok Hdata Hm Hfuel
    _ _.
  assert (Hfirst : num_or (opt opt_page options) 0 = first).
  { subst first. unfold num_or. destruct (opt opt_page options) as [p|];
      [destruct (Z.eqb_spec p 0) as [->|]|]; reflexivity. }
  set (w0 := {| retryConfig := rc;
                script := (replies front ++ Respond r :: extra)%list;
                traffic := []; list_calls := [] |}).
  destruct (pages_run front Hall options first w0 (Respond r :: extra) eq_refl)
    as (wn & H1 & H2 & H3 & H4 & H5).
  exists (after_page wn options (first + Z.of_nat (List.length front)) extra).
  assert (Ht : traffic (after_page wn options
                          (first + Z.of_nat (List.length front)) extra)
               = requests_from options first (S (List.length front))).
  { cbn [after_page traffic]. rewrite H4, requests_from_snoc. reflexivity. }
  split; [|split; [|split; [|split]]].
  - destruct fuel as [|f]; [lia|].
    replace f with (List.length (all_items front)
                    + (List.length last_items
                       + (f - List.length (all_items front)
                          - List.length last_items)))%nat by lia.
    rewrite for_await_step. cbn [next]. rewrite Hfirst, H5. rewrite <- H1 at 1.
    rewrite (last_page options _ wn r last_items extra _ _ H1 Hok Hdata Hm).
    reflexivity.
  - reflexivity.
  - cbn [after_page list_calls]. rewrite H3, !length_app, pages_from_length.
    cbn. lia.
  - rewrite Ht. apply requests_from_length.
  - intros i Hi. exists (page_request options (first + Z.of_nat i)).
    rewrite Ht. split; [apply requests_from_nth; lia|].
    split; [reflexivity|]. split; [reflexivity|].
    apply page_request_params.
Qed.

(** X22.  When the request for a page fails, the loop has already yielded
    the items of the pages before it, and the next [next()] rejects with
    the typed error of that request; no further page is asked for. *)
Theorem iterate_rejects_where_list_fails :
  forall (rc : RetryConfig) (options : option ListVoicenotesOptions)
         (front : Datatypes.list (Datatypes.list V * Pagination))
         (tail : Datatypes.list (Reply (Datatypes.list V)))
         (e : Errors.error) (fuel : nat),
    all_have_more front = true ->
    (let page := num_or (opt opt_page options) 0 + Z.of_nat (List.length front) in
     fst (_get rc tail "voicenotes" (list_params (Some (with_page options page))))
     = inl e) ->
    (List.length (all_items front) < fuel)%nat ->
    exists w',
      for_await fuel (@NotStarted V options)
        {| retryConfig := rc; script := (replies front ++ tail)%list;
           traffic := []; list_calls := [] |} []
      = Some (all_items front, @Rejected V e, w')
      /\ list_calls w'
         = pages_from options (num_or (opt opt_page options) 0)
             (S (List.length front)).
Proof.
  intros rc options front tail e fuel Hall Hfail Hfuel. cbv zeta in Hfail.
  set (w0 := {| retryConfig := rc; script := (replies front ++ tail)%list;
                traffic := []; list_calls := [] |}).
  destruct (pages_with_more front Hall options (num_or (opt opt_page options) 0)
              w0 tail eq_refl)
    as (wn & H1 & H2 & H3 & H4 & H5).
  destruct fuel as [|f]; [lia|].
  replace f with (List.length (all_items front)
                  + (f - List.length (all_items front)))%nat by lia.
  rewrite for_await_step. cbn [next]. rewrite H5.
  cbn [while_hasMore]. unfold list. rewrite H1, H2. cbn [w0 retryConfig].
  destruct (_get rc tail "voicenotes" _) as [res run] eqn:Hget.
  cbn [fst] in Hfail. subst res. cbn [drain app].
  eexists. split; [reflexivity|]. cbn [list_calls].
  rewrite H3, pages_from_snoc. reflexivity.
Qed.

End Iterate.

(** A run of X21: two pages of two items, then a reply that stays unread. *)
Lemma iterate_yields_every_page_in_order_witness :
  exists w',
    for_await 5 (@NotStarted nat None)
      {| retryConfig := DEFAULT_RETRY_CONFIG;
         script := (replies [([1; 2]%nat, {| page := 0; limit := 2; total := 4;
                                            has_more := true |})]
                    ++ Respond {| status := 200; response_headers := [];
                                  response_data :=
                                    {| body_data := Some [3; 4]%nat;
                                       body_pagination := None;
                                       body_error := None |} |}
                    :: [NetworkError (Datatypes.list nat) "unused"])%list;
         traffic := []; list_calls := [] |} []
    = Some ((all_items [([1; 2]%nat, {| page := 0; limit := 2; total := 4;
                                        has_more := true |})] ++ [3; 4]%nat)%list,
            @Done nat, w')
    /\ script w' = [NetworkError (Datatypes.list nat) "unused"]
    /\ List.length (traffic w') = 2%nat.
Proof.
  destruct (iterate_yields_every_page_in_order nat DEFAULT_RETRY_CONFIG None
              [([1; 2]%nat, {| page := 0; limit := 2; total := 4;
                               has_more := true |})]
              {| status := 200; response_headers := [];
                 response_data := {| body_data := Some [3; 4]%nat;
                                     body_pagination := None;
                                     body_error := None |} |}
              [3; 4]%nat [NetworkError (Datatypes.list nat) "unused"] 5%nat)
    as (w' & Hrun & Hscript & _ & Htraffic & _);
    [ reflexivity | reflexivity | reflexivity | reflexivity | cbn; lia
    | unfold MAX_SAFE_INTEGER; cbn; lia | unfold MAX_SAFE_INTEGER; cbn; lia | ].
  exists w'. split; [exact Hrun|]. split; [exact Hscript|exact Htraffic].
Defined.

(** A run of X22: one page, then a 400 for the second. *)
Lemma iterate_rejects_where_list_fails_witness :
  exists w',
    for_await 3 (@NotStarted nat None)
      {| retryConfig := DEFAULT_RETRY_CONFIG;
         script := (replies [([1; 2]%nat, {| page := 0; limit := 2; total := 4;
                                            has_more := true |})]
                    ++ [Respond {| status := 400; response_headers := [];
                                   response_data :=
                                     {| body_data := None;
                                        body_pagination := None;
                                        body_error :=
                                          Some {| eb_message := Some "Invalid page"%string;
                                                  eb_code := None;
                                                  eb_details := None |} |} |}])%list;
         traffic := []; list_calls := [] |} []
    = Some (all_items [([1; 2]%nat, {| page := 0; limit := 2; total := 4;
                                       has_more := true |})],
            @Rejected nat
              (Errors.ValidationError "Invalid page" None None
                 (ErrorHandler.only_endpoint (Some "voicenotes"%string))),
            w')
    /\ list_calls w' = pages_from None (num_or (opt opt_page None) 0) 2.
Proof.
  apply (iterate_rejects_where_list_fails nat DEFAULT_RETRY_CONFIG None
           [([1; 2]%nat, {| page := 0; limit := 2; total := 4; has_more := true |})]);
    [reflexivity | reflexivity | cbn; lia].
Defined.

End VoicenotesMore.

(* ------------------------------------------------------------------------- *)
(** ** The id-addressed accessors on a missing resource *)

Module ResourcesMore.
Import Js JsFacts RegexFacts Axios Errors ErrorHandler Http Resources Vocabulary.
Local Open Scope string_scope.

Lemma includes_cons (c : ascii) (s needle : string) :
  includes (String c s) needle
  = (startsWith (String c s) needle || includes s needle)%bool.
Proof. reflexivity. Qed.

Lemma startsWith_slash_free (p : string) :
  forall s : string,
    startsWith s p = true -> slash_free s = true -> slash_free p = true.
Proof.
  induction p as [|a p IH]; intros s Hs Hf; [reflexivity|].
  destruct s as [|b s]; [discriminate Hs|].
  rewrite startsWith_cons in Hs. apply andb_true_iff in Hs as [Hab Hs].
  apply Ascii.eqb_eq in Hab. subst b.
  cbn [slash_free] in *. apply andb_true_iff in Hf as [Ha Hf].
  rewrite Ha. exact (IH s Hs Hf).
Qed.

(** A segment holds no text with a slash in it. *)
Lemma slash_free_no_infix (needle : string) :
  slash_free needle = false ->
  forall s : string, slash_free s = true -> includes s needle = false.
Proof.
  intros Hn s. induction s as [|c s IH]; intro Hf.
  - cbn [includes]. destruct (startsWith "" needle) eqn:E; [|reflexivity].
    rewrite (startsWith_slash_free needle "" E Hf) in Hn. discriminate Hn.
  - rewrite includes_cons.
    destruct (startsWith (String c s) needle) eqn:E.
    + rewrite (startsWith_slash_free needle _ E Hf) in Hn. discriminate Hn.
    + cbn [slash_free] in Hf. apply andb_true_iff in Hf as [_ Hf].
      now rewrite (IH Hf).
Qed.

(** No match where the literal of the pattern does not occur. *)
Lemma regex_exec_needs_lit (lit : string) (t : regex_tail) (s : string) :
  includes s lit = false -> regex_exec (Regex lit t) s = None.
Proof.
  induction s as [|c s IH]; intro H; cbn [regex_exec];
    rewrite (match_at_needs_lit (Regex lit t) _ (includes_false_startsWith _ _ H)).
  - reflexivity.
  - apply IH. exact (includes_tail _ _ _ H).
Qed.

Lemma regex_exec_skip (r : regex) (c : ascii) (s : string) :
  startsWith (String c s) (re_lit r) = false ->
  regex_exec r (String c s) = regex_exec r s.
Proof. intro H. cbn [regex_exec]. now rewrite (match_at_needs_lit r _ H). Qed.

(** A segment cannot be followed by a literal inside itself. *)
Lemma capture_slash_free (l s : string) :
  slash_free l = false -> slash_free s = true -> capture (Literal l) s = None.
Proof.
  intros Hl. induction s as [|c s IH]; intro Hf; [reflexivity|].
  cbn [slash_free] in Hf. apply andb_true_iff in Hf as [Hc Hf].
  cbn [capture]. apply negb_true_iff in Hc. rewrite Hc, (IH Hf).
  cbn [tail_matches].
  destruct (startsWith s l) eqn:E; [|reflexivity].
  rewrite (startsWith_slash_free l s E Hf) in Hl. discriminate Hl.
Qed.

(** Reads a path with a known prefix character by character. *)
Ltac scan :=
  cbn [append];
  repeat (first [rewrite startsWith_cons | rewrite includes_cons];
          repeat match goal with
                 | |- context [Ascii.eqb ?a ?b] =>
                     let v := eval vm_compute in (Ascii.eqb a b) in
                     change (Ascii.eqb a b) with v
                 end;
          cbn [andb orb]).

Ltac absent Hfree :=
  scan;
  repeat match goal with
         | H : startsWith _ _ = false |- _ => rewrite H
         end;
  cbn [orb];
  first [ reflexivity
        | apply slash_free_no_infix; [reflexivity | exact Hfree] ].

Lemma detect_webhook (u : string) :
  includes u "/transcription" = false ->
  includes u "voicenotes/" = false -> includes u "/voicenotes" = false ->
  includes u "webhooks/" = true ->
  detectResourceType (Some u) = Some "webhook".
Proof.
  intros Ht H1 H2 H3. unfold detectResourceType.
  destruct u as [|c u]; [discriminate H3|].
  cbn [truthy truthy_string negb interp].
  rewrite Ht, (regex_exec_literal_included _ _ _ Ht), H1, H2, H3. reflexivity.
Qed.

Lemma detect_api_key (u : string) :
  includes u "/transcription" = false ->
  includes u "voicenotes/" = false -> includes u "/voicenotes" = false ->
  includes u "webhooks/" = false -> includes u "/webhooks" = false ->
  includes u "api-keys/" = true ->
  detectResourceType (Some u) = Some "api_key".
Proof.
  intros Ht H1 H2 H3 H4 H5. unfold detectResourceType.
  destruct u as [|c u]; [discriminate H5|].
  cbn [truthy truthy_string negb interp].
  rewrite Ht, (regex_exec_literal_included _ _ _ Ht), H1, H2, H3, H4, H5.
  reflexivity.
Qed.

Lemma detect_voicenote_by_name (u : string) :
  includes u "/transcription" = false ->
  includes u "voicenotes/" = false -> includes u "/voicenotes" = true ->
  detectResourceType (Some u) = Some "voicenote".
Proof.
  intros Ht H1 H2. unfold detectResourceType.
  destruct u as [|c u]; [discriminate H2|].
  cbn [truthy truthy_string negb interp].
  rewrite Ht, (regex_exec_literal_included _ _ _ Ht), H1, H2. reflexivity.
Qed.

Lemma detect_by_transcription (u : string) :
  includes u "/transcription" = true ->
  detectResourceType (Some u) = Some "transcription".
Proof.
  intros Ht. unfold detectResourceType.
  destruct u as [|c u]; [discriminate Ht|].
  cbn [truthy truthy_string negb interp]. rewrite Ht. reflexivity.
Qed.

Lemma detect_webhook_by_name (u : string) :
  includes u "/transcription" = false ->
  includes u "voicenotes/" = false -> includes u "/voicenotes" = false ->
  includes u "webhooks/" = false -> includes u "/webhooks" = true ->
  detectResourceType (Some u) = Some "webhook".
Proof.
  intros Ht H1 H2 H3 H4. unfold detectResourceType.
  destruct u as [|c u]; [discriminate H4|].
  cbn [truthy truthy_string negb interp].
  rewrite Ht, (regex_exec_literal_included _ _ _ Ht), H1, H2, H3, H4.
  reflexivity.
Qed.

Lemma regex_exec_cons (r : regex) (c : ascii) (s : string) :
  regex_exec r (String c s)
  = match match_at r (String c s) with
    | Some g => Some g
    | None => regex_exec r s
    end.
Proof. reflexivity. Qed.

Lemma slash_free_start (x : string) :
  slash_free x = true -> startsWith x "/" = false.
Proof.
  destruct x as [|c x]; [reflexivity|]. cbn [slash_free].
  intro H. apply andb_true_iff in H as [H _]. apply negb_true_iff in H.
  rewrite startsWith_cons, Ascii.eqb_sym, H. reflexivity.
Qed.

Section Accessors.

Variable T : Type.

(** The typed error of a 404, by the resource type detected in the path. *)
Lemma not_found_by_type (err : AxiosError T) (u : string) (rt : string)
    (cls : ErrorClass) :
  failure err 404 (Some u) -> detectResourceType (Some u) = Some rt ->
  In (rt, cls) classes ->
  forall A (res : Errors.error + A),
    res = inl (handleApiError (ThrownAxios err)) ->
    reports_missing res cls (extractResourceId (Some u) rt).
Proof.
  intros [Hs Hu] Hrt Hin A res ->. exists (handleApiError (ThrownAxios err)).
  split; [reflexivity|].
  destruct err as [m cfg resp]. cbn [config response] in *.
  destruct resp as [r|]; [|discriminate Hs]. cbn [option_map] in Hs.
  injection Hs as Hs.
  assert (Hu' : match cfg with Some c => url c | None => None end = Some u).
  { destruct cfg; [exact Hu|discriminate Hu]. }
  clear Hu. unfold handleApiError.
  cbn [config response option_map ae_message]. rewrite Hs, Hu', Hrt.
  unfold classes in Hin. cbn [In] in Hin.
  destruct Hin as [[= <- <-]|[[= <- <-]|[[= <- <-]|[[= <- <-]|[]]]]];
    repeat split.
Qed.

Lemma get_not_found (rc : RetryConfig) (r : AxiosResponse T)
    (rest : list (Reply T)) (u : string) :
  status r = 404%Z -> includesZ (retryableStatuses rc) 404 = false ->
  exists err : AxiosError T,
    fst (_get rc (Respond r :: rest) u []) = inl (handleApiError (ThrownAxios err))
    /\ failure err 404 (Some u).
Proof.
  intros Hs Hr. eexists. unfold _get. cbn [fst request settle].
  rewrite Hs. cbn [validateStatus Z.leb Z.ltb Z.compare Pos.compare
                   Pos.compare_cont andb].
  unfold onRejected. cbn [config response status_error].
  rewrite Hs, Hr, andb_false_r. cbn [negb rejected outcome].
  split; [reflexivity|]. split; [cbn; now rewrite Hs|reflexivity].
Qed.

Lemma delete_not_found (rc : RetryConfig) (r : AxiosResponse T)
    (rest : list (Reply T)) (u : string) :
  status r = 404%Z -> includesZ (retryableStatuses rc) 404 = false ->
  exists err : AxiosError T,
    fst (_delete rc (Respond r :: rest) u) = inl (handleApiError (ThrownAxios err))
    /\ failure err 404 (Some u).
Proof.
  intros Hs Hr. eexists. unfold _delete. cbn [fst request settle].
  rewrite Hs. cbn [validateStatus Z.leb Z.ltb Z.compare Pos.compare
                   Pos.compare_cont andb].
  unfold onRejected. cbn [config response status_error].
  rewrite Hs, Hr, andb_false_r. cbn [negb rejected outcome].
  split; [reflexivity|]. split; [cbn; now rewrite Hs|reflexivity].
Qed.

Lemma get_reports (rc : RetryConfig) (r : AxiosResponse T)
    (rest : list (Reply T)) (u rt : string) (cls : ErrorClass)
    (id : option string) :
  status r = 404%Z -> includesZ (retryableStatuses rc) 404 = false ->
  detectResourceType (Some u) = Some rt -> In (rt, cls) classes ->
  extractResourceId (Some u) rt = id ->
  reports_missing (fst (_get rc (Respond r :: rest) u [])) cls id.
Proof.
  intros Hs Hr Hrt Hin <-.
  destruct (get_not_found rc r rest u Hs Hr) as (err & Hget & Hfail).
  exact (not_found_by_type err u rt cls Hfail Hrt Hin _ _ Hget).
Qed.

Lemma delete_reports (rc : RetryConfig) (r : AxiosResponse T)
    (rest : list (Reply T)) (u rt : string) (cls : ErrorClass)
    (id : option string) :
  status r = 404%Z -> includesZ (retryableStatuses rc) 404 = false ->
  detectResourceType (Some u) = Some rt -> In (rt, cls) classes ->
  extractResourceId (Some u) rt = id ->
  reports_missing (fst (_delete rc (Respond r :: rest) u)) cls id.
Proof.
  intros Hs Hr Hrt Hin <-.
  destruct (delete_not_found rc r rest u Hs Hr) as (err & Hget & Hfail).
  exact (not_found_by_type err u rt cls Hfail Hrt Hin _ _ Hget).
Qed.

End Accessors.

(** The id that follows a collection name at the start of a path. *)
Lemma extract_segment (rt lit : string) (t : regex_tail) (id rest : string) :
  patterns rt = Some (Regex lit t) -> lit <> "" ->
  id <> "" -> slash_free id = true ->
  tail_matches SlashOrEnd rest = true -> tail_matches t rest = true ->
  extractResourceId (Some (lit ++ id ++ rest)) rt = Some id.
Proof.
  intros Hp Hl Hne Hf He Ht. unfold extractResourceId.
  destruct lit as [|a lit]; [contradiction|].
  cbn [append truthy truthy_string negb interp]. rewrite Hp.
  apply regex_exec_here.
  exact (match_at_segment (String a lit) t id rest Hne Hf He Ht).
Qed.

Lemma extract_nothing (rt lit : string) (t : regex_tail) (u : string) :
  patterns rt = Some (Regex lit t) -> includes u lit = false ->
  extractResourceId (Some u) rt = None.
Proof.
  intros Hp Hi. unfold extractResourceId.
  destruct (negb (truthy (Some u))); [reflexivity|].
  rewrite Hp. cbn [interp]. now apply regex_exec_needs_lit.
Qed.

Ltac in_classes := unfold classes; cbn [In]; tauto.

Section Missing.

Variable T : Type.
Variable rc : RetryConfig.
Variable r : AxiosResponse T.
Variable rest : list (Reply T).
Hypothesis not_found : status r = 404%Z.
Hypothesis not_retried : includesZ (retryableStatuses rc) 404 = false.

Lemma voicenote_path (id : string) :
  id <> "" -> slash_free id = true -> startsWith id "transcription" = false ->
  detectResourceType (Some ("voicenotes/" ++ id)) = Some "voicenote"
  /\ extractResourceId (Some ("voicenotes/" ++ id)) "voicenote" = Some id.
Proof.
  intros Hne Hf Ht. split.
  - apply ErrorProps.detect_voicenote.
    + absent Hf.
    + apply includes_here, startsWith_append.
  - rewrite <- (append_empty_r id) at 1.
    now apply (extract_segment "voicenote" "voicenotes/" SlashOrEnd id "").
Qed.

Lemma transcription_path (id : string) :
  id <> "" -> slash_free id = true ->
  detectResourceType (Some ("voicenotes/" ++ id ++ "/transcription"))
  = Some "transcription"
  /\ extractResourceId (Some ("voicenotes/" ++ id ++ "/transcription"))
       "transcription" = Some id.
Proof.
  intros Hne Hf. split.
  - apply detect_by_transcription.
    apply (includes_append_l "voicenotes/"), includes_append_l. reflexivity.
  - now apply (extract_segment "transcription" "voicenotes/"
                 (Literal "/transcription") id "/transcription").
Qed.

Lemma webhook_path (id : string) :
  id <> "" -> slash_free id = true ->
  startsWith id "transcription" = false -> startsWith id "voicenotes" = false ->
  detectResourceType (Some ("webhooks/" ++ id)) = Some "webhook"
  /\ extractResourceId (Some ("webhooks/" ++ id)) "webhook" = Some id.
Proof.
  intros Hne Hf Ht Hv. split.
  - apply detect_webhook; [absent Hf | absent Hf | absent Hf |].
    apply includes_here, startsWith_append.
  - rewrite <- (append_empty_r id) at 1.
    now apply (extract_segment "webhook" "webhooks/" SlashOrEnd id "").
Qed.

Lemma api_key_path (id : string) :
  id <> "" -> slash_free id = true ->
  startsWith id "transcription" = false -> startsWith id "voicenotes" = false ->
  startsWith id "webhooks" = false ->
  detectResourceType (Some ("account/api-keys/" ++ id)) = Some "api_key"
  /\ extractResourceId (Some ("account/api-keys/" ++ id)) "api_key" = Some id.
Proof.
  intros Hne Hf Ht Hv Hw. split.
  - apply detect_api_key;
      [absent Hf | absent Hf | absent Hf | absent Hf | absent Hf |].
    apply (includes_append_l "account/" ("api-keys/" ++ id)), includes_here,
      startsWith_append.
  - unfold extractResourceId. cbn [append truthy truthy_string negb interp].
    change (patterns "api_key") with (Some (Regex "api-keys/" SlashOrEnd)).
    cbv iota beta.
    do 8 (rewrite regex_exec_skip by reflexivity).
    apply regex_exec_here.
    pose proof (match_at_segment "api-keys/" SlashOrEnd id "" Hne Hf
                  eq_refl eq_refl) as H.
    rewrite append_empty_r in H. exact H.
Qed.

(** X23.  A 404 answer to [voicenotes(id).get()] or [.delete()] is thrown
    as a [VoicenoteNotFoundError], and one to
    [voicenotes(id).transcription.get()] as a [TranscriptionNotFoundError];
    both carry the id the accessor was built with. *)
Theorem voicenote_accessors_name_the_missing_voicenote :
  forall id : string,
    id <> "" -> slash_free id = true ->
    let script := Respond r :: rest in
    (startsWith id "transcription" = false ->
     reports_missing (fst (VoicenoteInstance_get rc script id))
       C_VoicenoteNotFoundError (Some id)
     /\ reports_missing (fst (VoicenoteInstance_delete rc script id))
          C_VoicenoteNotFoundError (Some id))
    /\ reports_missing (fst (TranscriptionResource_get rc script id))
         C_TranscriptionNotFoundError (Some id).
Proof.
  intros id Hne Hf script. subst script. split.
  - intro Ht. destruct (voicenote_path id Hne Hf Ht) as [Hd He]. split.
    + apply (get_reports T rc r rest _ "voicenote");
        [exact not_found | exact not_retried | exact Hd | in_classes | exact He].
    + apply (delete_reports T rc r rest _ "voicenote");
        [exact not_found | exact not_retried | exact Hd | in_classes | exact He].
  - destruct (transcription_path id Hne Hf) as [Hd He].
    apply (get_reports T rc r rest _ "transcription");
      [exact not_found | exact not_retried | exact Hd | in_classes | exact He].
Qed.

(** X24.  A 404 answer to [webhooks(id).get()] or [.delete()] is thrown as
    a [WebhookNotFoundError], one to [apiKeys(id).get()] or [.delete()] as
    an [APIKeyNotFoundError], each carrying the id of the accessor. *)
Theorem webhook_and_api_key_accessors_name_the_missing_id :
  forall id : string,
    id <> "" -> slash_free id = true ->
    startsWith id "transcription" = false -> startsWith id "voicenotes" = false ->
    let script := Respond r :: rest in
    reports_missing (fst (WebhookInstance_get rc script id))
      C_WebhookNotFoundError (Some id)
    /\ reports_missing (fst (WebhookInstance_delete rc script id))
         C_WebhookNotFoundError (Some id)
    /\ (startsWith id "webhooks" = false ->
        reports_missing (fst (APIKeyInstance_get rc script id))
          C_APIKeyNotFoundError (Some id)
        /\ reports_missing (fst (APIKeyInstance_delete rc script id))
             C_APIKeyNotFoundError (Some id)).
Proof.
  intros id Hne Hf Ht Hv script. subst script.
  destruct (webhook_path id Hne Hf Ht Hv) as [Hd He].
  split; [|split].
  - apply (get_reports T rc r rest _ "webhook");
      [exact not_found | exact not_retried | exact Hd | in_classes | exact He].
  - apply (delete_reports T rc r rest _ "webhook");
      [exact not_found | exact not_retried | exact Hd | in_classes | exact He].
  - intro Hw. destruct (api_key_path id Hne Hf Ht Hv Hw) as [Hd' He']. split.
    + apply (get_reports T rc r rest _ "api_key");
        [exact not_found | exact not_retried | exact Hd' | in_classes | exact He'].
    + apply (delete_reports T rc r rest _ "api_key");
        [exact not_found | exact not_retried | exact Hd' | in_classes | exact He'].
Qed.

(** X25.  The class of a 404 is read off the text of the path, so an id
    that begins with the name of another collection changes it: an id
    beginning with [transcription] is reported as a missing transcription,
    a webhook id beginning with [voicenotes] as a missing voicenote, an API
    key id beginning with [webhooks] as a missing webhook, each without any
    [resourceId]. *)
Theorem id_prefix_misleads_the_classifier :
  forall x : string,
    slash_free x = true ->
    let script := Respond r :: rest in
    reports_missing (fst (VoicenoteInstance_get rc script ("transcription" ++ x)))
      C_TranscriptionNotFoundError None
    /\ reports_missing (fst (WebhookInstance_get rc script ("transcription" ++ x)))
         C_TranscriptionNotFoundError None
    /\ reports_missing (fst (WebhookInstance_get rc script ("voicenotes" ++ x)))
         C_VoicenoteNotFoundError None
    /\ reports_missing (fst (APIKeyInstance_get rc script ("webhooks" ++ x)))
         C_WebhookNotFoundError None.
Proof.
  intros x Hx script. subst script.
  pose proof (slash_free_start x Hx) as Hs.
  split; [|split; [|split]].
  - apply (get_reports T rc r rest _ "transcription");
      [exact not_found | exact not_retried | | in_classes | ].
    + apply detect_by_transcription.
      apply (includes_append_l "voicenotes" ("/transcription" ++ x)),
        includes_here, startsWith_append.
    + unfold extractResourceId.
      cbn [append truthy truthy_string negb interp].
      change (patterns "transcription")
        with (Some (Regex "voicenotes/" (Literal "/transcription"))).
      cbv iota beta.
      assert (Hm : match_at (Regex "voicenotes/" (Literal "/transcription"))
                     ("voicenotes/" ++ "transcription" ++ x) = None).
      { unfold match_at. cbn [re_lit re_tail].
        rewrite startsWith_append, slice_append.
        apply capture_slash_free; [reflexivity|]. cbn. exact Hx. }
      cbn [append] in Hm. rewrite regex_exec_cons, Hm.
      apply regex_exec_needs_lit. absent Hx.
  - apply (get_reports T rc r rest _ "transcription");
      [exact not_found | exact not_retried | | in_classes | ].
    + apply detect_by_transcription.
      apply (includes_append_l "webhooks" ("/transcription" ++ x)),
        includes_here, startsWith_append.
    + apply (extract_nothing "transcription" "voicenotes/"
               (Literal "/transcription")); [reflexivity|]. absent Hx.
  - apply (get_reports T rc r rest _ "voicenote");
      [exact not_found | exact not_retried | | in_classes | ].
    + apply detect_voicenote_by_name; [absent Hx | absent Hx |].
      apply (includes_append_l "webhooks" ("/voicenotes" ++ x)),
        includes_here, startsWith_append.
    + apply (extract_nothing "voicenote" "voicenotes/" SlashOrEnd);
        [reflexivity|]. absent Hx.
  - apply (get_reports T rc r rest _ "webhook");
      [exact not_found | exact not_retried | | in_classes | ].
    + apply detect_webhook_by_name;
        [absent Hx | absent Hx | absent Hx | absent Hx |].
      apply (includes_append_l "account/api-keys" ("/webhooks" ++ x)),
        includes_here, startsWith_append.
    + apply (extract_nothing "webhook" "webhooks/" SlashOrEnd);
        [reflexivity|]. absent Hx.
Qed.

End Missing.

(** A 404 without a body, as the server of the examples sends it. *)
Lemma voicenote_accessors_name_the_missing_voicenote_witness :
  let r404 : AxiosResponse unit :=
    {| status := 404; response_headers := [];
       response_data := {| body_data := None; body_pagination := None;
                           body_error := None |} |} in
  (reports_missing (fst (VoicenoteInstance_get DEFAULT_RETRY_CONFIG
                           [Respond r404] "vn_123"))
     C_VoicenoteNotFoundError (Some "vn_123")
   /\ reports_missing (fst (VoicenoteInstance_delete DEFAULT_RETRY_CONFIG
                              [Respond r404] "vn_123"))
        C_VoicenoteNotFoundError (Some "vn_123"))
  /\ reports_missing (fst (TranscriptionResource_get DEFAULT_RETRY_CONFIG
                             [Respond r404] "vn_123"))
       C_TranscriptionNotFoundError (Some "vn_123").
Proof.
  intro r404.
  destruct (voicenote_accessors_name_the_missing_voicenote unit
              DEFAULT_RETRY_CONFIG r404 [] eq_refl eq_refl "vn_123")
    as [Hv Ht]; [discriminate | reflexivity |].
  split; [exact (Hv eq_refl) | exact Ht].
Defined.

Lemma webhook_and_api_key_accessors_name_the_missing_id_witness :
  let r404 : AxiosResponse unit :=
    {| status := 404; response_headers := [];
       response_data := {| body_data := None; body_pagination := None;
                           body_error := None |} |} in
  reports_missing (fst (WebhookInstance_get DEFAULT_RETRY_CONFIG
                          [Respond r404] "wh_1"))
    C_WebhookNotFoundError (Some "wh_1")
  /\ reports_missing (fst (APIKeyInstance_delete DEFAULT_RETRY_CONFIG
                             [Respond r404] "wh_1"))
       C_APIKeyNotFoundError (Some "wh_1").
Proof.
  intro r404.
  destruct (webhook_and_api_key_accessors_name_the_missing_id unit
              DEFAULT_RETRY_CONFIG r404 [] eq_refl eq_refl "wh_1")
    as (Hg & _ & Hk); [discriminate | reflexivity | reflexivity | reflexivity |].
  split; [exact Hg | exact (proj2 (Hk eq_refl))].
Defined.

Lemma id_prefix_misleads_the_classifier_witness :
  let r404 : AxiosResponse unit :=
    {| status := 404; response_headers := [];
       response_data := {| body_data := None; body_pagination := None;
                           body_error := None |} |} in
  reports_missing (fst (WebhookInstance_get DEFAULT_RETRY_CONFIG
                          [Respond r404] "transcription-hook"))
    C_TranscriptionNotFoundError None.
Proof.
  intro r404.
  destruct (id_prefix_misleads_the_classifier unit DEFAULT_RETRY_CONFIG r404 []
              eq_refl eq_refl "-hook" eq_refl) as (_ & H & _).
  exact H.
Defined.

End ResourcesMore.
